(** * FPL advisor: the feature pipeline of [train_nn_model.ipynb]

    A shallow embedding of the notebook's table pipeline (pandas joins,
    group-by/pivot aggregations, ratio features, the dataset builder) and of
    the Keras training loop it drives, with the properties the specification
    states about them.

    Conventions.
    - A pandas [int64] cell is a [Z] kept in range by [Int64.wrap]; a
      [float64] cell is a [spec_float] of IEEE 754 binary64 (the Standard
      Library's executable specification, [prec = 53], [emax = 1024]), whose
      [S754_nan] is pandas' missing value [NaN].
    - A table is a list of rows; a row is a record with one field per column
      the notebook reads or writes.  A table indexed by an id is a list of
      [(id, row)] pairs.
    - An operation that can raise returns [result].
    - A string read from a file is a Python [str], a list of Unicode code
      points.
    - The order of the rows of a merged frame depends on the version of
      pandas; properties of merged frames are stated about membership or up
      to a permutation of the rows. *)

From Stdlib Require Import ZArith List Bool Lia String Ascii SpecFloat Permutation Sorted.
Import ListNotations.
Open Scope Z_scope.

(* ================================================================== *)
(** * Numeric cells *)

Module Int64.

Definition modulus : Z := 2 ^ 64.
Definition half_modulus : Z := 2 ^ 63.

(** Two's-complement wrap-around of numpy's [int64] arithmetic. *)
Definition wrap (z : Z) : Z := (z + half_modulus) mod modulus - half_modulus.

Definition add (a b : Z) : Z := wrap (a + b).

Definition in_range (z : Z) : Prop := - half_modulus <= z < half_modulus.

End Int64.

Module Float64.

Definition prec : Z := 53.
Definition emax : Z := 1024.

Definition nan : spec_float := S754_nan.
Definition pos_inf : spec_float := S754_infinity false.
Definition neg_inf : spec_float := S754_infinity true.

(** [int64 -> float64] conversion (round to nearest, ties to even). *)
Definition of_int (z : Z) : spec_float := binary_normalize prec emax z 0 false.

Definition add : spec_float -> spec_float -> spec_float := SFadd prec emax.
Definition sub : spec_float -> spec_float -> spec_float := SFsub prec emax.
Definition div : spec_float -> spec_float -> spec_float := SFdiv prec emax.
Definition ltb : spec_float -> spec_float -> bool := SFltb.
Definition leb : spec_float -> spec_float -> bool := SFleb.

Definition is_nan (f : spec_float) : bool :=
  match f with S754_nan => true | _ => false end.

Definition is_inf (f : spec_float) : bool :=
  match f with S754_infinity _ => true | _ => false end.

Definition is_zero (f : spec_float) : bool :=
  match f with S754_zero _ => true | _ => false end.

(** IEEE equality: [NaN] equals nothing, not even itself. *)
Definition eqb : spec_float -> spec_float -> bool := SFeqb.

(** A zero, or a finite number with an exponent of the format. *)
Definition finite (f : spec_float) : Prop :=
  match f with
  | S754_zero _ => True
  | S754_finite _ _ e => emin prec emax <= e
  | _ => False
  end.

End Float64.

(* ================================================================== *)
(** * The fragment of pandas the notebook uses *)

Module Pandas.

(** A numeric cell: the column's dtype decides the constructor. *)
Inductive value : Type :=
| VInt (z : Z)
| VFloat (f : spec_float).

Inductive error : Type :=
| KeyError (column : string).

Inductive result (A : Type) : Type :=
| Ok (a : A)
| Raise (e : error).
Arguments Ok {A} a.
Arguments Raise {A} e.

Definition astype_float (v : value) : spec_float :=
  match v with
  | VInt z => Float64.of_int z
  | VFloat f => f
  end.

(** [isna]: only [NaN] is missing; an infinity is a value. *)
Definition isna (v : value) : bool :=
  match v with
  | VInt _ => false
  | VFloat f => Float64.is_nan f
  end.

(** [a + b] on two columns, cell by cell. *)
Definition value_add (a b : value) : value :=
  match a, b with
  | VInt x, VInt y => VInt (Int64.add x y)
  | _, _ => VFloat (Float64.add (astype_float a) (astype_float b))
  end.

(** [a == b] on two columns, cell by cell: equality of integers on two
    [int64] cells, IEEE equality otherwise, so that a missing value equals
    nothing. *)
Definition value_eq (a b : value) : bool :=
  match a, b with
  | VInt x, VInt y => x =? y
  | _, _ => Float64.eqb (astype_float a) (astype_float b)
  end.

(** [a / b] is true division; the result column is always [float64].
    Integer operands are converted first, so a zero divisor gives an
    infinity or [NaN], exactly as for floats. *)
Definition value_truediv (a b : value) : value :=
  VFloat (Float64.div (astype_float a) (astype_float b)).

(** [k - a] and [a / k] with a Python scalar [k]: float arithmetic. *)
Definition rsub_scalar (k : Z) (a : value) : value :=
  VFloat (Float64.sub (Float64.of_int k) (astype_float a)).

Definition truediv_scalar (a : value) (k : Z) : value :=
  VFloat (Float64.div (astype_float a) (Float64.of_int k)).

(** ** [merge(left, right, left_on=key, right_index=True)]

    The default [how='inner']: every left row is paired with every right
    row whose index label equals the left row's key; a left row with no
    partner, and a right row with none, are dropped.

    Which rows the result has does not depend on the version of pandas; in
    which order they come does: from 2.2 on the left order is kept, before
    that the rows of an inner merge come grouped by key.  The list below is
    in left order.  What the notebook computes from a merged frame does not
    read the order (sums of [int64] cells, lookups by label, filters), and
    what is stated about merged frames is stated about membership or up to
    a permutation of the rows. *)
Definition merge {L R : Type} (key : L -> Z) (left : list L)
           (right : list (Z * R)) : list (L * R) :=
  flat_map
    (fun l => map (fun ir => (l, snd ir))
                  (filter (fun ir => fst ir =? key l) right))
    left.

(** ** [groupby(keys)[col].sum()]

    The result is a series indexed by the group keys that occur, sorted by
    key, each holding the [int64] sum of its group's cells, accumulated in
    row order from 0. *)
Section GroupBy.
Context {K : Type} (compare : K -> K -> comparison).

Fixpoint agg_add (k : K) (v : Z) (acc : list (K * Z)) : list (K * Z) :=
  match acc with
  | [] => [(k, Int64.add 0 v)]
  | (k', s) :: rest =>
      match compare k k' with
      | Eq => (k', Int64.add s v) :: rest
      | Lt => (k, Int64.add 0 v) :: acc
      | Gt => (k', s) :: agg_add k v rest
      end
  end.

Definition groupby_sum (cells : list (K * Z)) : list (K * Z) :=
  fold_left (fun acc kv => agg_add (fst kv) (snd kv) acc) cells [].

(** [series[k]], [None] when the label is absent. *)
Fixpoint lookup (k : K) (s : list (K * Z)) : option Z :=
  match s with
  | [] => None
  | (k', v) :: rest =>
      match compare k k' with
      | Eq => Some v
      | _ => lookup k rest
      end
  end.
End GroupBy.

(** The two-level key [(id, flag)] of the home/away aggregations, ordered
    lexicographically with [False < True]. *)
Definition key : Type := (Z * bool)%type.
Definition series : Type := list (key * Z).

Definition key_compare (a b : key) : comparison :=
  match Z.compare (fst a) (fst b) with
  | Eq => Bool.compare (snd a) (snd b)
  | c => c
  end.

Definition is_none {A : Type} (o : option A) : bool :=
  match o with None => true | Some _ => false end.

(** ** Assigning a series to a frame's column

    [df.assign(col=s)] reindexes [s] by the frame's index labels: a label
    found in the series gets its value, any other label gets [NaN], and the
    column is [float64] as soon as one label is not found. *)
Definition aligned_cell (s : list (Z * Z)) (upcast : bool) (i : Z) : value :=
  match lookup Z.compare i s with
  | Some z => if upcast then VFloat (Float64.of_int z) else VInt z
  | None => VFloat Float64.nan
  end.

Definition reindex (s : list (Z * Z)) (labels : list Z) : list value :=
  let upcast := existsb (fun i => is_none (lookup Z.compare i s)) labels in
  map (aligned_cell s upcast) labels.

(** ** [unstack(level=-1)]

    Long to wide: one row per id of the first key level, one column per
    flag that occurs anywhere in the series.  A (row, column) pair with no
    entry is filled with [NaN]; as soon as one cell is filled the whole
    block is upcast to [float64], otherwise it stays [int64]. *)
Record frame : Type := {
  columns : list bool;
  index : list Z;
  at_ : Z -> bool -> value
}.

Definition has_flag (c : bool) (s : series) : bool :=
  existsb (fun kv => Bool.eqb (snd (fst kv)) c) s.

Definition unstack (s : series) : frame :=
  let idx := nodup Z.eq_dec (map (fun kv => fst (fst kv)) s) in
  let cols := filter (fun c => has_flag c s) [false; true] in
  let upcast :=
    existsb (fun i => existsb (fun c => is_none (lookup key_compare (i, c) s)) cols) idx in
  {| columns := cols;
     index := idx;
     at_ := fun i c =>
              match lookup key_compare (i, c) s with
              | Some z => if upcast then VFloat (Float64.of_int z) else VInt z
              | None => VFloat Float64.nan
              end |}.

Definition has_column (f : frame) (c : bool) : bool :=
  existsb (Bool.eqb c) (columns f).

End Pandas.
Import Pandas.

(* ================================================================== *)
(** * The notebook's tables *)

Module Notebook.

(** ** Loaded tables (the loaders of module [data] are taken as given) *)

(** [players_history[['Game Total Points', 'Game Minutes Played',
    'Game Cost']].reset_index()]: one row per player and fixture. *)
Record history_row : Type := {
  ph_Player_ID : Z;
  ph_Fixture_ID : Z;
  ph_Game_Total_Points : Z;
  ph_Game_Minutes_Played : Z;
  ph_Game_Cost : Z
}.

(** [fixtures], indexed by 'Fixture ID'. *)
Record fixture_row : Type := {
  fx_Home_Team_ID : Z;
  fx_Away_Team_ID : Z;
  fx_Home_Team_Score : Z;
  fx_Away_Team_Score : Z;
  fx_Home_Team_Difficulty : Z;
  fx_Away_Team_Difficulty : Z;
  fx_Game_Week : Z;
  fx_Kick_Off_Time : Z
}.

(** [player_teams], indexed by 'Player ID'. *)
Record player_team_row : Type := {
  pt_Player_Team_ID : Z;
  pt_Field_Position_ID : Z;
  pt_Field_Position : string;
  pt_Name : string;
  pt_Total_Points : Z
}.

(** [team_score_stats], indexed by 'Team ID'. *)
Record team_score_row : Type := {
  tss_Team_Short_Name : string;
  tss_Total_Team_Goals_Scored : Z;
  tss_Total_Team_Goals_Conceded : Z
}.

(** ** [player_team_stats] *)

Record player_team_stats_row : Type := {
  pts_Player_Team_ID : Z;
  pts_Field_Position_ID : Z;
  pts_Field_Position : string;
  pts_Name : string;
  pts_Total_Points : Z;
  pts_Total_Team_Goals_Scored : Z;
  pts_Total_Team_Goals_Conceded : Z;
  pts_Team_Total_Points : value
}.

(** The merge on 'Player Team ID' keeps the left frame's index, so the
    merged frame is still indexed by 'Player ID'. *)
Definition player_teams_merged (player_teams : list (Z * player_team_row))
           (team_score_stats : list (Z * team_score_row))
  : list ((Z * player_team_row) * team_score_row) :=
  merge (fun ir => pt_Player_Team_ID (snd ir)) player_teams team_score_stats.

(** [df.groupby(['Player Team ID'])['Total Points'].sum()]: a series
    indexed by team id. *)
Definition team_total_points_series
           (df : list ((Z * player_team_row) * team_score_row)) : list (Z * Z) :=
  groupby_sum Z.compare
    (map (fun r => (pt_Player_Team_ID (snd (fst r)), pt_Total_Points (snd (fst r))))
         df).

Definition pts_assign (p : player_team_row) (t : team_score_row) (c : value)
  : player_team_stats_row :=
  {| pts_Player_Team_ID := pt_Player_Team_ID p;
     pts_Field_Position_ID := pt_Field_Position_ID p;
     pts_Field_Position := pt_Field_Position p;
     pts_Name := pt_Name p;
     pts_Total_Points := pt_Total_Points p;
     pts_Total_Team_Goals_Scored := tss_Total_Team_Goals_Scored t;
     pts_Total_Team_Goals_Conceded := tss_Total_Team_Goals_Conceded t;
     pts_Team_Total_Points := c |}.

(** The [assign] of 'Team Total Points': the lambda returns the series
    above, indexed by team id, and [assign] aligns it on the frame's
    index, the player ids. *)
Definition player_team_stats (player_teams : list (Z * player_team_row))
           (team_score_stats : list (Z * team_score_row))
  : list (Z * player_team_stats_row) :=
  let df := player_teams_merged player_teams team_score_stats in
  let column := reindex (team_total_points_series df) (map (fun r => fst (fst r)) df) in
  map (fun rc =>
         (fst (fst (fst rc)),
          pts_assign (snd (fst (fst rc))) (snd (fst rc)) (snd rc)))
      (combine df column).

(** ** [players_history_fixtures] *)

Record phf_row : Type := {
  phf_Player_ID : Z;
  phf_Fixture_ID : Z;
  phf_Game_Total_Points : Z;
  phf_Game_Minutes_Played : Z;
  phf_Game_Cost : Z;
  phf_Home_Team_ID : Z;
  phf_Away_Team_ID : Z;
  phf_Home_Team_Score : Z;
  phf_Away_Team_Score : Z;
  phf_Home_Team_Difficulty : Z;
  phf_Away_Team_Difficulty : Z;
  phf_Game_Week : Z;
  phf_Kick_Off_Time : Z;
  phf_Player_Team_ID : Z;
  phf_Field_Position_ID : Z;
  phf_Field_Position : string;
  phf_Name : string;
  phf_Total_Team_Goals_Scored : Z;
  phf_Total_Team_Goals_Conceded : Z;
  phf_Is_Home : bool;
  phf_Opp_Team_ID : Z
}.

(** The row after the two merges and the two [assign] steps:
    'Is Home?' is ['Home Team ID' == 'Player Team ID'], and 'Opp Team ID'
    is picked row by row from the flag just assigned. *)
Definition phf_assign (h : history_row) (f : fixture_row)
           (p : player_team_stats_row) : phf_row :=
  let is_home := fx_Home_Team_ID f =? pts_Player_Team_ID p in
  {| phf_Player_ID := ph_Player_ID h;
     phf_Fixture_ID := ph_Fixture_ID h;
     phf_Game_Total_Points := ph_Game_Total_Points h;
     phf_Game_Minutes_Played := ph_Game_Minutes_Played h;
     phf_Game_Cost := ph_Game_Cost h;
     phf_Home_Team_ID := fx_Home_Team_ID f;
     phf_Away_Team_ID := fx_Away_Team_ID f;
     phf_Home_Team_Score := fx_Home_Team_Score f;
     phf_Away_Team_Score := fx_Away_Team_Score f;
     phf_Home_Team_Difficulty := fx_Home_Team_Difficulty f;
     phf_Away_Team_Difficulty := fx_Away_Team_Difficulty f;
     phf_Game_Week := fx_Game_Week f;
     phf_Kick_Off_Time := fx_Kick_Off_Time f;
     phf_Player_Team_ID := pts_Player_Team_ID p;
     phf_Field_Position_ID := pts_Field_Position_ID p;
     phf_Field_Position := pts_Field_Position p;
     phf_Name := pts_Name p;
     phf_Total_Team_Goals_Scored := pts_Total_Team_Goals_Scored p;
     phf_Total_Team_Goals_Conceded := pts_Total_Team_Goals_Conceded p;
     phf_Is_Home := is_home;
     phf_Opp_Team_ID := if is_home then fx_Away_Team_ID f else fx_Home_Team_ID f |}.

Definition players_history_fixtures (players_history : list history_row)
           (fixtures : list (Z * fixture_row))
           (player_team_stats : list (Z * player_team_stats_row))
  : list phf_row :=
  let with_fixture := merge ph_Fixture_ID players_history fixtures in
  let with_player :=
    merge (fun hf => ph_Player_ID (fst hf)) with_fixture player_team_stats in
  map (fun hfp => phf_assign (fst (fst hfp)) (snd (fst hfp)) (snd hfp)) with_player.

(** The columns of a joined row that came from [players_history]. *)
Definition history_part (r : phf_row) : history_row :=
  {| ph_Player_ID := phf_Player_ID r;
     ph_Fixture_ID := phf_Fixture_ID r;
     ph_Game_Total_Points := phf_Game_Total_Points r;
     ph_Game_Minutes_Played := phf_Game_Minutes_Played r;
     ph_Game_Cost := phf_Game_Cost r |}.

(** ** Home/away point totals: group by, sum, pivot on 'Is Home?' *)

(** [groupby([id, 'Is Home?'])['Game Total Points'].sum().unstack(level=-1)] *)
Definition home_away_pivot (id : phf_row -> Z) (phf : list phf_row) : frame :=
  unstack
    (groupby_sum key_compare
       (map (fun r => ((id r, phf_Is_Home r), phf_Game_Total_Points r)) phf)).

(** One row of [team_point_stats] (index 'Player Team ID') or of
    [team_point_opp_stats] (index 'Team ID', the opponent's id; there the
    columns carry the word 'Opps'). *)
Record team_point_row : Type := {
  tp_Team_ID : Z;
  tp_Total_Points_Away : value;
  tp_Total_Points_Home : value;
  tp_Total_Points : value;
  tp_Home_Away_Ratio : value
}.

(** The two [assign] steps read the renamed columns [False -> '... Away']
    and [True -> '... Home']; a column the pivot did not produce raises
    [KeyError].  'Away' is read first. *)
Definition point_stats (away_name home_name : string) (id : phf_row -> Z)
           (phf : list phf_row) : result (list team_point_row) :=
  let df := home_away_pivot id phf in
  if negb (has_column df false) then Raise (KeyError away_name)
  else if negb (has_column df true) then Raise (KeyError home_name)
  else
    Ok (map (fun i =>
               let away := at_ df i false in
               let home := at_ df i true in
               {| tp_Team_ID := i;
                  tp_Total_Points_Away := away;
                  tp_Total_Points_Home := home;
                  tp_Total_Points := value_add away home;
                  tp_Home_Away_Ratio := value_truediv away home |})
            (index df)).

Definition team_point_stats (phf : list phf_row) : result (list team_point_row) :=
  point_stats "Team Total Points Away" "Team Total Points Home"
              phf_Player_Team_ID phf.

Definition team_point_opp_stats (phf : list phf_row) : result (list team_point_row) :=
  point_stats "Team Total Points Opps Away" "Team Total Points Opps Home"
              phf_Opp_Team_ID phf.

(** ** [team_stats]: the same pivot per field position *)

Record team_stats_row : Type := {
  ts_Field_Position_ID : Z;
  ts_Total_Points_Away : value;
  ts_Total_Points_Home : value;
  ts_Total_Points_Home_Away_Ratio : value
}.

(** [1-(1-df['Total Points Away']/df['Total Points Home'])/2] *)
Definition dampened_ratio (away home : value) : value :=
  rsub_scalar 1 (truediv_scalar (rsub_scalar 1 (value_truediv away home)) 2).

Definition team_stats (phf : list phf_row) : result (list team_stats_row) :=
  let df := home_away_pivot phf_Field_Position_ID phf in
  if negb (has_column df false) then Raise (KeyError "Total Points Away")
  else if negb (has_column df true) then Raise (KeyError "Total Points Home")
  else
    Ok (map (fun i =>
               let away := at_ df i false in
               let home := at_ df i true in
               {| ts_Field_Position_ID := i;
                  ts_Total_Points_Away := away;
                  ts_Total_Points_Home := home;
                  ts_Total_Points_Home_Away_Ratio := dampened_ratio away home |})
            (index df)).

End Notebook.
Import Notebook.

(* ================================================================== *)
(** * [player_fixtures_team_stats] and the dataset builder *)

Module Features.

Definition bind {A B : Type} (r : result A) (k : A -> result B) : result B :=
  match r with
  | Ok a => k a
  | Raise e => Raise e
  end.

Notation "x <- r ;; k" := (bind r (fun x => k))
  (at level 61, r at next level, right associativity).

Record pfts_row : Type := {
  pfts_base : phf_row;
  pfts_Team_Total_Points : value;
  pfts_Opp_Team_Total_Points : value;
  pfts_Team_Total_Points_Opps : value;
  pfts_Opp_Team_Short_Name : string;
  pfts_Total_Opp_Team_Goals_Scored : Z;
  pfts_Total_Opp_Team_Goals_Conceded : Z;
  pfts_Total_Points_Home_Away_Ratio : value
}.

(** Five inner merges on 'Player Team ID', 'Opp Team ID' and
    'Field Position ID' against the per-team and per-position tables. *)
Definition player_fixtures_team_stats (phf : list phf_row)
           (team_score_stats : list (Z * team_score_row))
  : result (list pfts_row) :=
  tps <- team_point_stats phf ;;
  tpos <- team_point_opp_stats phf ;;
  ts <- team_stats phf ;;
  let total := map (fun r => (tp_Team_ID r, tp_Total_Points r)) in
  let m1 := merge phf_Player_Team_ID phf (total tps) in
  let m2 := merge (fun r => phf_Opp_Team_ID (fst r)) m1 (total tps) in
  let m3 := merge (fun r => phf_Player_Team_ID (fst (fst r))) m2 (total tpos) in
  let m4 := merge (fun r => phf_Opp_Team_ID (fst (fst (fst r)))) m3 team_score_stats in
  let m5 :=
    merge (fun r => phf_Field_Position_ID (fst (fst (fst (fst r))))) m4
          (map (fun r => (ts_Field_Position_ID r, ts_Total_Points_Home_Away_Ratio r)) ts) in
  Ok (map (fun r =>
             let '(((((b, own), opp), opps), score), ratio) := r in
             {| pfts_base := b;
                pfts_Team_Total_Points := own;
                pfts_Opp_Team_Total_Points := opp;
                pfts_Team_Total_Points_Opps := opps;
                pfts_Opp_Team_Short_Name := tss_Team_Short_Name score;
                pfts_Total_Opp_Team_Goals_Scored := tss_Total_Team_Goals_Scored score;
                pfts_Total_Opp_Team_Goals_Conceded := tss_Total_Team_Goals_Conceded score;
                pfts_Total_Points_Home_Away_Ratio := ratio |})
          m5).

(** The row filter in front of [calc_player_fixture_stats]:
    [df['Game Minutes Played'] > 0]. *)
Definition played (df : list pfts_row) : list pfts_row :=
  filter (fun r => 0 <? phf_Game_Minutes_Played (pfts_base r)) df.

(** ** Dataset builder *)

(** A cell of a column of any dtype: a number, a boolean, a string, or the
    missing object [None]. *)
Inductive cell : Type :=
| Num (v : value)
| Flag (b : bool)
| Str (s : string)
| NoneObj.

Definition cell_isna (c : cell) : bool :=
  match c with
  | Num v => isna v
  | NoneObj => true
  | _ => false
  end.

(** The columns of [player_fixture_stats] the builder reads.  The table
    comes out of [calc_player_fixture_stats]; any of its cells may be
    missing. *)
Record pfs_row : Type := {
  pfs_GWs_Played_To_GW : value;
  pfs_Field_Position : cell;
  pfs_Avg_Points_Opp_Points_Adj_To_GW : cell;
  pfs_Game_Total_Points : cell;
  pfs_Is_Home : cell;
  pfs_Avg_Minutes_Played_Recently_To_GW : cell;
  pfs_Total_Opp_Team_Goals_Scored_Diff : cell
}.

(** The five features and the target. *)
Record example_row : Type := {
  ex_Field_Position : cell;
  ex_Avg_Points_Opp_Points_Adj_To_GW : cell;
  ex_Game_Total_Points : cell;
  ex_Is_Home : cell;
  ex_Avg_Minutes_Played_Recently_To_GW : cell;
  ex_Total_Opp_Team_Goals_Scored_Diff : cell
}.

(** [column >= k]: a comparison with [NaN] is false. *)
Definition value_ge (v : value) (k : Z) : bool :=
  match v with
  | VInt z => k <=? z
  | VFloat f => Float64.leb (Float64.of_int k) f
  end.

Definition select (r : pfs_row) : example_row :=
  {| ex_Field_Position := pfs_Field_Position r;
     ex_Avg_Points_Opp_Points_Adj_To_GW := pfs_Avg_Points_Opp_Points_Adj_To_GW r;
     ex_Game_Total_Points := pfs_Game_Total_Points r;
     ex_Is_Home := pfs_Is_Home r;
     ex_Avg_Minutes_Played_Recently_To_GW := pfs_Avg_Minutes_Played_Recently_To_GW r;
     ex_Total_Opp_Team_Goals_Scored_Diff := pfs_Total_Opp_Team_Goals_Scored_Diff r |}.

Definition cells (r : example_row) : list cell :=
  [ex_Field_Position r; ex_Avg_Points_Opp_Points_Adj_To_GW r;
   ex_Game_Total_Points r; ex_Is_Home r;
   ex_Avg_Minutes_Played_Recently_To_GW r;
   ex_Total_Opp_Team_Goals_Scored_Diff r].

(** [dropna(how='any', axis=0)] *)
Definition dropna (df : list example_row) : list example_row :=
  filter (fun r => negb (existsb cell_isna (cells r))) df.

(** A row is complete when none of its six cells is missing. *)
Definition complete (r : example_row) : Prop :=
  forall c, In c (cells r) -> cell_isna c = false.

(** The table handed to [nn_split]. *)
Definition examples (player_fixture_stats : list pfs_row) : list example_row :=
  dropna (map select
              (filter (fun r => value_ge (pfs_GWs_Played_To_GW r) 10)
                      player_fixture_stats)).

(** [train_df, test_df = (...).pipe(nn_split, frac=0.8)], for a splitter
    [nn_split] given as a function of the table. *)
Definition train_test (nn_split : list example_row -> list example_row * list example_row)
           (player_fixture_stats : list pfs_row)
  : list example_row * list example_row :=
  nn_split (examples player_fixture_stats).

End Features.
Import Features.

(* ================================================================== *)
(** * The training loop: [model.fit] with an [EarlyStopping] callback *)

Module Keras.

(** The callback's state together with the model's [stop_training] flag. *)
Record early_stopping : Type := {
  wait : nat;
  best : spec_float;
  stopped_epoch : nat;
  stop_training : bool
}.

(** [on_train_begin]: for a monitored loss the comparison is [np.less] and
    [best] starts at [+inf]. *)
Definition on_train_begin : early_stopping :=
  {| wait := 0; best := Float64.pos_inf; stopped_epoch := 0;
     stop_training := false |}.

(** The default [min_delta = 0]. *)
Definition min_delta : spec_float := S754_zero false.

(** [on_epoch_end(epoch, logs)]; [current] is [logs.get('val_loss')]. *)
Definition on_epoch_end (patience : nat) (epoch : nat)
           (current : option spec_float) (st : early_stopping) : early_stopping :=
  match current with
  | None => st
  | Some c =>
      if Float64.ltb (Float64.sub c min_delta) (best st) then
        {| wait := 0; best := c; stopped_epoch := stopped_epoch st;
           stop_training := stop_training st |}
      else
        let w := S (wait st) in
        if (patience <=? w)%nat then
          {| wait := w; best := best st; stopped_epoch := epoch;
             stop_training := true |}
        else
          {| wait := w; best := best st; stopped_epoch := stopped_epoch st;
             stop_training := stop_training st |}
  end.

(** [for epoch in range(epochs)]: one pass over the training partition,
    then the callback, then [if model.stop_training: break].  [remaining]
    counts the epochs still to run; the result is the number of passes
    performed and the final callback state. *)
Fixpoint epochs_from (patience : nat) (val_loss : nat -> option spec_float)
         (remaining epoch : nat) (st : early_stopping) : nat * early_stopping :=
  match remaining with
  | O => (epoch, st)
  | S n =>
      let st' := on_epoch_end patience epoch (val_loss epoch) st in
      if stop_training st' then (S epoch, st')
      else epochs_from patience val_loss n (S epoch) st'
  end.

Definition fit (epochs patience : nat) (val_loss : nat -> option spec_float)
  : nat * early_stopping :=
  epochs_from patience val_loss epochs 0%nat on_train_begin.

(** The notebook's call: [epochs=60], [patience=100]. *)
Definition notebook_epochs : nat := 60.
Definition notebook_patience : nat := 100.

Definition train (val_loss : nat -> option spec_float) : nat * early_stopping :=
  fit notebook_epochs notebook_patience val_loss.

End Keras.

(* ================================================================== *)
(** * Helpers of modules [data] and [nn], which the notebook only calls *)

Module Helpers.

(** ** [calc_player_fixture_stats] *)

Record player_fixture_stats_row : Type := {
  st_row : pfts_row;
  st_GWs_Played_To_GW : value;
  st_Avg_Points_To_GW : value;
  st_Avg_Points_Opp_Points_Adj_To_GW : value;
  st_Avg_Minutes_Played_Recently_To_GW : value;
  st_Total_Opp_Team_Goals_Scored_Diff : value
}.

Definition player_id (r : pfts_row) : Z := phf_Player_ID (pfts_base r).
Definition fixture_id (r : pfts_row) : Z := phf_Fixture_ID (pfts_base r).
Definition game_week (r : pfts_row) : Z := phf_Game_Week (pfts_base r).
Definition points (r : pfts_row) : Z := phf_Game_Total_Points (pfts_base r).
Definition minutes (r : pfts_row) : Z := phf_Game_Minutes_Played (pfts_base r).

(** Modelled from the spec: the history a statistic 'to GW' is computed
    from is the player's rows of the gameweeks before the row's own, the
    row's own score not yet included (section 8: points 2, 5, 3 give the
    averages missing, 2, 3.5). *)
Definition earlier (r r' : pfts_row) : bool :=
  (player_id r' =? player_id r) && (game_week r' <? game_week r).

Definition prior (df : list pfts_row) (r : pfts_row) : list pfts_row :=
  filter (earlier r) df.

(** Modelled from the spec: the 'recent trailing window' of section 4.3,
    the prior rows of the last [window] gameweeks. *)
Definition recent (window : Z) (df : list pfts_row) (r : pfts_row) : list pfts_row :=
  filter (fun r' => game_week r - window <=? game_week r') (prior df r).

Definition column_sum (col : pfts_row -> Z) (rows : list pfts_row) : Z :=
  fold_left Int64.add (map col rows) 0.

(** Modelled from the spec: the 'count of distinct gameweeks played'. *)
Definition gameweeks (rows : list pfts_row) : Z :=
  Z.of_nat (List.length (nodup Z.eq_dec (map game_week rows))).

(** Modelled from the spec: an average per gameweek; over no gameweek it
    is missing ('averages -> missing, counts -> zero'). *)
Definition average (total count : Z) : value :=
  if count =? 0 then VFloat Float64.nan
  else value_truediv (VInt total) (VInt count).

(** Modelled from the spec: the sum of a column of numeric cells, and its
    average per gameweek, missing over no gameweek. *)
Definition value_sum (cells : list value) : value :=
  fold_left value_add cells (VInt 0).

Definition average_value (total : value) (count : Z) : value :=
  if count =? 0 then VFloat Float64.nan
  else value_truediv total (VInt count).

(** Modelled from the spec: the statistics of one row, as section 4.3
    lists them.  'Avg Points Opp Points Adj To GW' is 'a variant' of the
    average points per gameweek to date 'adjusted by opponent strength
    (weighting/normalizing by the opponent's total points allowed)': the
    average per gameweek of the adjusted points of the earlier fixtures.
    The specification does not give the form of the adjustment:
    [adjusted r] stands for the adjusted points of the fixture of row [r],
    a function of the columns of that row. *)
Definition stats_of (window : Z) (adjusted : pfts_row -> value)
           (df : list pfts_row) (r : pfts_row)
  : player_fixture_stats_row :=
  {| st_row := r;
     st_GWs_Played_To_GW := VInt (gameweeks (prior df r));
     st_Avg_Points_To_GW :=
       average (column_sum points (prior df r)) (gameweeks (prior df r));
     st_Avg_Points_Opp_Points_Adj_To_GW :=
       average_value (value_sum (map adjusted (prior df r)))
                     (gameweeks (prior df r));
     st_Avg_Minutes_Played_Recently_To_GW :=
       average (column_sum minutes (recent window df r))
               (gameweeks (recent window df r));
     st_Total_Opp_Team_Goals_Scored_Diff :=
       VInt (Int64.add (phf_Total_Team_Goals_Conceded (pfts_base r))
                       (- pfts_Total_Opp_Team_Goals_Scored r)) |}.

(** Modelled from the spec: [calc_player_fixture_stats] is defined in the
    local module [data], which is not among the sources.  Section 4.3 of
    the specification describes it: per row, the count of distinct
    gameweeks played so far, the average points per gameweek to date, the
    average minutes over a recent trailing window, and the difference
    between the team's conceded-goals total and the opponent's
    scored-goals total; on a player's first gameweek counts are zero and
    averages are missing.  The window length and the adjustment by the
    opponent's strength are not given and are parameters here. *)
Definition calc_player_fixture_stats (window : Z) (adjusted : pfts_row -> value)
           (df : list pfts_row)
  : list player_fixture_stats_row :=
  map (stats_of window adjusted df) df.

(** [player_fixture_stats]: the notebook's filter on minutes played, then
    the calculator. *)
Definition player_fixture_stats (window : Z) (adjusted : pfts_row -> value)
           (df : list pfts_row)
  : list player_fixture_stats_row :=
  calc_player_fixture_stats window adjusted (played df).

(** The notebook from the joined table to [player_fixture_stats]. *)
Definition pipeline (window : Z) (adjusted : pfts_row -> value)
           (phf : list phf_row) (team_score_stats : list (Z * team_score_row))
  : result (list player_fixture_stats_row) :=
  match player_fixtures_team_stats phf team_score_stats with
  | Ok t => Ok (player_fixture_stats window adjusted t)
  | Raise e => Raise e
  end.

(** The rows of a player in a fixture. *)
Definition rows_for (player fixture : Z) (t : list player_fixture_stats_row)
  : list player_fixture_stats_row :=
  filter (fun o => (player_id (st_row o) =? player)
                   && (fixture_id (st_row o) =? fixture)) t.

(** ** [nn_split] *)

(** Modelled from the spec: a seeded random generator, as the order in
    which it draws the positions [0 .. n-1] of a table of [n] rows. *)
Definition generator : Type := Z -> nat -> list nat.

(** Modelled from the spec: 80% of [n] rows, rounded to the nearest whole
    number of rows. *)
Definition train_size (n : nat) : nat := ((8 * n + 5) / 10)%nat.

Fixpoint take_rows {A : Type} (df : list A) (positions : list nat) : list A :=
  match positions with
  | [] => []
  | i :: rest =>
      match nth_error df i with
      | Some r => r :: take_rows df rest
      | None => take_rows df rest
      end
  end.

Definition drop_rows {A : Type} (df : list A) (positions : list nat) : list A :=
  map snd
      (filter (fun ir => negb (existsb (Nat.eqb (fst ir)) positions))
              (combine (seq 0 (List.length df)) df)).

(** Modelled from the spec: [nn_split] is defined in the local module
    [nn], which is not among the sources.  Section 4.4 of the
    specification describes it: a randomized split into a train (80%) and
    a test (20%) partition using a fixed, reproducible random seed.  The
    train partition is the rows the generator, seeded with [seed], draws
    first; the test partition is the remaining rows.  The ambient
    generator state [ambient] of the run is threaded through and is
    neither read nor changed. *)
Definition nn_split {A : Type} (rng : generator) (seed : Z) (ambient : Z)
           (df : list A) : (list A * list A) * Z :=
  let drawn := firstn (train_size (List.length df)) (rng seed (List.length df)) in
  ((take_rows df drawn, drop_rows df drawn), ambient).

(** A generator draws every position exactly once. *)
Definition draws_permutations (rng : generator) : Prop :=
  forall seed n, Permutation (rng seed n) (seq 0 n).

(** A concrete generator for examples: positions shifted cyclically by the
    seed. *)
Definition rotate (seed : Z) (n : nat) : list nat :=
  let k := Z.to_nat (seed mod Z.of_nat (Nat.max n 1)) in
  skipn k (seq 0 n) ++ firstn k (seq 0 n).

End Helpers.

(* ================================================================== *)
(** * Reference definitions the properties are stated against *)

Module Reference.

Definition Zsum (l : list Z) : Z := fold_right Z.add 0 l.

Definition is_eq (c : comparison) : bool :=
  match c with Eq => true | _ => false end.

(** The cells of one group, in row order. *)
Definition group {K : Type} (compare : K -> K -> comparison) (k : K)
           (cells : list (K * Z)) : list Z :=
  map snd (filter (fun kv => is_eq (compare k (fst kv))) cells).

(** The sum of a group, when the group has a row. *)
Definition group_total {K : Type} (compare : K -> K -> comparison) (k : K)
           (cells : list (K * Z)) : option Z :=
  match group compare k cells with
  | [] => None
  | g => Some (Int64.wrap (Zsum g))
  end.

(** A series is strictly increasing in its keys. *)
Fixpoint increasing {K : Type} (compare : K -> K -> comparison)
         (s : list (K * Z)) : Prop :=
  match s with
  | [] => True
  | (k, _) :: rest =>
      (forall k', In k' (map fst rest) -> compare k k' = Lt)
      /\ increasing compare rest
  end.

(** The cells of the pivot's series: one per joined row. *)
Definition cells_of (id : phf_row -> Z) (phf : list phf_row) : list (key * Z) :=
  map (fun r => ((id r, phf_Is_Home r), phf_Game_Total_Points r)) phf.

(** The rows of the joined table with a given id and home/away flag. *)
Definition rows_of (id : phf_row -> Z) (i : Z) (flag : bool)
           (phf : list phf_row) : list phf_row :=
  filter (fun r => (id r =? i) && Bool.eqb (phf_Is_Home r) flag) phf.

(** The home ([flag = true]) or away ([flag = false]) points total of id
    [i]: the sum of 'Game Total Points' over its rows, [None] when it has
    no such row. *)
Definition points_total (id : phf_row -> Z) (i : Z) (flag : bool)
           (phf : list phf_row) : option Z :=
  match rows_of id i flag phf with
  | [] => None
  | g => Some (Int64.wrap (Zsum (map phf_Game_Total_Points g)))
  end.

(** A total as a [float64]: a total over no row is missing. *)
Definition total_float (t : option Z) : spec_float :=
  match t with
  | Some z => Float64.of_int z
  | None => Float64.nan
  end.

(** The ratio [away / home] of two totals in [float64] arithmetic, case
    by case: a quotient for a nonzero home total; for a zero home total a
    signed infinity, or [NaN] when the away total is zero too; [NaN] when
    either total is over no row. *)
Definition expected_ratio (away home : option Z) : spec_float :=
  match away, home with
  | Some a, Some h =>
      if h =? 0 then
        if a =? 0 then Float64.nan
        else if a <? 0 then Float64.neg_inf
        else Float64.pos_inf
      else Float64.div (Float64.of_int a) (Float64.of_int h)
  | _, _ => Float64.nan
  end.

(** [1 - (1 - away/home) / 2] in [float64] arithmetic. *)
Definition dampen (away home : spec_float) : spec_float :=
  Float64.sub (Float64.of_int 1)
    (Float64.div
       (Float64.sub (Float64.of_int 1) (Float64.div away home))
       (Float64.of_int 2)).

(** The sum of 'Total Points' over the players of a team. *)
Definition team_points (team : Z) (players : list (Z * player_team_stats_row)) : Z :=
  Zsum (map (fun ir => pts_Total_Points (snd ir))
            (filter (fun ir => pts_Player_Team_ID (snd ir) =? team) players)).

(** A float that is neither zero nor [NaN], with sign [s]. *)
Definition nonzero_signed (s : bool) (f : spec_float) : Prop :=
  (exists m e, f = S754_finite s m e) \/ f = S754_infinity s.

Definition three_quarters : spec_float := S754_finite false 6755399441055744 (-53).

End Reference.
Import Reference.

(* ================================================================== *)
(** * A small season used by the examples *)

Module Season.

Definition fixture (home away gw : Z) : fixture_row :=
  {| fx_Home_Team_ID := home; fx_Away_Team_ID := away;
     fx_Home_Team_Score := 0; fx_Away_Team_Score := 0;
     fx_Home_Team_Difficulty := 2; fx_Away_Team_Difficulty := 3;
     fx_Game_Week := gw; fx_Kick_Off_Time := gw * 7 |}.

(** Fixture 1: team 1 at home to team 2; fixture 2: the return match. *)
Definition fixtures : list (Z * fixture_row) :=
  [(1, fixture 1 2 1); (2, fixture 2 1 2)].

Definition player (team position : Z) (label name : string) (points : Z)
  : player_team_row :=
  {| pt_Player_Team_ID := team; pt_Field_Position_ID := position;
     pt_Field_Position := label; pt_Name := name; pt_Total_Points := points |}.

(** Players 1 and 2 play for team 1, player 3 for team 2. *)
Definition player_teams : list (Z * player_team_row) :=
  [(1, player 1 3 "MID" "Ann" 10);
   (2, player 1 2 "DEF" "Bob" 5);
   (3, player 2 4 "FWD" "Cyd" 7)].

Definition team_score_stats : list (Z * team_score_row) :=
  [(1, {| tss_Team_Short_Name := "AAA"; tss_Total_Team_Goals_Scored := 3;
          tss_Total_Team_Goals_Conceded := 1 |});
   (2, {| tss_Team_Short_Name := "BBB"; tss_Total_Team_Goals_Scored := 1;
          tss_Total_Team_Goals_Conceded := 3 |})].

Definition appearance (player fixture points minutes : Z) : history_row :=
  {| ph_Player_ID := player; ph_Fixture_ID := fixture;
     ph_Game_Total_Points := points; ph_Game_Minutes_Played := minutes;
     ph_Game_Cost := 50 |}.

(** Team 1 scores nothing at home and 5 points away.  The last two rows
    name a fixture and a player that do not exist. *)
Definition players_history : list history_row :=
  [appearance 1 1 0 90; appearance 1 2 5 90;
   appearance 2 1 0 0;
   appearance 3 1 2 90; appearance 3 2 6 45;
   appearance 1 9 4 90; appearance 99 1 4 90].

Definition stats : list (Z * player_team_stats_row) :=
  player_team_stats player_teams team_score_stats.

Definition joined : list phf_row :=
  players_history_fixtures players_history fixtures stats.

(** A second history: player 1, the only midfielder, scores 10 points at
    home and 5 away. *)
Definition players_history_10_5 : list history_row :=
  [appearance 1 1 10 90; appearance 1 2 5 90;
   appearance 3 1 2 90; appearance 3 2 6 45].

Definition joined_10_5 : list phf_row :=
  players_history_fixtures players_history_10_5 fixtures stats.

(** A history in which nobody ever plays at home. *)
Definition players_history_away : list history_row :=
  [appearance 1 2 5 90; appearance 3 1 2 90].

Definition joined_away : list phf_row :=
  players_history_fixtures players_history_away fixtures stats.

(** Two rows of [joined]: player 1 in fixture 1 and in fixture 2. *)
Definition ann : player_team_stats_row :=
  {| pts_Player_Team_ID := 1; pts_Field_Position_ID := 3;
     pts_Field_Position := "MID"; pts_Name := "Ann"; pts_Total_Points := 10;
     pts_Total_Team_Goals_Scored := 3; pts_Total_Team_Goals_Conceded := 1;
     pts_Team_Total_Points := VFloat (Float64.of_int 15) |}.

Definition home_row : phf_row :=
  phf_assign (appearance 1 1 0 90) (fixture 1 2 1) ann.

Definition away_row : phf_row :=
  phf_assign (appearance 1 2 5 90) (fixture 2 1 2) ann.

(** An adjustment for the examples: the points of a fixture over the total
    points of the opponent's team. *)
Definition over_opponent_total (r : pfts_row) : value :=
  value_truediv (VInt (Helpers.points r)) (pfts_Opp_Team_Total_Points r).

(** The specification's scenario: one player in three fixtures of three
    gameweeks, with points 2, 5, 3 and minutes 90, 90, 45. *)
Definition scenario_row (fixture_id gw points minutes : Z) : pfts_row :=
  {| pfts_base :=
       phf_assign (appearance 1 fixture_id points minutes)
                  (fixture 1 2 gw) ann;
     pfts_Team_Total_Points := VInt 10;
     pfts_Opp_Team_Total_Points := VInt 8;
     pfts_Team_Total_Points_Opps := VInt 8;
     pfts_Opp_Team_Short_Name := "BBB";
     pfts_Total_Opp_Team_Goals_Scored := 1;
     pfts_Total_Opp_Team_Goals_Conceded := 3;
     pfts_Total_Points_Home_Away_Ratio := VFloat three_quarters |}.

Definition scenario : list pfts_row :=
  [scenario_row 1 1 2 90; scenario_row 2 2 5 90; scenario_row 3 3 3 45].

(** The same season seen after gameweek 2 only. *)
Definition scenario_to_gw2 : list pfts_row :=
  [scenario_row 1 1 2 90; scenario_row 2 2 5 90].

(** Rows of [player_fixture_stats] as the builder reads them: a complete
    one, one whose average is missing, one with too few gameweeks. *)
Definition stats_row (gws : Z) (avg : spec_float) : pfs_row :=
  {| pfs_GWs_Played_To_GW := VInt gws;
     pfs_Field_Position := Str "MID";
     pfs_Avg_Points_Opp_Points_Adj_To_GW := Num (VFloat avg);
     pfs_Game_Total_Points := Num (VInt 6);
     pfs_Is_Home := Flag true;
     pfs_Avg_Minutes_Played_Recently_To_GW := Num (VFloat (Float64.of_int 90));
     pfs_Total_Opp_Team_Goals_Scored_Diff := Num (VInt 2) |}.

Definition builder_input : list pfs_row :=
  [stats_row 12 (Float64.of_int 4); stats_row 12 Float64.nan;
   stats_row 3 (Float64.of_int 4)].

(** A splitter for the examples: the modelled [nn_split] with the cyclic
    generator. *)
Definition split_rows {A : Type} (df : list A) : list A * list A :=
  fst (Helpers.nn_split Helpers.rotate 1 0 df).

(** The tables the pipeline computes from [joined]. *)
Definition team_1 : team_point_row :=
  {| tp_Team_ID := 1; tp_Total_Points_Away := VInt 5;
     tp_Total_Points_Home := VInt 0; tp_Total_Points := VInt 5;
     tp_Home_Away_Ratio := VFloat Float64.pos_inf |}.

Definition team_2 : team_point_row :=
  {| tp_Team_ID := 2; tp_Total_Points_Away := VInt 2;
     tp_Total_Points_Home := VInt 6; tp_Total_Points := VInt 8;
     tp_Home_Away_Ratio := VFloat (S754_finite false 6004799503160661 (-54)) |}.

Definition team_point_table : list team_point_row := [team_1; team_2].

Definition opp_1 : team_point_row :=
  {| tp_Team_ID := 1; tp_Total_Points_Away := VInt 2;
     tp_Total_Points_Home := VInt 6; tp_Total_Points := VInt 8;
     tp_Home_Away_Ratio := VFloat (S754_finite false 6004799503160661 (-54)) |}.

Definition opp_2 : team_point_row :=
  {| tp_Team_ID := 2; tp_Total_Points_Away := VInt 5;
     tp_Total_Points_Home := VInt 0; tp_Total_Points := VInt 5;
     tp_Home_Away_Ratio := VFloat Float64.pos_inf |}.

Definition team_point_opp_table : list team_point_row := [opp_1; opp_2].

(** The table the pipeline computes from [joined_10_5]. *)
Definition midfielders : team_stats_row :=
  {| ts_Field_Position_ID := 3; ts_Total_Points_Away := VInt 5;
     ts_Total_Points_Home := VInt 10;
     ts_Total_Points_Home_Away_Ratio := VFloat three_quarters |}.

Definition forwards : team_stats_row :=
  {| ts_Field_Position_ID := 4; ts_Total_Points_Away := VInt 2;
     ts_Total_Points_Home := VInt 6;
     ts_Total_Points_Home_Away_Ratio :=
       VFloat (S754_finite false 6004799503160661 (-53)) |}.

Definition team_stats_table : list team_stats_row := [midfielders; forwards].

End Season.

(* ================================================================== *)
(** * The loader of [players_history]: the player id inside the name *)

Module Loader.

(** A name of [merged_gw.csv] is a Python [str]: a sequence of Unicode
    code points. *)
Definition char : Type := Z.
Definition name : Type := list char.

Definition underscore : char := 95.
Definition newline : char := 10.

Inductive load_error : Type :=
| ValueError
| OverflowError.

Inductive loaded (A : Type) : Type :=
| Loaded (a : A)
| Failed (e : load_error).
Arguments Loaded {A} a.
Arguments Failed {A} e.

(** [c+] followed by the rest [k] of the pattern: greedy, giving characters
    back one at a time when the rest does not match. *)
Fixpoint match_plus {R : Type} (class : char -> bool) (s : name)
         (k : name -> option R) : option R :=
  match s with
  | [] => None
  | c :: s' =>
      if class c then
        match match_plus class s' k with
        | Some r => Some r
        | None => k s'
        end
      else None
  end.

(** [(c+)] followed by the rest of the pattern: as [match_plus], handing the
    captured characters to the rest. *)
Fixpoint capture_plus {R : Type} (class : char -> bool) (s : name)
         (k : name -> name -> option R) : option R :=
  match s with
  | [] => None
  | c :: s' =>
      if class c then
        match capture_plus class s' (fun group rest => k (c :: group) rest) with
        | Some r => Some r
        | None => k [c] s'
        end
      else None
  end.

(** [$]: the end of the string, or just before a newline that ends it. *)
Definition at_end (s : name) : bool :=
  match s with
  | [] => true
  | [c] => c =? newline
  | _ => false
  end.

Section Interpreter.

(** The decimal digits of the Unicode database the interpreter was built
    with: [decimal c] is the digit value of a code point of category Nd,
    and [None] for any other code point.  The class [\d] of a [str]
    pattern and the conversion [int] both go by it, so a digit need not be
    one of ['0'] to ['9']. *)
Variable decimal : char -> option Z.

(** The interpreter's limit on the number of digits [int] converts (4300
    by default from Python 3.11 on, leading zeros counted), [None] where
    there is no limit. *)
Variable max_str_digits : option nat.

Definition is_digit (c : char) : bool :=
  match decimal c with Some _ => true | None => false end.

Definition non_digit (c : char) : bool := negb (is_digit c).

(** The pattern [[^\d]+\_(\d+)$] matched at the start of [s]; the result
    is the group. *)
Definition match_here (s : name) : option name :=
  match_plus non_digit s
    (fun s1 =>
       match s1 with
       | c :: s2 =>
           if c =? underscore then
             capture_plus is_digit s2
               (fun group rest => if at_end rest then Some group else None)
           else None
       | [] => None
       end).

(** [re.search]: the first position, from the left, at which the pattern
    matches. *)
Fixpoint search (s : name) : option name :=
  match match_here s with
  | Some group => Some group
  | None =>
      match s with
      | [] => None
      | _ :: s' => search s'
      end
  end.

Definition digit_value (c : char) : Z :=
  match decimal c with Some d => d | None => 0 end.

(** [int] of a string of decimal digits. *)
Definition int_of_digits (ds : name) : Z :=
  fold_left (fun acc c => 10 * acc + digit_value c) ds 0.

(** More digits than [int] converts. *)
Definition too_long (ds : name) : bool :=
  match max_str_digits with
  | Some limit => (limit <? List.length ds)%nat
  | None => false
  end.

(** [str.extract(pattern)] then [astype('int')] on one name: a name without
    a match extracts to [NaN], which does not convert to an integer; a
    string of more digits than [int] converts does not convert, and a
    number beyond [int64] does not either. *)
Definition extract_player_id (n : name) : loaded Z :=
  match search n with
  | None => Failed ValueError
  | Some group =>
      if too_long group then Failed ValueError
      else if int_of_digits group <? Int64.half_modulus
           then Loaded (int_of_digits group)
           else Failed OverflowError
  end.

(** The column 'Player ID' of the whole table: the first name that does not
    convert fails the load. *)
Fixpoint assign_player_ids (names : list name) : loaded (list Z) :=
  match names with
  | [] => Loaded []
  | n :: rest =>
      match extract_player_id n with
      | Failed e => Failed e
      | Loaded i =>
          match assign_player_ids rest with
          | Failed e => Failed e
          | Loaded ids => Loaded (i :: ids)
          end
      end
  end.

End Interpreter.

(** The decimal digits of Unicode 14.0, for the examples: the category Nd
    is made of runs of ten code points, the digits 0 to 9 in order; these
    are the zeros of the runs. *)
Definition decimal_zeros : list Z :=
  [48; 1632; 1776; 1984; 2406; 2534; 2662; 2790; 2918; 3046; 3174;
   3302; 3430; 3558; 3664; 3792; 3872; 4160; 4240; 6112; 6160; 6470;
   6608; 6784; 6800; 6992; 7088; 7232; 7248; 42528; 43216; 43264;
   43472; 43504; 43600; 44016; 65296; 66720; 68912; 69734; 69872;
   69942; 70096; 70384; 70736; 70864; 71248; 71360; 71472; 71904;
   72016; 72784; 73040; 73120; 92768; 92864; 93008; 120782; 120792;
   120802; 120812; 120822; 123200; 123632; 125264; 130032].

Definition unicode_decimal (c : char) : option Z :=
  match find (fun zero => (zero <=? c) && (c <=? zero + 9)) decimal_zeros with
  | Some zero => Some (c - zero)
  | None => None
  end.

End Loader.

(* ================================================================== *)
(** * Further reference definitions and example data *)

Module Reference2.

Fixpoint take_while {A : Type} (p : A -> bool) (l : list A) : list A :=
  match l with
  | [] => []
  | a :: l' => if p a then a :: take_while p l' else []
  end.

Fixpoint drop_while {A : Type} (p : A -> bool) (l : list A) : list A :=
  match l with
  | [] => []
  | a :: l' => if p a then drop_while p l' else l
  end.

(** [i] is an index label of the table. *)
Definition has_label {R : Type} (i : Z) (table : list (Z * R)) : bool :=
  existsb (Z.eqb i) (map fst table).

(** The rows of the joined table that the five merges of
    [player_fixtures_team_stats] keep: the opponent must be the team of some
    joined row, the team must be the opponent of some joined row, and the
    opponent must have a row in [team_score_stats]. *)
Definition kept (phf : list phf_row) (team_score_stats : list (Z * team_score_row))
           (b : phf_row) : bool :=
  existsb (fun r => phf_Player_Team_ID r =? phf_Opp_Team_ID b) phf
  && existsb (fun r => phf_Opp_Team_ID r =? phf_Player_Team_ID b) phf
  && has_label (phf_Opp_Team_ID b) team_score_stats.

(** A history row both of whose keys are index labels. *)
Definition matched (fixtures : list (Z * fixture_row))
           (stats : list (Z * player_team_stats_row)) (h : history_row) : bool :=
  has_label (ph_Fixture_ID h) fixtures && has_label (ph_Player_ID h) stats.

End Reference2.
Import Reference2.

Module Season2.

(** Team 1 only ever plays away: player 1 appears in fixture 2 alone. *)
Definition players_history_one_sided : list history_row :=
  [Season.appearance 1 2 5 90;
   Season.appearance 3 1 2 90; Season.appearance 3 2 6 45].

Definition joined_one_sided : list phf_row :=
  players_history_fixtures players_history_one_sided Season.fixtures Season.stats.

Definition team_1_one_sided : team_point_row :=
  {| tp_Team_ID := 1;
     tp_Total_Points_Away := VFloat (Float64.of_int 5);
     tp_Total_Points_Home := VFloat Float64.nan;
     tp_Total_Points := VFloat Float64.nan;
     tp_Home_Away_Ratio := VFloat Float64.nan |}.

(** The midfielders of [Season.joined]: no points at home, 5 away. *)
Definition midfielders_zero_home : team_stats_row :=
  {| ts_Field_Position_ID := 3;
     ts_Total_Points_Away := VFloat (Float64.of_int 5);
     ts_Total_Points_Home := VFloat (Float64.of_int 0);
     ts_Total_Points_Home_Away_Ratio := VFloat Float64.pos_inf |}.

Definition team_point_table_one_sided : list team_point_row :=
  [team_1_one_sided;
   {| tp_Team_ID := 2;
      tp_Total_Points_Away := VFloat (Float64.of_int 2);
      tp_Total_Points_Home := VFloat (Float64.of_int 6);
      tp_Total_Points := VFloat (Float64.of_int 8);
      tp_Home_Away_Ratio := VFloat (S754_finite false 6004799503160661 (-54)) |}].

(** [team_stats] of [Season.joined]: the defenders have no away row, so
    every cell is [float64]. *)
Definition team_stats_table_zero_home : list team_stats_row :=
  [{| ts_Field_Position_ID := 2;
      ts_Total_Points_Away := VFloat Float64.nan;
      ts_Total_Points_Home := VFloat (Float64.of_int 0);
      ts_Total_Points_Home_Away_Ratio := VFloat Float64.nan |};
   midfielders_zero_home;
   {| ts_Field_Position_ID := 4;
      ts_Total_Points_Away := VFloat (Float64.of_int 2);
      ts_Total_Points_Home := VFloat (Float64.of_int 6);
      ts_Total_Points_Home_Away_Ratio :=
        VFloat (S754_finite false 6004799503160661 (-53)) |}].

(** [player_fixtures_team_stats] of the example season, and its first row:
    player 1 at home in fixture 1. *)
Definition feature_table : list pfts_row :=
  match player_fixtures_team_stats Season.joined Season.team_score_stats with
  | Ok t => t
  | Raise _ => []
  end.

Definition first_feature_row : pfts_row :=
  {| pfts_base := Season.home_row;
     pfts_Team_Total_Points := VInt 5;
     pfts_Opp_Team_Total_Points := VInt 8;
     pfts_Team_Total_Points_Opps := VInt 8;
     pfts_Opp_Team_Short_Name := "BBB";
     pfts_Total_Opp_Team_Goals_Scored := 1;
     pfts_Total_Opp_Team_Goals_Conceded := 3;
     pfts_Total_Points_Home_Away_Ratio := VFloat Float64.pos_inf |}.

(** A season in which team 3 is met but has no player in the data. *)
Definition fixtures_with_stranger : list (Z * fixture_row) :=
  [(1, Season.fixture 1 2 1); (2, Season.fixture 2 1 2); (3, Season.fixture 1 3 3)].

Definition players_history_with_stranger : list history_row :=
  [Season.appearance 1 1 0 90; Season.appearance 1 2 5 90;
   Season.appearance 3 1 2 90; Season.appearance 3 2 6 45;
   Season.appearance 1 3 4 90].

Definition joined_with_stranger : list phf_row :=
  players_history_fixtures players_history_with_stranger fixtures_with_stranger
                           Season.stats.

Definition team_score_stats_with_stranger : list (Z * team_score_row) :=
  Season.team_score_stats
  ++ [(3, {| tss_Team_Short_Name := "CCC"; tss_Total_Team_Goals_Scored := 0;
             tss_Total_Team_Goals_Conceded := 2 |})].

Definition feature_table_with_stranger : list pfts_row :=
  match player_fixtures_team_stats joined_with_stranger
                                   team_score_stats_with_stranger with
  | Ok t => t
  | Raise _ => []
  end.



(** A season of three teams over three gameweeks.  Team 1 is at home to
    team 3 in gameweek 1 and away at team 2 in gameweek 2; team 3 is at
    home to team 2 in gameweek 3.  The player of team 3 appears in
    gameweek 3 only. *)
Definition fixtures_three : list (Z * fixture_row) :=
  [(1, Season.fixture 1 3 1); (2, Season.fixture 2 1 2); (3, Season.fixture 3 2 3)].

Definition player_teams_three : list (Z * player_team_row) :=
  [(1, Season.player 1 3 "MID" "Ann" 7);
   (2, Season.player 2 4 "FWD" "Cyd" 9);
   (3, Season.player 3 2 "DEF" "Eve" 4)].

Definition team_score_stats_three : list (Z * team_score_row) :=
  [(1, {| tss_Team_Short_Name := "AAA"; tss_Total_Team_Goals_Scored := 3;
          tss_Total_Team_Goals_Conceded := 1 |});
   (2, {| tss_Team_Short_Name := "BBB"; tss_Total_Team_Goals_Scored := 1;
          tss_Total_Team_Goals_Conceded := 3 |});
   (3, {| tss_Team_Short_Name := "CCC"; tss_Total_Team_Goals_Scored := 2;
          tss_Total_Team_Goals_Conceded := 2 |})].

Definition history_three : list history_row :=
  [Season.appearance 1 1 2 90; Season.appearance 1 2 5 90;
   Season.appearance 2 2 6 90;
   Season.appearance 2 3 3 90; Season.appearance 3 3 4 90].

(** The same season when gameweek 2 has been played and gameweek 3 has
    not. *)
Definition history_to_gw2 : list history_row :=
  [Season.appearance 1 1 2 90; Season.appearance 1 2 5 90;
   Season.appearance 2 2 6 90].

Definition joined_three : list phf_row :=
  players_history_fixtures history_three fixtures_three
    (player_team_stats player_teams_three team_score_stats_three).

Definition joined_to_gw2 : list phf_row :=
  players_history_fixtures history_to_gw2 fixtures_three
    (player_team_stats player_teams_three team_score_stats_three).

(** The code points of a string of ASCII characters. *)
Definition name_of (s : string) : Loader.name :=
  map (fun c => Z.of_nat (nat_of_ascii c)) (list_ascii_of_string s).

End Season2.

(* ================================================================== *)
(** * Facts about the numeric cells *)

Module Int64Facts.

Lemma wrap_wrap_add (a b : Z) :
  Int64.wrap (Int64.wrap a + b) = Int64.wrap (a + b).
Proof.
  unfold Int64.wrap.
  f_equal.
  replace ((a + Int64.half_modulus) mod Int64.modulus - Int64.half_modulus
           + b + Int64.half_modulus)
    with ((a + Int64.half_modulus) mod Int64.modulus + b) by ring.
  replace (a + b + Int64.half_modulus) with (a + Int64.half_modulus + b) by ring.
  rewrite Z.add_mod_idemp_l by (unfold Int64.modulus; lia).
  reflexivity.
Qed.

Lemma wrap_bounds (z : Z) : Int64.in_range (Int64.wrap z).
Proof.
  unfold Int64.in_range, Int64.wrap.
  pose proof (Z.mod_pos_bound (z + Int64.half_modulus) Int64.modulus
                ltac:(reflexivity)).
  assert (Int64.modulus = 2 * Int64.half_modulus) by reflexivity.
  lia.
Qed.

Lemma wrap_in_range (z : Z) : Int64.in_range z -> Int64.wrap z = z.
Proof.
  unfold Int64.in_range, Int64.wrap, Int64.half_modulus, Int64.modulus.
  intros H. rewrite Z.mod_small by lia. lia.
Qed.

Lemma add_0_l (v : Z) : Int64.add 0 v = Int64.wrap v.
Proof. reflexivity. Qed.

Lemma add_wrap_l (a b : Z) : Int64.add (Int64.wrap a) b = Int64.wrap (a + b).
Proof. apply wrap_wrap_add. Qed.

Lemma int64_add_comm (a b : Z) : Int64.add a b = Int64.add b a.
Proof. unfold Int64.add. f_equal. apply Z.add_comm. Qed.

(** Accumulating in [int64] is the exact sum, wrapped once. *)
Lemma fold_add (l : list Z) : forall a,
  fold_left Int64.add l (Int64.wrap a) = Int64.wrap (a + Zsum l).
Proof.
  induction l as [|x l IH]; intros a; simpl.
  - f_equal. lia.
  - rewrite add_wrap_l, IH. f_equal. lia.
Qed.

End Int64Facts.

Module Float64Facts.

Lemma shr_1_m (mrs : shr_record) :
  0 <= shr_m mrs -> shr_m (shr_1 mrs) = Z.div2 (shr_m mrs).
Proof.
  destruct mrs as [m r s]; simpl.
  destruct m as [|p|p]; [reflexivity| |lia].
  intros _. destruct p; reflexivity.
Qed.

(** Shifting right [p] times divides the mantissa by [2^p]. *)
Lemma iter_shr_1_m (p : positive) : forall mrs,
  0 <= shr_m mrs ->
  shr_m (iter_pos shr_1 p mrs) = Z.shiftr (shr_m mrs) (Zpos p).
Proof.
  assert (step : forall mrs, 0 <= shr_m mrs ->
            0 <= shr_m (shr_1 mrs)
            /\ shr_m (shr_1 mrs) = Z.shiftr (shr_m mrs) 1).
  { intros mrs H. rewrite shr_1_m by assumption. rewrite Z.div2_spec.
    split; [apply Z.shiftr_nonneg; assumption | reflexivity]. }
  induction p as [p IH|p IH|]; intros mrs H; simpl.
  - destruct (step mrs H) as [H1 E1].
    rewrite IH.
    + rewrite IH by assumption. rewrite E1.
      rewrite !Z.shiftr_shiftr by lia. f_equal. lia.
    + rewrite IH by assumption. apply Z.shiftr_nonneg. assumption.
  - rewrite IH.
    + rewrite IH by assumption. rewrite Z.shiftr_shiftr by lia. f_equal. lia.
    + rewrite IH by assumption. apply Z.shiftr_nonneg. assumption.
  - apply step. assumption.
Qed.

Lemma digits2_log2 (p : positive) :
  Zpos (digits2_pos p) = Z.log2 (Zpos p) + 1.
Proof.
  induction p as [p IH|p IH|]; simpl digits2_pos.
  - rewrite Pos2Z.inj_succ, IH.
    change (Zpos p~1) with (2 * Zpos p + 1).
    rewrite Z.log2_succ_double by lia. lia.
  - rewrite Pos2Z.inj_succ, IH.
    change (Zpos p~0) with (2 * Zpos p).
    rewrite Z.log2_double by lia. lia.
  - reflexivity.
Qed.

(** Rounding to the format's exponent never shifts a positive mantissa
    away entirely, as long as the exponent is not below [emin]. *)
Lemma shr_fexp_pos (m : positive) (e : Z) :
  emin Float64.prec Float64.emax <= e ->
  let '(mrs, e') := shr_fexp Float64.prec Float64.emax (Zpos m) e loc_Exact in
  0 < shr_m mrs /\ emin Float64.prec Float64.emax <= e'.
Proof.
  intros He. unfold shr_fexp, shr. simpl shr_record_of_loc.
  set (n := fexp Float64.prec Float64.emax (Zdigits2 (Zpos m) + e) - e).
  assert (Hn : n < Zdigits2 (Zpos m)).
  { unfold n, fexp, emin in *. simpl Zdigits2.
    unfold Float64.prec, Float64.emax in *.
    pose proof (Pos2Z.is_pos (digits2_pos m)). lia. }
  destruct n as [|p|p] eqn:En; simpl; try (split; [lia|assumption]).
  rewrite iter_shr_1_m by (simpl; lia). simpl shr_m.
  split.
  - assert (Z.shiftr (Zpos m) (Zpos p) <> 0).
    { rewrite Z.shiftr_eq_0_iff. intros [H|[_ H]]; [discriminate|].
      simpl Zdigits2 in Hn. rewrite digits2_log2 in Hn. lia. }
    pose proof (Z.shiftr_nonneg (Zpos m) (Zpos p)). lia.
  - lia.
Qed.

Lemma binary_round_aux_sign (s : bool) (m : positive) (e : Z) :
  emin Float64.prec Float64.emax <= e ->
  (exists m' e',
      binary_round_aux Float64.prec Float64.emax s (Zpos m) e loc_Exact
      = S754_finite s m' e')
  \/ binary_round_aux Float64.prec Float64.emax s (Zpos m) e loc_Exact
     = S754_infinity s.
Proof.
  intros He. unfold binary_round_aux.
  pose proof (shr_fexp_pos m e He) as H1.
  destruct (shr_fexp Float64.prec Float64.emax (Zpos m) e loc_Exact) as [mrs1 e1].
  destruct H1 as [Hm1 He1].
  set (m2 := round_nearest_even (shr_m mrs1) (loc_of_shr_record mrs1)).
  assert (Hm2 : 0 < m2).
  { unfold m2, round_nearest_even.
    destruct (loc_of_shr_record mrs1) as [|[]]; try lia.
    destruct (Z.even (shr_m mrs1)); lia. }
  destruct m2 as [|p2|p2] eqn:E2; try lia.
  pose proof (shr_fexp_pos p2 e1 He1) as H3.
  destruct (shr_fexp Float64.prec Float64.emax (Zpos p2) e1 loc_Exact) as [mrs3 e3].
  destruct H3 as [Hm3 _].
  destruct (shr_m mrs3) as [|p3|p3]; try lia.
  destruct (e3 <=? Float64.emax - Float64.prec); [left; eauto | right; reflexivity].
Qed.

Lemma binary_round_sign (s : bool) (m : positive) :
  (exists m' e',
      binary_round Float64.prec Float64.emax s m 0 = S754_finite s m' e')
  \/ binary_round Float64.prec Float64.emax s m 0 = S754_infinity s.
Proof.
  unfold binary_round.
  destruct (shl_align m 0
              (fexp Float64.prec Float64.emax (Zpos (digits2_pos m) + 0)))
    as [mz ez] eqn:E.
  apply binary_round_aux_sign.
  unfold shl_align in E.
  destruct (fexp Float64.prec Float64.emax (Zpos (digits2_pos m) + 0) - 0) eqn:E';
    inversion E; subst; unfold emin, Float64.prec, Float64.emax; try lia.
  unfold fexp, emin, Float64.prec, Float64.emax. lia.
Qed.

Lemma of_int_0 : Float64.of_int 0 = S754_zero false.
Proof. reflexivity. Qed.

Lemma of_int_pos (z : Z) : 0 < z -> nonzero_signed false (Float64.of_int z).
Proof.
  destruct z as [|p|p]; try lia. intros _. apply binary_round_sign.
Qed.

Lemma of_int_neg (z : Z) : z < 0 -> nonzero_signed true (Float64.of_int z).
Proof.
  destruct z as [|p|p]; try lia. intros _. apply binary_round_sign.
Qed.

Lemma of_int_not_nan (z : Z) : Float64.is_nan (Float64.of_int z) = false.
Proof.
  destruct (Z.lt_trichotomy z 0) as [H|[H|H]].
  - destruct (of_int_neg z H) as [(m & e & E)|E]; rewrite E; reflexivity.
  - subst. reflexivity.
  - destruct (of_int_pos z H) as [(m & e & E)|E]; rewrite E; reflexivity.
Qed.

(** IEEE division by [+0]: a signed infinity for a nonzero dividend. *)
Lemma div_nonzero_by_zero (s : bool) (f : spec_float) :
  nonzero_signed s f -> Float64.div f (S754_zero false) = S754_infinity s.
Proof.
  intros [(m & e & E)|E]; rewrite E; simpl; destruct s; reflexivity.
Qed.

Lemma div_zero_by_zero (s s' : bool) :
  Float64.div (S754_zero s) (S754_zero s') = S754_nan.
Proof. reflexivity. Qed.

Lemma div_nan_l (f : spec_float) : Float64.div S754_nan f = S754_nan.
Proof. reflexivity. Qed.

Lemma div_nan_r (f : spec_float) : Float64.div f S754_nan = S754_nan.
Proof. destruct f; reflexivity. Qed.

Lemma float64_add_comm (x y : spec_float) : Float64.add x y = Float64.add y x.
Proof.
  destruct x as [sx|sx| |sx mx ex], y as [sy|sy| |sy my ey];
    try reflexivity;
    try (destruct sx, sy; reflexivity).
  unfold Float64.add, SFadd.
  rewrite (Z.min_comm ey ex). f_equal. apply Z.add_comm.
Qed.

(** The exponent and the size of what [shr_fexp] leaves. *)
Lemma shr_fexp_bounds (m : positive) (e : Z) :
  emin Float64.prec Float64.emax <= e ->
  let '(mrs, e') := shr_fexp Float64.prec Float64.emax (Zpos m) e loc_Exact in
  0 < shr_m mrs
  /\ emin Float64.prec Float64.emax <= e'
  /\ e' <= Z.max e (Zpos (digits2_pos m) + e - Float64.prec)
  /\ Z.log2 (shr_m mrs) + e' = Z.log2 (Zpos m) + e.
Proof.
  intros He. unfold shr_fexp, shr. simpl shr_record_of_loc.
  set (n := fexp Float64.prec Float64.emax (Zdigits2 (Zpos m) + e) - e).
  assert (Hn : n < Zdigits2 (Zpos m)).
  { unfold n, fexp, emin in *. simpl Zdigits2.
    unfold Float64.prec, Float64.emax in *.
    pose proof (Pos2Z.is_pos (digits2_pos m)). lia. }
  assert (Hn' : n <= Z.max 0 (Zpos (digits2_pos m) - Float64.prec)).
  { unfold n, fexp, emin in *. simpl Zdigits2.
    unfold Float64.prec, Float64.emax in *. lia. }
  simpl Zdigits2 in Hn. rewrite digits2_log2 in Hn.
  destruct n as [|p|p] eqn:En; cbv beta iota; simpl shr_m;
    try (split; [|split; [|split]]; lia).
  rewrite iter_shr_1_m by (simpl; lia). simpl shr_m.
  pose proof (Z.log2_shiftr (Zpos m) (Zpos p) ltac:(lia)) as Hl.
  assert (Hpos : 0 < Z.shiftr (Zpos m) (Zpos p)).
  { assert (Z.shiftr (Zpos m) (Zpos p) <> 0).
    { rewrite Z.shiftr_eq_0_iff. intros [H|[_ H]]; [discriminate|]. lia. }
    pose proof (Z.shiftr_nonneg (Zpos m) (Zpos p)). lia. }
  split; [|split; [|split]]; lia.
Qed.

(** Rounding does not overflow while the number is below [2^emax]. *)
Lemma binary_round_aux_finite (s : bool) (m : positive) (e : Z) :
  emin Float64.prec Float64.emax <= e ->
  e <= Float64.emax - Float64.prec ->
  Zpos (digits2_pos m) + e < Float64.emax ->
  exists m' e',
    binary_round_aux Float64.prec Float64.emax s (Zpos m) e loc_Exact
    = S754_finite s m' e'
    /\ emin Float64.prec Float64.emax <= e'.
Proof.
  intros He Hue Hd. unfold binary_round_aux.
  pose proof (shr_fexp_bounds m e He) as H1.
  destruct (shr_fexp Float64.prec Float64.emax (Zpos m) e loc_Exact) as [mrs1 e1].
  destruct H1 as (Hm1 & He1 & Hu1 & Hl1).
  set (m2 := round_nearest_even (shr_m mrs1) (loc_of_shr_record mrs1)).
  assert (Hm2 : shr_m mrs1 <= m2 <= shr_m mrs1 + 1).
  { unfold m2, round_nearest_even.
    destruct (loc_of_shr_record mrs1) as [|[]]; try lia.
    destruct (Z.even (shr_m mrs1)); lia. }
  destruct m2 as [|p2|p2] eqn:E2; try lia.
  pose proof (shr_fexp_bounds p2 e1 He1) as H3.
  destruct (shr_fexp Float64.prec Float64.emax (Zpos p2) e1 loc_Exact) as [mrs3 e3].
  destruct H3 as (Hm3 & He3 & Hu3 & _).
  destruct (shr_m mrs3) as [|p3|p3]; try lia.
  assert (Hlog : Z.log2 (Zpos p2) <= Z.log2 (shr_m mrs1) + 1).
  { eapply Z.le_trans; [apply Z.log2_le_mono; apply (proj2 Hm2)|].
    apply (Z.log2_succ_le (shr_m mrs1)). }
  rewrite digits2_log2 in Hu1, Hu3, Hd.
  assert (Hle : e3 <= Float64.emax - Float64.prec)
    by (unfold Float64.emax, Float64.prec in *; lia).
  apply Z.leb_le in Hle. rewrite Hle. eauto.
Qed.

Lemma digits2_iter_xO (m k : positive) :
  digits2_pos (Pos.iter xO m k) = (digits2_pos m + k)%positive.
Proof.
  induction k as [|k IH] using Pos.peano_ind.
  - simpl. lia.
  - rewrite Pos.iter_succ. simpl. rewrite IH. lia.
Qed.

(** An [int64] converts to a finite float. *)
Lemma of_int_finite (z : Z) :
  - Int64.half_modulus <= z <= Int64.half_modulus -> Float64.finite (Float64.of_int z).
Proof.
  intros Hz.
  assert (H : forall s (m : positive), Zpos m <= Int64.half_modulus ->
             Float64.finite (binary_round Float64.prec Float64.emax s m 0)).
  { intros s m Hm. unfold binary_round.
    assert (Hd : Zpos (digits2_pos m) <= 64).
    { rewrite digits2_log2.
      assert (Z.log2 (Zpos m) < 64); [|lia].
      apply Z.log2_lt_pow2; [lia|]. unfold Int64.half_modulus in Hm. lia. }
    unfold shl_align.
    destruct (fexp Float64.prec Float64.emax (Zpos (digits2_pos m) + 0) - 0) as [|d|d] eqn:Ed.
    - destruct (binary_round_aux_finite s m 0) as (m' & e' & E & He');
        try (unfold emin, Float64.prec, Float64.emax; lia).
      rewrite E. exact He'.
    - destruct (binary_round_aux_finite s m 0) as (m' & e' & E & He');
        try (unfold emin, Float64.prec, Float64.emax; lia).
      rewrite E. exact He'.
    - destruct (binary_round_aux_finite s (Pos.iter xO m d)
                  (fexp Float64.prec Float64.emax (Zpos (digits2_pos m) + 0)))
        as (m' & e' & E & He').
      + unfold fexp. lia.
      + unfold fexp, emin, Float64.prec, Float64.emax in *. lia.
      + rewrite digits2_iter_xO.
        unfold fexp, emin, Float64.prec, Float64.emax in *. lia.
      + rewrite E. exact He'. }
  unfold Float64.of_int, binary_normalize.
  destruct z as [|p|p]; [exact I| |]; apply H; lia.
Qed.

Lemma binary_round_signed (s : bool) (m : positive) (e : Z) :
  emin Float64.prec Float64.emax <= e ->
  nonzero_signed s (binary_round Float64.prec Float64.emax s m e).
Proof.
  intros He. unfold binary_round, shl_align.
  destruct (fexp Float64.prec Float64.emax (Zpos (digits2_pos m) + e) - e) eqn:E;
    apply binary_round_aux_sign; try assumption.
  unfold fexp. lia.
Qed.

(** The sum of two finite floats is not [NaN]. *)
Lemma add_finite_not_nan (x y : spec_float) :
  Float64.finite x -> Float64.finite y -> Float64.is_nan (Float64.add x y) = false.
Proof.
  destruct x as [sx| | |sx mx ex], y as [sy| | |sy my ey];
    simpl Float64.finite; try contradiction; intros Hx Hy.
  - destruct sx, sy; reflexivity.
  - reflexivity.
  - reflexivity.
  - unfold Float64.add, SFadd, binary_normalize.
    assert (Hz : emin Float64.prec Float64.emax <= Z.min ex ey) by lia.
    match goal with
    | |- Float64.is_nan (match ?z with _ => _ end) = false => destruct z as [|p|p]
    end; [reflexivity| |];
      match goal with
      | |- context [binary_round _ _ ?s ?m ?e] =>
          destruct (binary_round_signed s m e Hz) as [(m' & e' & E)|E]; rewrite E
      end; reflexivity.
Qed.

Lemma float64_eqb_refl (f : spec_float) :
  Float64.is_nan f = false -> Float64.eqb f f = true.
Proof.
  destruct f as [s|s| |s m e]; try discriminate; intros _;
    unfold Float64.eqb, SFeqb; simpl.
  - reflexivity.
  - destruct s; reflexivity.
  - rewrite Z.compare_refl. destruct s; rewrite Pos.compare_cont_refl; reflexivity.
Qed.

Lemma add_nan_any (x : spec_float) :
  Float64.add S754_nan x = S754_nan /\ Float64.add x S754_nan = S754_nan.
Proof. destruct x; split; reflexivity. Qed.

Lemma sub_nan_r (f : spec_float) : Float64.sub f S754_nan = S754_nan.
Proof. destruct f; reflexivity. Qed.

End Float64Facts.

(* ================================================================== *)
(** * Facts about the pandas fragment *)

Module PandasFacts.

(** ** Inner merge *)

Lemma in_merge {L R : Type} (key : L -> Z) (left : list L)
      (right : list (Z * R)) (l : L) (r : R) :
  In (l, r) (merge key left right) <-> In l left /\ In (key l, r) right.
Proof.
  unfold merge. rewrite in_flat_map. split.
  - intros (l0 & Hl0 & H). rewrite in_map_iff in H.
    destruct H as ([i r0] & E & H). inversion E; subst.
    rewrite filter_In in H. destruct H as [H Hk].
    simpl in Hk. apply Z.eqb_eq in Hk. subst. auto.
  - intros [Hl Hr]. exists l. split; [assumption|].
    rewrite in_map_iff. exists (key l, r). split; [reflexivity|].
    rewrite filter_In. split; [assumption|]. simpl. apply Z.eqb_refl.
Qed.

(** ** Group-by and sum *)

Section GroupBy.
Context {K : Type} (compare : K -> K -> comparison).
Hypothesis compare_eq : forall a b, compare a b = Eq -> a = b.
Hypothesis compare_refl : forall a, compare a a = Eq.
Hypothesis compare_antisym : forall a b, compare b a = CompOpp (compare a b).
Hypothesis compare_trans :
  forall a b c, compare a b = Lt -> compare b c = Lt -> compare a c = Lt.

Lemma lookup_below (k : K) (s : list (K * Z)) :
  (forall k', In k' (map fst s) -> compare k k' = Lt) -> lookup compare k s = None.
Proof.
  induction s as [|[k1 v1] s IH]; intros H; simpl; [reflexivity|].
  rewrite (H k1) by (left; reflexivity).
  apply IH. intros k' Hk'. apply H. right. assumption.
Qed.

Lemma keys_agg_add (k : K) (v : Z) (acc : list (K * Z)) (x : K) :
  In x (map fst (agg_add compare k v acc)) -> x = k \/ In x (map fst acc).
Proof.
  induction acc as [|[k1 s1] acc IH]; simpl.
  - intros [H|[]]. left. symmetry. assumption.
  - destruct (compare k k1) eqn:E; simpl.
    + intros H. right. assumption.
    + intros [H|H]; [left; symmetry; assumption | right; assumption].
    + intros [H|H]; [right; left; assumption|].
      destruct (IH H) as [H'|H']; [left; assumption | right; right; assumption].
Qed.

Lemma agg_add_increasing (k : K) (v : Z) (acc : list (K * Z)) :
  increasing compare acc -> increasing compare (agg_add compare k v acc).
Proof.
  induction acc as [|[k1 s1] acc IH]; simpl.
  - intros _. split; [intros k' []|exact I].
  - intros [Hk1 Hacc]. destruct (compare k k1) eqn:E; simpl.
    + split; assumption.
    + split; [|split; assumption].
      intros k' [H|H]; [subst; assumption|].
      apply compare_trans with k1; [assumption|apply Hk1; assumption].
    + split; [|apply IH; assumption].
      intros k' H. destruct (keys_agg_add _ _ _ _ H) as [H'|H'].
      * subst. rewrite compare_antisym, E. reflexivity.
      * apply Hk1. assumption.
Qed.

(** One accumulation step, seen through [lookup]. *)
Lemma lookup_agg_add (k k' : K) (v : Z) (acc : list (K * Z)) :
  increasing compare acc ->
  lookup compare k (agg_add compare k' v acc)
  = if is_eq (compare k k')
    then Some (Int64.add (match lookup compare k acc with
                          | Some s => s
                          | None => 0
                          end) v)
    else lookup compare k acc.
Proof.
  induction acc as [|[k1 s1] acc IH]; simpl.
  - intros _. destruct (compare k k'); reflexivity.
  - intros [Hk1 Hacc]. destruct (compare k' k1) eqn:E; simpl.
    + apply compare_eq in E. subst k1.
      destruct (compare k k'); reflexivity.
    + destruct (compare k k') eqn:E'; simpl; try reflexivity.
      apply compare_eq in E'. subst k'. rewrite E.
      rewrite lookup_below; [reflexivity|].
      intros k2 H2. apply compare_trans with k1; [assumption|apply Hk1; assumption].
    + destruct (compare k k1) eqn:E1.
      * apply compare_eq in E1. subst k1.
        rewrite compare_antisym, E. reflexivity.
      * apply IH. assumption.
      * apply IH. assumption.
Qed.

Lemma groupby_from_increasing (cells : list (K * Z)) : forall acc,
  increasing compare acc ->
  increasing compare
    (fold_left (fun acc kv => agg_add compare (fst kv) (snd kv) acc) cells acc).
Proof.
  induction cells as [|[k v] cells IH]; intros acc H; simpl; [assumption|].
  apply IH. apply agg_add_increasing. assumption.
Qed.

Lemma groupby_sum_increasing (cells : list (K * Z)) :
  increasing compare (groupby_sum compare cells).
Proof. apply groupby_from_increasing. exact I. Qed.

(** The accumulator's entry for [k] after the remaining cells. *)
Lemma lookup_groupby_from (k : K) (cells : list (K * Z)) : forall acc,
  increasing compare acc ->
  lookup compare k
    (fold_left (fun acc kv => agg_add compare (fst kv) (snd kv) acc) cells acc)
  = match lookup compare k acc, group compare k cells with
    | o, [] => o
    | Some s, g => Some (fold_left Int64.add g s)
    | None, g => Some (fold_left Int64.add g 0)
    end.
Proof.
  induction cells as [|[k1 v1] cells IH]; intros acc H; simpl.
  - unfold group. simpl. destruct (lookup compare k acc); reflexivity.
  - rewrite IH by (apply agg_add_increasing; assumption).
    rewrite lookup_agg_add by assumption.
    unfold group. simpl.
    destruct (compare k k1) eqn:E; simpl.
    + destruct (lookup compare k acc) as [s|];
        destruct (map snd _); reflexivity.
    + reflexivity.
    + reflexivity.
Qed.

(** The series holds, for every key, the wrapped sum of its group. *)
Lemma lookup_groupby_sum (k : K) (cells : list (K * Z)) :
  lookup compare k (groupby_sum compare cells) = group_total compare k cells.
Proof.
  unfold groupby_sum. rewrite lookup_groupby_from by exact I.
  simpl. unfold group_total.
  destruct (group compare k cells) as [|x g] eqn:E; [reflexivity|].
  f_equal. change 0 with (Int64.wrap 0) at 1.
  rewrite Int64Facts.fold_add. reflexivity.
Qed.

Lemma lookup_some_key (k : K) (s : list (K * Z)) :
  lookup compare k s <> None <-> In k (map fst s).
Proof.
  induction s as [|[k1 v1] s IH]; simpl.
  - split; [congruence|intros []].
  - destruct (compare k k1) eqn:E.
    + apply compare_eq in E. subst. split; [auto|congruence].
    + rewrite IH. split; [auto|]. intros [H|H]; [|assumption].
      subst. rewrite compare_refl in E. discriminate.
    + rewrite IH. split; [auto|]. intros [H|H]; [|assumption].
      subst. rewrite compare_refl in E. discriminate.
Qed.

Lemma group_nonempty (k : K) (cells : list (K * Z)) :
  group compare k cells <> [] <-> In k (map fst cells).
Proof.
  unfold group. induction cells as [|[k1 v1] cells IH]; simpl.
  - split; [congruence|intros []].
  - destruct (compare k k1) eqn:E; simpl.
    + apply compare_eq in E. subst. split; [auto|discriminate].
    + rewrite IH. split; [auto|]. intros [H|H]; [|assumption].
      subst. rewrite compare_refl in E. discriminate.
    + rewrite IH. split; [auto|]. intros [H|H]; [|assumption].
      subst. rewrite compare_refl in E. discriminate.
Qed.

(** The keys of the series are the keys that occur in the rows. *)
Lemma groupby_sum_keys (k : K) (cells : list (K * Z)) :
  In k (map fst (groupby_sum compare cells)) <-> In k (map fst cells).
Proof.
  rewrite <- lookup_some_key, lookup_groupby_sum, <- group_nonempty.
  unfold group_total. destruct (group compare k cells); split; congruence.
Qed.

End GroupBy.

End PandasFacts.

(* ================================================================== *)
(** * The home/away pivot *)

Module PivotFacts.

Lemma Z_compare_trans (a b c : Z) :
  (a ?= b) = Lt -> (b ?= c) = Lt -> (a ?= c) = Lt.
Proof. rewrite !Z.compare_lt_iff. lia. Qed.

Lemma Z_compare_antisym (a b : Z) : (b ?= a) = CompOpp (a ?= b).
Proof. apply Z.compare_antisym. Qed.

Lemma key_compare_eq (a b : key) : key_compare a b = Eq -> a = b.
Proof.
  destruct a as [i c], b as [j d]. unfold key_compare. simpl.
  destruct (i ?= j) eqn:E; try discriminate.
  apply Z.compare_eq in E. subst.
  destruct c, d; simpl; congruence.
Qed.

Lemma key_compare_refl (a : key) : key_compare a a = Eq.
Proof.
  destruct a as [i c]. unfold key_compare. simpl.
  rewrite Z.compare_refl. destruct c; reflexivity.
Qed.

Lemma key_compare_antisym (a b : key) :
  key_compare b a = CompOpp (key_compare a b).
Proof.
  destruct a as [i c], b as [j d]. unfold key_compare. simpl.
  rewrite (Z.compare_antisym i j).
  destruct (i ?= j); simpl; try reflexivity.
  destruct c, d; reflexivity.
Qed.

Lemma key_compare_trans (a b c : key) :
  key_compare a b = Lt -> key_compare b c = Lt -> key_compare a c = Lt.
Proof.
  destruct a as [i x], b as [j y], c as [k z]. unfold key_compare. simpl.
  destruct (i ?= j) eqn:E1; try discriminate;
    destruct (j ?= k) eqn:E2; try discriminate; intros H1 H2.
  - apply Z.compare_eq in E1, E2. subst. rewrite Z.compare_refl.
    destruct x, y, z; simpl in *; congruence.
  - apply Z.compare_eq in E1. subst. rewrite E2. reflexivity.
  - apply Z.compare_eq in E2. subst. rewrite E1. reflexivity.
  - rewrite (Z_compare_trans i j k) by assumption. reflexivity.
Qed.

Lemma is_eq_key_compare (i j : Z) (c d : bool) :
  is_eq (key_compare (i, c) (j, d)) = (j =? i) && Bool.eqb d c.
Proof.
  unfold key_compare. simpl. rewrite (Z.eqb_sym j i), Z.eqb_compare.
  destruct (i ?= j); simpl; try reflexivity.
  destruct c, d; reflexivity.
Qed.

Lemma group_cells_of (id : phf_row -> Z) (i : Z) (c : bool) (phf : list phf_row) :
  group key_compare (i, c) (cells_of id phf)
  = map phf_Game_Total_Points (rows_of id i c phf).
Proof.
  unfold group, cells_of, rows_of.
  induction phf as [|r phf IH]; simpl; [reflexivity|].
  rewrite is_eq_key_compare.
  destruct ((id r =? i) && Bool.eqb (phf_Is_Home r) c); simpl; rewrite IH; reflexivity.
Qed.

(** The series entry of [(i, c)] is the points total of [i] under flag [c]. *)
Lemma lookup_pivot_series (id : phf_row -> Z) (i : Z) (c : bool)
      (phf : list phf_row) :
  lookup key_compare (i, c) (groupby_sum key_compare (cells_of id phf))
  = points_total id i c phf.
Proof.
  rewrite (PandasFacts.lookup_groupby_sum key_compare
             key_compare_eq key_compare_antisym key_compare_trans).
  unfold group_total, points_total. rewrite group_cells_of.
  destruct (rows_of id i c phf); reflexivity.
Qed.

(** A pivot cell, read as a float, is the total as a float. *)
Lemma pivot_cell_float (id : phf_row -> Z) (i : Z) (c : bool) (phf : list phf_row) :
  astype_float (at_ (home_away_pivot id phf) i c)
  = total_float (points_total id i c phf).
Proof.
  unfold home_away_pivot, unstack. simpl at_.
  fold (cells_of id phf). rewrite lookup_pivot_series.
  destruct (points_total id i c phf) as [z|]; [|reflexivity].
  match goal with |- context [if ?b then _ else _] => destruct b end; reflexivity.
Qed.

(** The two cells of an id that has rows on both sides are of one dtype. *)
Lemma pivot_cells_both (id : phf_row -> Z) (i h a : Z) (phf : list phf_row) :
  points_total id i true phf = Some h ->
  points_total id i false phf = Some a ->
  (at_ (home_away_pivot id phf) i true = VInt h
   /\ at_ (home_away_pivot id phf) i false = VInt a)
  \/ (at_ (home_away_pivot id phf) i true = VFloat (Float64.of_int h)
      /\ at_ (home_away_pivot id phf) i false = VFloat (Float64.of_int a)).
Proof.
  intros Hh Ha. unfold home_away_pivot, unstack. simpl at_.
  fold (cells_of id phf). rewrite !lookup_pivot_series, Hh, Ha.
  match goal with |- context [if ?b then _ else _] => destruct b end; auto.
Qed.

(** A total is an [int64]. *)
Lemma points_total_range (id : phf_row -> Z) (i z : Z) (c : bool)
      (phf : list phf_row) :
  points_total id i c phf = Some z -> Int64.in_range z.
Proof.
  unfold points_total. destruct (rows_of id i c phf); [discriminate|].
  intros E. injection E as <-. apply Int64Facts.wrap_bounds.
Qed.

(** An id has a total on a side exactly when it has a row there. *)
Lemma points_total_some (id : phf_row -> Z) (i : Z) (c : bool)
      (phf : list phf_row) :
  (exists z, points_total id i c phf = Some z)
  <-> exists x, In x phf /\ id x = i /\ phf_Is_Home x = c.
Proof.
  unfold points_total.
  assert (Hrows : forall x, In x (rows_of id i c phf)
                            <-> In x phf /\ id x = i /\ phf_Is_Home x = c).
  { intros x. unfold rows_of.
    rewrite filter_In, andb_true_iff, Z.eqb_eq, eqb_true_iff. tauto. }
  destruct (rows_of id i c phf) as [|x xs].
  - split; [intros [z E]; discriminate|].
    intros (x & Hx). apply Hrows in Hx. contradiction.
  - split; [|eauto]. intros _. exists x. apply Hrows. left. reflexivity.
Qed.

(** A pivot cell of a total over no row is [NaN]. *)
Lemma pivot_cell_missing (id : phf_row -> Z) (i : Z) (c : bool) (phf : list phf_row) :
  points_total id i c phf = None ->
  at_ (home_away_pivot id phf) i c = VFloat Float64.nan.
Proof.
  intros H. unfold home_away_pivot, unstack. simpl at_.
  fold (cells_of id phf). rewrite lookup_pivot_series, H. reflexivity.
Qed.

(** The pivot has the column of a flag exactly when some row carries it. *)
Lemma has_column_iff (id : phf_row -> Z) (c : bool) (phf : list phf_row) :
  has_column (home_away_pivot id phf) c = true
  <-> exists r, In r phf /\ phf_Is_Home r = c.
Proof.
  unfold has_column, home_away_pivot, unstack. simpl columns.
  fold (cells_of id phf).
  set (s := groupby_sum key_compare (cells_of id phf)).
  assert (Hflag : forall d, has_flag d s = true
                            <-> exists r, In r phf /\ phf_Is_Home r = d).
  { intros d. unfold has_flag. rewrite existsb_exists. split.
    - intros ([[j e] v] & Hin & He). simpl in He.
      apply eqb_prop in He. subst e.
      assert (Hk : In (j, d) (map fst s)) by (apply in_map_iff; exists ((j, d), v); auto).
      unfold s in Hk.
      rewrite (PandasFacts.groupby_sum_keys key_compare key_compare_eq
                 key_compare_refl key_compare_antisym key_compare_trans) in Hk.
      unfold cells_of in Hk. rewrite map_map in Hk. simpl in Hk.
      rewrite in_map_iff in Hk. destruct Hk as (r & E & Hr).
      inversion E. exists r. auto.
    - intros (r & Hr & E).
      assert (Hk : In (id r, d) (map fst s)).
      { unfold s.
        rewrite (PandasFacts.groupby_sum_keys key_compare key_compare_eq
                   key_compare_refl key_compare_antisym key_compare_trans).
        unfold cells_of. rewrite map_map. simpl.
        rewrite in_map_iff. exists r. subst d. auto. }
      rewrite in_map_iff in Hk. destruct Hk as ([k v] & E' & Hin).
      simpl in E'. subst k. exists ((id r, d), v). split; [assumption|].
      simpl. apply eqb_reflx. }
  change (existsb (Bool.eqb c) (filter (fun d => has_flag d s) [false; true]) = true
          <-> exists r, In r phf /\ phf_Is_Home r = c).
  rewrite existsb_exists. split.
  - intros (d & Hd & E). apply eqb_prop in E. subst d.
    rewrite filter_In in Hd. apply Hflag. apply Hd.
  - intros H. exists c. split; [|apply eqb_reflx].
    rewrite filter_In. split; [destruct c; simpl; auto|]. apply Hflag. assumption.
Qed.

(** The pivot has a row for an id exactly when some joined row has it. *)
Lemma in_index_iff (id : phf_row -> Z) (i : Z) (phf : list phf_row) :
  In i (index (home_away_pivot id phf)) <-> exists r, In r phf /\ id r = i.
Proof.
  unfold home_away_pivot, unstack. simpl index. fold (cells_of id phf).
  rewrite nodup_In, in_map_iff. split.
  - intros ([[j d] v] & E & Hin). simpl in E. subst j.
    assert (Hk : In (i, d) (map fst (groupby_sum key_compare (cells_of id phf))))
      by (apply in_map_iff; exists ((i, d), v); auto).
    rewrite (PandasFacts.groupby_sum_keys key_compare key_compare_eq
               key_compare_refl key_compare_antisym key_compare_trans) in Hk.
    unfold cells_of in Hk. rewrite map_map in Hk. simpl in Hk.
    rewrite in_map_iff in Hk. destruct Hk as (r & E & Hr).
    inversion E. exists r. auto.
  - intros (r & Hr & E).
    assert (Hk : In (i, phf_Is_Home r)
                    (map fst (groupby_sum key_compare (cells_of id phf)))).
    { rewrite (PandasFacts.groupby_sum_keys key_compare key_compare_eq
                 key_compare_refl key_compare_antisym key_compare_trans).
      unfold cells_of. rewrite map_map. simpl.
      rewrite in_map_iff. exists r. subst i. auto. }
    rewrite in_map_iff in Hk. destruct Hk as ([k v] & E' & Hin).
    simpl in E'. subst k. exists ((i, phf_Is_Home r), v). auto.
Qed.

End PivotFacts.

(* ================================================================== *)
(** * Team and position point statistics *)

Lemma point_stats_row_cells (away_name home_name : string) (id : phf_row -> Z)
      (phf : list phf_row) (t : list team_point_row) (r : team_point_row) :
  point_stats away_name home_name id phf = Ok t -> In r t ->
  In (tp_Team_ID r) (index (home_away_pivot id phf))
  /\ tp_Total_Points_Away r = at_ (home_away_pivot id phf) (tp_Team_ID r) false
  /\ tp_Total_Points_Home r = at_ (home_away_pivot id phf) (tp_Team_ID r) true
  /\ tp_Total_Points r = value_add (tp_Total_Points_Away r) (tp_Total_Points_Home r)
  /\ tp_Home_Away_Ratio r
     = value_truediv (tp_Total_Points_Away r) (tp_Total_Points_Home r).
Proof.
  unfold point_stats.
  destruct (negb (has_column (home_away_pivot id phf) false)); [discriminate|].
  destruct (negb (has_column (home_away_pivot id phf) true)); [discriminate|].
  intros E Hr. inversion E; subst t; clear E.
  rewrite in_map_iff in Hr. destruct Hr as (i & E & Hi). subst r. simpl. auto.
Qed.

(** The table is produced exactly when the joined table has a home row and
    an away row; otherwise reading the missing pivot column raises. *)
Lemma point_stats_ok_iff (away_name home_name : string) (id : phf_row -> Z)
      (phf : list phf_row) :
  (exists t, point_stats away_name home_name id phf = Ok t)
  <-> (exists r, In r phf /\ phf_Is_Home r = false)
      /\ (exists r, In r phf /\ phf_Is_Home r = true).
Proof.
  rewrite <- !(PivotFacts.has_column_iff id).
  unfold point_stats.
  destruct (has_column (home_away_pivot id phf) false);
    destruct (has_column (home_away_pivot id phf) true); simpl;
    split; try (intros [t H]; discriminate); try (intros [H1 H2]; discriminate);
    eauto.
Qed.

(** Every id that occurs in the joined table has a row in the table. *)
Lemma point_stats_covers (away_name home_name : string) (id : phf_row -> Z)
      (phf : list phf_row) (t : list team_point_row) (r : phf_row) :
  point_stats away_name home_name id phf = Ok t -> In r phf ->
  exists row, In row t /\ tp_Team_ID row = id r.
Proof.
  unfold point_stats.
  destruct (negb (has_column (home_away_pivot id phf) false)); [discriminate|].
  destruct (negb (has_column (home_away_pivot id phf) true)); [discriminate|].
  intros E Hr. inversion E; subst t; clear E.
  assert (Hi : In (id r) (index (home_away_pivot id phf)))
    by (apply PivotFacts.in_index_iff; exists r; auto).
  eexists. split; [apply in_map; exact Hi|reflexivity].
Qed.

Lemma value_add_comm (a b : value) : value_add a b = value_add b a.
Proof.
  destruct a as [x|f], b as [y|g]; simpl.
  - f_equal. apply Int64Facts.int64_add_comm.
  - f_equal. apply Float64Facts.float64_add_comm.
  - f_equal. apply Float64Facts.float64_add_comm.
  - f_equal. apply Float64Facts.float64_add_comm.
Qed.

Lemma ratio_of_totals (away home : option Z) :
  Float64.div (total_float away) (total_float home) = expected_ratio away home.
Proof.
  destruct away as [a|], home as [h|]; simpl;
    [ | apply Float64Facts.div_nan_r | reflexivity | reflexivity ].
  destruct (Z.eqb_spec h 0) as [->|Hh]; [|reflexivity].
  rewrite Float64Facts.of_int_0.
  destruct (Z.eqb_spec a 0) as [->|Ha]; [reflexivity|].
  destruct (Z.ltb_spec a 0) as [Hlt|Hge].
  - apply Float64Facts.div_nonzero_by_zero, Float64Facts.of_int_neg. assumption.
  - apply Float64Facts.div_nonzero_by_zero, Float64Facts.of_int_pos. lia.
Qed.

Lemma point_stats_ratio (away_name home_name : string) (id : phf_row -> Z)
      (phf : list phf_row) (t : list team_point_row) (r : team_point_row) :
  point_stats away_name home_name id phf = Ok t -> In r t ->
  tp_Home_Away_Ratio r
  = VFloat (expected_ratio (points_total id (tp_Team_ID r) false phf)
                           (points_total id (tp_Team_ID r) true phf)).
Proof.
  intros E Hr.
  destruct (point_stats_row_cells _ _ _ _ _ _ E Hr) as (_ & Ha & Hh & _ & Hq).
  rewrite Hq, Ha, Hh. unfold value_truediv.
  rewrite !PivotFacts.pivot_cell_float, ratio_of_totals. reflexivity.
Qed.

(** C1 (as amended).  In [team_point_stats] and in [team_point_opp_stats],
    whenever the table is produced, the home/away ratio of every team is the
    [float64] quotient of its away points total by its home points total.
    With a nonzero home total that is away divided by home.  With a zero
    home total it is plus infinity for a positive away total, minus infinity
    for a negative one, and the missing value only when the away total is
    zero as well; it is also missing when the team has no home row or no
    away row. *)
Theorem ratio_is_float_quotient :
  (forall phf t r,
      team_point_stats phf = Ok t -> In r t ->
      tp_Home_Away_Ratio r
      = VFloat (expected_ratio
                  (points_total phf_Player_Team_ID (tp_Team_ID r) false phf)
                  (points_total phf_Player_Team_ID (tp_Team_ID r) true phf)))
  /\ (forall phf t r,
         team_point_opp_stats phf = Ok t -> In r t ->
         tp_Home_Away_Ratio r
         = VFloat (expected_ratio
                     (points_total phf_Opp_Team_ID (tp_Team_ID r) false phf)
                     (points_total phf_Opp_Team_ID (tp_Team_ID r) true phf))).
Proof.
  split; intros phf t r E Hr; exact (point_stats_ratio _ _ _ _ _ _ E Hr).
Qed.

(** Team 1 of the example season, in both tables. *)
Lemma ratio_is_float_quotient_witness :
  (team_point_stats Season.joined = Ok Season.team_point_table
   /\ In Season.team_1 Season.team_point_table
   /\ tp_Home_Away_Ratio Season.team_1
      = VFloat (expected_ratio
                  (points_total phf_Player_Team_ID 1 false Season.joined)
                  (points_total phf_Player_Team_ID 1 true Season.joined)))
  /\ (team_point_opp_stats Season.joined = Ok Season.team_point_opp_table
      /\ In Season.opp_1 Season.team_point_opp_table
      /\ tp_Home_Away_Ratio Season.opp_1
         = VFloat (expected_ratio
                     (points_total phf_Opp_Team_ID 1 false Season.joined)
                     (points_total phf_Opp_Team_ID 1 true Season.joined))).
Proof.
  split; (split; [vm_compute; reflexivity|]); (split; [left; reflexivity|]).
  - apply (proj1 ratio_is_float_quotient Season.joined Season.team_point_table
                 Season.team_1); [vm_compute; reflexivity | left; reflexivity].
  - apply (proj2 ratio_is_float_quotient Season.joined Season.team_point_opp_table
                 Season.opp_1); [vm_compute; reflexivity | left; reflexivity].
Defined.

(** C1 as stated fails.  Team 1 of the example season has home rows whose
    points sum to zero and away rows worth 5 points: its ratio is plus
    infinity, which is not a missing value.  And on a season in which nobody
    plays at home the computation raises. *)
Lemma zero_home_total_gives_infinity :
  team_point_stats Season.joined = Ok Season.team_point_table
  /\ In Season.team_1 Season.team_point_table
  /\ points_total phf_Player_Team_ID 1 true Season.joined = Some 0
  /\ points_total phf_Player_Team_ID 1 false Season.joined = Some 5
  /\ tp_Home_Away_Ratio Season.team_1 = VFloat Float64.pos_inf
  /\ isna (tp_Home_Away_Ratio Season.team_1) = false
  /\ team_point_stats Season.joined_away = Raise (KeyError "Team Total Points Home").
Proof.
  repeat split; try (vm_compute; reflexivity). left. reflexivity.
Qed.

(** A sum with a missing summand is missing, and a missing value is not
    [==] to anything. *)
Lemma value_add_nan (a : value) :
  value_add (VFloat Float64.nan) a = VFloat Float64.nan
  /\ value_add a (VFloat Float64.nan) = VFloat Float64.nan.
Proof.
  destruct a as [z|f]; unfold value_add, astype_float;
    split; f_equal; apply Float64Facts.add_nan_any.
Qed.

Lemma value_eq_nan (b : value) : value_eq (VFloat Float64.nan) b = false.
Proof. destruct b; reflexivity. Qed.

(** C3 as stated fails for a team that has rows on one side only.  Team 1
    of this season plays away only: its home total is missing, so are the
    sum of the two totals and 'Team Total Points', and a missing value is
    not equal to a missing value. *)
Lemma one_sided_team_total_differs :
  team_point_stats Season2.joined_one_sided = Ok Season2.team_point_table_one_sided
  /\ In Season2.team_1_one_sided Season2.team_point_table_one_sided
  /\ value_add (tp_Total_Points_Home Season2.team_1_one_sided)
               (tp_Total_Points_Away Season2.team_1_one_sided)
     = VFloat Float64.nan
  /\ tp_Total_Points Season2.team_1_one_sided = VFloat Float64.nan
  /\ value_eq (value_add (tp_Total_Points_Home Season2.team_1_one_sided)
                         (tp_Total_Points_Away Season2.team_1_one_sided))
              (tp_Total_Points Season2.team_1_one_sided)
     = false.
Proof.
  split; [vm_compute; reflexivity|].
  split; [left; reflexivity|].
  split; [reflexivity|]. split; reflexivity.
Qed.

(** C3.  For a team of [team_point_stats], 'Team Total Points Home' plus
    'Team Total Points Away' [==] 'Team Total Points' exactly when the team
    has a home row and an away row: the comparison is that of [int64]
    cells, or IEEE equality of [float64] cells.  The two summands are the
    pivot's cells, that is the team's home and away points totals (a total
    over no row being the missing value). *)
Theorem home_plus_away_is_total (phf : list phf_row) (t : list team_point_row)
        (r : team_point_row) :
  team_point_stats phf = Ok t -> In r t ->
  (value_eq (value_add (tp_Total_Points_Home r) (tp_Total_Points_Away r))
            (tp_Total_Points r) = true
   <-> (exists x, In x phf /\ phf_Player_Team_ID x = tp_Team_ID r
                  /\ phf_Is_Home x = true)
       /\ (exists x, In x phf /\ phf_Player_Team_ID x = tp_Team_ID r
                     /\ phf_Is_Home x = false))
  /\ astype_float (tp_Total_Points_Home r)
     = total_float (points_total phf_Player_Team_ID (tp_Team_ID r) true phf)
  /\ astype_float (tp_Total_Points_Away r)
     = total_float (points_total phf_Player_Team_ID (tp_Team_ID r) false phf).
Proof.
  intros E Hr.
  destruct (point_stats_row_cells _ _ _ _ _ _ E Hr) as (_ & Ha & Hh & Ht & _).
  split; [|rewrite Ha, Hh, !PivotFacts.pivot_cell_float; split; reflexivity].
  rewrite Ht, (value_add_comm (tp_Total_Points_Away r)).
  rewrite <- !(PivotFacts.points_total_some phf_Player_Team_ID).
  destruct (points_total phf_Player_Team_ID (tp_Team_ID r) true phf) as [h|] eqn:Th.
  - destruct (points_total phf_Player_Team_ID (tp_Team_ID r) false phf)
      as [a|] eqn:Ta.
    + split; [eauto|]. intros _.
      destruct (PivotFacts.pivot_cells_both _ _ _ _ _ Th Ta) as [[Eh Ea]|[Eh Ea]];
        rewrite Hh, Ha, Eh, Ea; simpl.
      * apply Z.eqb_refl.
      * apply Float64Facts.float64_eqb_refl, Float64Facts.add_finite_not_nan;
          apply Float64Facts.of_int_finite.
        -- pose proof (PivotFacts.points_total_range _ _ _ _ _ Th) as R.
           unfold Int64.in_range in R. lia.
        -- pose proof (PivotFacts.points_total_range _ _ _ _ _ Ta) as R.
           unfold Int64.in_range in R. lia.
    + split; [|intros [_ [z Hz]]; discriminate]. intros H. exfalso.
      rewrite Ha, (PivotFacts.pivot_cell_missing _ _ _ _ Ta) in H.
      rewrite (proj2 (value_add_nan _)), value_eq_nan in H. discriminate.
  - split; [|intros [[z Hz] _]; discriminate]. intros H. exfalso.
    rewrite Hh, (PivotFacts.pivot_cell_missing _ _ _ _ Th) in H.
    rewrite (proj1 (value_add_nan _)), value_eq_nan in H. discriminate.
Qed.

(** The home and the away rows of an id are all its rows. *)
Lemma home_plus_away_rows (id : phf_row -> Z) (i : Z) (phf : list phf_row) :
  Zsum (map phf_Game_Total_Points (rows_of id i true phf))
  + Zsum (map phf_Game_Total_Points (rows_of id i false phf))
  = Zsum (map phf_Game_Total_Points (filter (fun r => id r =? i) phf)).
Proof.
  unfold rows_of. induction phf as [|r phf IH]; simpl; [reflexivity|].
  destruct (id r =? i); simpl; [|exact IH].
  destruct (phf_Is_Home r); simpl; lia.
Qed.

(** X6.  When a team has both home and away rows with [int64] cells,
    its 'Team Total Points' is the [int64] sum of 'Game Total Points' over
    all rows of the team. *)
Lemma team_total_is_sum_over_rows (phf : list phf_row) (t : list team_point_row)
      (r : team_point_row) (h a : Z) :
  team_point_stats phf = Ok t -> In r t ->
  tp_Total_Points_Home r = VInt h -> tp_Total_Points_Away r = VInt a ->
  tp_Total_Points r
  = VInt (Int64.wrap
            (Zsum (map phf_Game_Total_Points
                       (filter (fun x => phf_Player_Team_ID x =? tp_Team_ID r) phf)))).
Proof.
  intros E Hr Hh Ha.
  destruct (point_stats_row_cells _ _ _ _ _ _ E Hr) as (_ & Ea & Eh & Et & _).
  rewrite Et, Ha, Hh. simpl. f_equal.
  rewrite Ha in Ea. rewrite Hh in Eh.
  unfold home_away_pivot, unstack in Ea, Eh. simpl at_ in Ea, Eh.
  fold (cells_of phf_Player_Team_ID phf) in Ea, Eh.
  rewrite PivotFacts.lookup_pivot_series in Ea, Eh.
  unfold points_total in Ea, Eh.
  rewrite <- home_plus_away_rows.
  destruct (rows_of phf_Player_Team_ID (tp_Team_ID r) false phf) as [|x xs];
    [discriminate Ea|].
  destruct (rows_of phf_Player_Team_ID (tp_Team_ID r) true phf) as [|y ys];
    [discriminate Eh|].
  match type of Ea with
  | VInt _ = (if ?b then _ else _) => destruct b; [discriminate Ea|]
  end.
  inversion Ea; inversion Eh; subst a h.
  unfold Int64.add.
  rewrite Int64Facts.wrap_wrap_add, Z.add_comm, Int64Facts.wrap_wrap_add.
  reflexivity.
Qed.

(** Team 2 of the example season has rows on both sides: 6 points at
    home, 2 away, 8 in total. *)
Lemma home_plus_away_is_total_witness :
  team_point_stats Season.joined = Ok Season.team_point_table
  /\ In Season.team_2 Season.team_point_table
  /\ value_eq (value_add (tp_Total_Points_Home Season.team_2)
                         (tp_Total_Points_Away Season.team_2))
              (tp_Total_Points Season.team_2) = true
  /\ tp_Total_Points Season.team_2 = VInt 8.
Proof.
  assert (E : team_point_stats Season.joined = Ok Season.team_point_table)
    by (vm_compute; reflexivity).
  assert (Hin : In Season.team_2 Season.team_point_table)
    by (right; left; reflexivity).
  split; [exact E|]. split; [exact Hin|]. split; [|reflexivity].
  apply (proj1 (home_plus_away_is_total Season.joined Season.team_point_table
                  Season.team_2 E Hin)).
  split.
  - exists (nth 4 Season.joined Season.home_row).
    split; [right; right; right; right; left; reflexivity|]. split; reflexivity.
  - exists (nth 3 Season.joined Season.home_row).
    split; [right; right; right; left; reflexivity|]. split; reflexivity.
Defined.

Lemma team_stats_row_cells (phf : list phf_row) (t : list team_stats_row)
      (r : team_stats_row) :
  team_stats phf = Ok t -> In r t ->
  ts_Total_Points_Away r
  = at_ (home_away_pivot phf_Field_Position_ID phf) (ts_Field_Position_ID r) false
  /\ ts_Total_Points_Home r
     = at_ (home_away_pivot phf_Field_Position_ID phf) (ts_Field_Position_ID r) true
  /\ ts_Total_Points_Home_Away_Ratio r
     = dampened_ratio (ts_Total_Points_Away r) (ts_Total_Points_Home r).
Proof.
  unfold team_stats.
  destruct (negb (has_column (home_away_pivot phf_Field_Position_ID phf) false));
    [discriminate|].
  destruct (negb (has_column (home_away_pivot phf_Field_Position_ID phf) true));
    [discriminate|].
  intros E Hr. inversion E; subst t; clear E.
  rewrite in_map_iff in Hr. destruct Hr as (i & E & Hi). subst r. simpl. auto.
Qed.

Lemma dampened_ratio_float (away home : value) :
  dampened_ratio away home
  = VFloat (dampen (astype_float away) (astype_float home)).
Proof. reflexivity. Qed.

Lemma dampen_5_10 :
  dampen (Float64.of_int 5) (Float64.of_int 10) = three_quarters.
Proof. vm_compute. reflexivity. Qed.

(** C4.  For every field position of [team_stats], the
    'Total Points Home Away Ratio' is exactly [1 - (1 - away/home) / 2],
    computed in [float64] arithmetic from that position's away and home
    points totals; for a home total of 10 and an away total of 5 it is
    0.75. *)
Theorem position_ratio_is_dampened (phf : list phf_row) (t : list team_stats_row)
        (r : team_stats_row) :
  team_stats phf = Ok t -> In r t ->
  let away := points_total phf_Field_Position_ID (ts_Field_Position_ID r) false phf in
  let home := points_total phf_Field_Position_ID (ts_Field_Position_ID r) true phf in
  ts_Total_Points_Home_Away_Ratio r
  = VFloat (dampen (total_float away) (total_float home))
  /\ (home = Some 10 -> away = Some 5 ->
      ts_Total_Points_Home_Away_Ratio r = VFloat three_quarters).
Proof.
  intros E Hr away home.
  destruct (team_stats_row_cells _ _ _ E Hr) as (Ha & Hh & Hq).
  assert (H : ts_Total_Points_Home_Away_Ratio r
              = VFloat (dampen (total_float away) (total_float home))).
  { rewrite Hq, Ha, Hh, dampened_ratio_float.
    rewrite !PivotFacts.pivot_cell_float. reflexivity. }
  split; [exact H|].
  intros H10 H5. rewrite H, H10, H5.
  exact (f_equal VFloat dampen_5_10).
Qed.

(** The midfielders of the second example history: 10 points at home, 5
    away, ratio 0.75. *)
Lemma position_ratio_is_dampened_witness :
  team_stats Season.joined_10_5 = Ok Season.team_stats_table
  /\ In Season.midfielders Season.team_stats_table
  /\ points_total phf_Field_Position_ID 3 true Season.joined_10_5 = Some 10
  /\ points_total phf_Field_Position_ID 3 false Season.joined_10_5 = Some 5
  /\ ts_Total_Points_Home_Away_Ratio Season.midfielders = VFloat three_quarters.
Proof.
  split; [vm_compute; reflexivity|].
  split; [left; reflexivity|].
  split; [vm_compute; reflexivity|].
  split; [vm_compute; reflexivity|].
  apply (position_ratio_is_dampened Season.joined_10_5 Season.team_stats_table
           Season.midfielders);
    [vm_compute; reflexivity | left; reflexivity
     | vm_compute; reflexivity | vm_compute; reflexivity].
Defined.

(* ================================================================== *)
(** * The joined table [players_history_fixtures] *)

Lemma history_part_assign (h : history_row) (f : fixture_row)
      (p : player_team_stats_row) :
  history_part (phf_assign h f p) = h.
Proof. destruct h. reflexivity. Qed.

(** The rows of the joined table: one per history row, fixture of its
    'Fixture ID' and player of its 'Player ID'. *)
Lemma in_players_history_fixtures (players_history : list history_row)
      (fixtures : list (Z * fixture_row))
      (stats : list (Z * player_team_stats_row)) (r : phf_row) :
  In r (players_history_fixtures players_history fixtures stats)
  <-> exists h f p,
      In h players_history
      /\ In (ph_Fixture_ID h, f) fixtures
      /\ In (ph_Player_ID h, p) stats
      /\ r = phf_assign h f p.
Proof.
  unfold players_history_fixtures. rewrite in_map_iff. split.
  - intros ([[h f] p] & E & H). simpl in E.
    apply PandasFacts.in_merge in H. destruct H as [H Hp].
    apply PandasFacts.in_merge in H. destruct H as [Hh Hf].
    exists h, f, p. simpl in Hp. auto.
  - intros (h & f & p & Hh & Hf & Hp & E).
    exists ((h, f), p). split; [symmetry; exact E|].
    apply PandasFacts.in_merge. split; [|exact Hp].
    apply PandasFacts.in_merge. split; assumption.
Qed.

(** C9.  In every row of [players_history_fixtures], 'Is Home?' is true
    exactly when the player's 'Player Team ID' equals the fixture's
    'Home Team ID', and 'Opp Team ID' is the fixture's 'Away Team ID' when
    'Is Home?' is true and its 'Home Team ID' otherwise; the fixture and the
    player are those the tables hold under the row's 'Fixture ID' and
    'Player ID'. *)
Theorem is_home_and_opponent (players_history : list history_row)
        (fixtures : list (Z * fixture_row))
        (stats : list (Z * player_team_stats_row)) (r : phf_row) :
  In r (players_history_fixtures players_history fixtures stats) ->
  (phf_Is_Home r = true <-> phf_Player_Team_ID r = phf_Home_Team_ID r)
  /\ phf_Opp_Team_ID r
     = (if phf_Is_Home r then phf_Away_Team_ID r else phf_Home_Team_ID r)
  /\ exists f p,
      In (phf_Fixture_ID r, f) fixtures
      /\ In (phf_Player_ID r, p) stats
      /\ phf_Home_Team_ID r = fx_Home_Team_ID f
      /\ phf_Away_Team_ID r = fx_Away_Team_ID f
      /\ phf_Player_Team_ID r = pts_Player_Team_ID p.
Proof.
  rewrite in_players_history_fixtures.
  intros (h & f & p & Hh & Hf & Hp & ->). simpl.
  split; [|split; [reflexivity|]].
  - rewrite Z.eqb_eq. split; congruence.
  - exists f, p. auto.
Qed.

(** Player 1 of the example season, at home in fixture 1 and away in
    fixture 2. *)
Lemma is_home_and_opponent_witness :
  (In Season.home_row Season.joined
   /\ phf_Is_Home Season.home_row = true
   /\ phf_Opp_Team_ID Season.home_row = phf_Away_Team_ID Season.home_row)
  /\ (In Season.away_row Season.joined
      /\ phf_Is_Home Season.away_row = false
      /\ phf_Opp_Team_ID Season.away_row = phf_Home_Team_ID Season.away_row).
Proof.
  assert (H1 : In Season.home_row Season.joined) by (vm_compute; left; reflexivity).
  assert (H2 : In Season.away_row Season.joined)
    by (vm_compute; right; left; reflexivity).
  split.
  - split; [exact H1|]. split; [reflexivity|].
    exact (proj1 (proj2 (is_home_and_opponent _ _ _ _ H1))).
  - split; [exact H2|]. split; [reflexivity|].
    exact (proj1 (proj2 (is_home_and_opponent _ _ _ _ H2))).
Defined.

(** The five further inner merges of [player_fixtures_team_stats] only
    keep rows of the joined table, each with an opponent known to
    [team_score_stats]. *)
Lemma player_fixtures_team_stats_rows (phf : list phf_row)
      (team_score_stats : list (Z * team_score_row))
      (t : list pfts_row) (r : pfts_row) :
  player_fixtures_team_stats phf team_score_stats = Ok t -> In r t ->
  In (pfts_base r) phf
  /\ In (phf_Opp_Team_ID (pfts_base r)) (map fst team_score_stats).
Proof.
  unfold player_fixtures_team_stats, Features.bind.
  destruct (team_point_stats phf) as [tps|]; [|discriminate].
  destruct (team_point_opp_stats phf) as [tpos|]; [|discriminate].
  destruct (team_stats phf) as [ts|]; [|discriminate].
  intros E Hr. inversion E; subst t; clear E.
  apply in_map_iff in Hr.
  destruct Hr as ([[[[[b own] opp] opps] score] ratio] & <- & H).
  simpl.
  apply PandasFacts.in_merge in H. destruct H as [H _].
  apply PandasFacts.in_merge in H. destruct H as [H Hscore].
  apply PandasFacts.in_merge in H. destruct H as [H _].
  apply PandasFacts.in_merge in H. destruct H as [H _].
  apply PandasFacts.in_merge in H. destruct H as [H _].
  split; [exact H|].
  simpl in Hscore. apply in_map_iff.
  exists (phf_Opp_Team_ID b, score). auto.
Qed.

(** C10.  A history row appears in [players_history_fixtures] exactly when
    its 'Fixture ID' is an index label of [fixtures] and its 'Player ID' is
    an index label of [player_team_stats]; other rows are dropped.  Every
    row of the joined table carries the columns of a fixture and of a
    player that the tables hold under its keys, so no joined-in cell is
    missing for want of a match. *)
Theorem inner_joins_keep_matched_rows (players_history : list history_row)
        (fixtures : list (Z * fixture_row))
        (stats : list (Z * player_team_stats_row)) :
  (forall h,
      In h (map history_part (players_history_fixtures players_history fixtures stats))
      <-> In h players_history
          /\ In (ph_Fixture_ID h) (map fst fixtures)
          /\ In (ph_Player_ID h) (map fst stats))
  /\ (forall r,
         In r (players_history_fixtures players_history fixtures stats) ->
         exists f p,
           In (phf_Fixture_ID r, f) fixtures
           /\ In (phf_Player_ID r, p) stats
           /\ r = phf_assign (history_part r) f p).
Proof.
  split.
  - intros h. rewrite in_map_iff. split.
    + intros (r & E & Hr). apply in_players_history_fixtures in Hr.
      destruct Hr as (h' & f & p & Hh & Hf & Hp & ->).
      rewrite history_part_assign in E. subst h'.
      split; [assumption|]. split.
      * apply in_map_iff. exists (ph_Fixture_ID h, f). auto.
      * apply in_map_iff. exists (ph_Player_ID h, p). auto.
    + intros (Hh & Hf & Hp).
      apply in_map_iff in Hf. destruct Hf as ([i f] & Ei & Hf).
      apply in_map_iff in Hp. destruct Hp as ([j p] & Ej & Hp).
      simpl in Ei, Ej. subst i j.
      exists (phf_assign h f p). split; [apply history_part_assign|].
      apply in_players_history_fixtures. exists h, f, p. auto.
  - intros r Hr. apply in_players_history_fixtures in Hr.
    destruct Hr as (h & f & p & Hh & Hf & Hp & ->).
    exists f, p. rewrite history_part_assign. auto.
Qed.

(** In the example season the appearance of player 1 in fixture 1 is kept;
    the appearance in the unknown fixture 9 and that of the unknown player
    99 are dropped. *)
Lemma inner_joins_keep_matched_rows_witness :
  In (Season.appearance 1 1 0 90) (map history_part Season.joined)
  /\ ~ In (Season.appearance 1 9 4 90) (map history_part Season.joined)
  /\ ~ In (Season.appearance 99 1 4 90) (map history_part Season.joined).
Proof.
  pose proof (proj1 (inner_joins_keep_matched_rows Season.players_history
                       Season.fixtures Season.stats)) as H.
  split; [|split].
  - apply H. vm_compute. intuition.
  - intros Hin. apply H in Hin. destruct Hin as (_ & Hf & _).
    vm_compute in Hf. intuition discriminate.
  - intros Hin. apply H in Hin. destruct Hin as (_ & _ & Hp).
    vm_compute in Hp. intuition discriminate.
Defined.

(* ================================================================== *)
(** * [player_team_stats]: the column 'Team Total Points' *)

Lemma combine_map_r {A B : Type} (g : A -> B) (l : list A) :
  combine l (map g l) = map (fun a => (a, g a)) l.
Proof. induction l as [|a l IH]; simpl; [|rewrite IH]; reflexivity. Qed.

Lemma is_eq_Z_compare (i j : Z) : is_eq (i ?= j) = (j =? i).
Proof. rewrite Z.eqb_sym, Z.eqb_compare. destruct (i ?= j); reflexivity. Qed.

(** X10.  What the code computes: the cell of the player with id
    [player_id] is the points total of the team whose id is [player_id],
    and is missing when no player belongs to a team with that id. *)
Lemma team_total_points_aligned_on_player_id
      (player_teams : list (Z * player_team_row))
      (team_score_stats : list (Z * team_score_row))
      (player_id : Z) (row : player_team_stats_row) :
  let stats := player_team_stats player_teams team_score_stats in
  In (player_id, row) stats ->
  astype_float (pts_Team_Total_Points row)
  = match filter (fun ir => pts_Player_Team_ID (snd ir) =? player_id) stats with
    | [] => Float64.nan
    | _ => Float64.of_int (Int64.wrap (team_points player_id stats))
    end.
Proof.
  intros stats.
  set (df := player_teams_merged player_teams team_score_stats).
  set (s := team_total_points_series df).
  set (upcast := existsb (fun i => is_none (lookup Z.compare i s))
                    (map (fun r => fst (fst r)) df)).
  set (build := fun d : (Z * player_team_row) * team_score_row =>
                  (fst (fst d),
                   pts_assign (snd (fst d)) (snd d)
                              (aligned_cell s upcast (fst (fst d))))).
  assert (Estats : stats = map build df).
  { unfold stats, player_team_stats, reindex. fold df. fold s. fold upcast.
    rewrite map_map, combine_map_r, map_map. reflexivity. }
  rewrite Estats. clear Estats. unfold team_points.
  intros Hin. rewrite in_map_iff in Hin.
  destruct Hin as ([[i p] t] & E & Hd). unfold build in E. simpl in E.
  inversion E; subst i row; clear E. simpl pts_Team_Total_Points.
  assert (Hs : lookup Z.compare player_id s
               = group_total Z.compare player_id
                   (map (fun r => (pt_Player_Team_ID (snd (fst r)),
                                   pt_Total_Points (snd (fst r)))) df)).
  { unfold s, team_total_points_series.
    apply (PandasFacts.lookup_groupby_sum Z.compare);
      [apply Z.compare_eq | apply PivotFacts.Z_compare_antisym
       | apply PivotFacts.Z_compare_trans]. }
  assert (Hg : forall l,
             group Z.compare player_id
               (map (fun r : (Z * player_team_row) * team_score_row =>
                       (pt_Player_Team_ID (snd (fst r)),
                        pt_Total_Points (snd (fst r)))) l)
             = map (fun ir => pts_Total_Points (snd ir))
                 (filter (fun ir => pts_Player_Team_ID (snd ir) =? player_id)
                    (map build l))).
  { unfold group. induction l as [|[[j q] u] l IH]; simpl; [reflexivity|].
    rewrite is_eq_Z_compare.
    destruct (pt_Player_Team_ID q =? player_id); simpl; rewrite IH; reflexivity. }
  unfold aligned_cell. rewrite Hs. unfold group_total. rewrite Hg.
  destruct (filter (fun ir => pts_Player_Team_ID (snd ir) =? player_id)
                   (map build df)) as [|x g]; [reflexivity|].
  destruct upcast; reflexivity.
Qed.

(** C2 (the code at a failing input).  In the example season players 1 and
    2 play for team 1 (15 points in all) and player 3 for team 2 (7
    points).  The column holds 15 for player 1, but 7, the total of team 2,
    for player 2, and the missing value for player 3: the cell of a player
    is looked up under the player's id, not under the id of the player's
    team. *)
Theorem team_total_points_misaligned :
  map (fun ir => (fst ir, pts_Player_Team_ID (snd ir), pts_Team_Total_Points (snd ir)))
      Season.stats
  = [(1, 1, VFloat (Float64.of_int 15));
     (2, 1, VFloat (Float64.of_int 7));
     (3, 2, VFloat Float64.nan)]
  /\ team_points 1 Season.stats = 15
  /\ team_points 2 Season.stats = 7.
Proof. repeat split; vm_compute; reflexivity. Qed.

(* ================================================================== *)
(** * The training loop *)

Module KerasFacts.

Import Keras.

(** After a callback step the counter has grown by at most one, and the
    stop flag is raised only with the counter at the patience. *)
Lemma on_epoch_end_wait (patience epoch : nat) (current : option spec_float)
      (st : early_stopping) :
  let st' := on_epoch_end patience epoch current st in
  (wait st' <= S (wait st))%nat
  /\ (stop_training st = false -> stop_training st' = true ->
      (patience <= wait st')%nat).
Proof.
  unfold on_epoch_end. destruct current as [c|]; simpl.
  - destruct (Float64.ltb (Float64.sub c min_delta) (best st)); simpl.
    + split; [lia|congruence].
    + destruct (Nat.leb_spec patience (S (wait st))); simpl.
      * split; [lia|intros; assumption].
      * split; [lia|congruence].
  - split; [lia|congruence].
Qed.

(** The loop from epoch [epoch] with [remaining] epochs to run. *)
Lemma epochs_from_spec (patience : nat) (val_loss : nat -> option spec_float)
      (remaining : nat) : forall (epoch : nat) (st : early_stopping),
  (wait st <= epoch)%nat -> stop_training st = false ->
  let result := epochs_from patience val_loss remaining epoch st in
  (fst result <= epoch + remaining)%nat
  /\ (wait (snd result) <= fst result)%nat
  /\ (stop_training (snd result) = true -> (patience <= wait (snd result))%nat)
  /\ ((fst result < epoch + remaining)%nat -> stop_training (snd result) = true).
Proof.
  induction remaining as [|n IH]; intros epoch st Hw Hs; simpl.
  - repeat split; try lia. congruence.
  - pose proof (on_epoch_end_wait patience epoch (val_loss epoch) st) as [H1 H2].
    destruct (stop_training (on_epoch_end patience epoch (val_loss epoch) st)) eqn:E;
      simpl.
    + repeat split; try lia; auto.
    + simpl in H1.
      assert (Hw' : (wait (on_epoch_end patience epoch (val_loss epoch) st)
                     <= S epoch)%nat) by lia.
      specialize (IH (S epoch) _ Hw' E). simpl in IH.
      destruct IH as (I1 & I2 & I3 & I4).
      repeat split; try lia; auto.
      intros H. apply I4. lia.
Qed.

(** Training stops early only with the counter at the patience, and never
    when the patience is at least the number of epochs. *)
Lemma fit_passes (epochs patience : nat) (val_loss : nat -> option spec_float) :
  (fst (fit epochs patience val_loss) <= epochs)%nat
  /\ ((fst (fit epochs patience val_loss) < epochs)%nat ->
      stop_training (snd (fit epochs patience val_loss)) = true
      /\ (patience <= wait (snd (fit epochs patience val_loss)))%nat)
  /\ ((epochs <= patience)%nat -> fst (fit epochs patience val_loss) = epochs).
Proof.
  unfold fit.
  destruct (epochs_from_spec patience val_loss epochs 0 on_train_begin
              ltac:(simpl; lia) eq_refl) as (H1 & H2 & H3 & H4).
  simpl in *. repeat split; try lia; auto.
  intros Hp.
  destruct (Nat.eq_dec (fst (epochs_from patience val_loss epochs 0 on_train_begin))
                       epochs) as [E|N]; [exact E|].
  assert (Hlt : (fst (epochs_from patience val_loss epochs 0 on_train_begin)
                 < epochs)%nat) by lia.
  specialize (H3 (H4 Hlt)). lia.
Qed.

End KerasFacts.

(** C8.  Whatever the validation losses, training performs at most 60
    passes; it ends before the last pass only with the stop flag raised by
    the callback, which needs 100 consecutive passes without improvement;
    as 100 exceeds 60, it performs exactly 60 passes. *)
Theorem training_runs_sixty_passes (val_loss : nat -> option spec_float) :
  (fst (Keras.train val_loss) <= 60)%nat
  /\ ((fst (Keras.train val_loss) < 60)%nat ->
      Keras.stop_training (snd (Keras.train val_loss)) = true
      /\ (100 <= Keras.wait (snd (Keras.train val_loss)))%nat)
  /\ fst (Keras.train val_loss) = 60%nat.
Proof.
  destruct (KerasFacts.fit_passes Keras.notebook_epochs Keras.notebook_patience val_loss)
    as (H1 & H2 & H3).
  split; [exact H1|]. split; [exact H2|].
  apply H3. unfold Keras.notebook_epochs, Keras.notebook_patience. lia.
Qed.

(* ================================================================== *)
(** * The dataset builder *)

Lemma dropna_complete (df : list example_row) (r : example_row) :
  In r (dropna df) -> complete r.
Proof.
  unfold dropna. rewrite filter_In. intros [_ H] c Hc.
  apply negb_true_iff in H.
  destruct (cell_isna c) eqn:E; [|reflexivity].
  assert (existsb cell_isna (cells r) = true)
    by (apply existsb_exists; exists c; auto).
  congruence.
Qed.

Lemma examples_complete (player_fixture_stats : list pfs_row) (r : example_row) :
  In r (examples player_fixture_stats) -> complete r.
Proof. apply dropna_complete. Qed.

(** Every example comes from a row that passed the filter on
    'GWs Played To GW'. *)
Lemma examples_filtered (player_fixture_stats : list pfs_row) (r : example_row) :
  In r (examples player_fixture_stats) ->
  exists row, In row player_fixture_stats
              /\ value_ge (pfs_GWs_Played_To_GW row) 10 = true
              /\ r = select row.
Proof.
  unfold examples, dropna. rewrite filter_In, in_map_iff.
  intros [(row & E & H) _]. rewrite filter_In in H.
  exists row. intuition.
Qed.

Section Builder.

(** [nn_split], of which only this is assumed: the two tables it returns
    hold rows of the table it is given. *)
Variable nn_split : list example_row -> list example_row * list example_row.
Hypothesis nn_split_rows :
  forall df r, In r (fst (nn_split df)) \/ In r (snd (nn_split df)) -> In r df.

(** C6.  After the filter on 'GWs Played To GW', the selection of the five
    features and the target, and [dropna], every row of the train table
    and of the test table has all six cells present. *)
Theorem train_test_rows_complete (player_fixture_stats : list pfs_row)
        (r : example_row) :
  In r (fst (train_test nn_split player_fixture_stats))
  \/ In r (snd (train_test nn_split player_fixture_stats)) ->
  complete r.
Proof.
  intros H. apply nn_split_rows in H.
  exact (examples_complete _ _ H).
Qed.

End Builder.

(* ================================================================== *)
(** * The train/test split *)

Module SplitFacts.

Import Helpers.

Section Rows.
Context {A : Type}.

Lemma take_rows_app (df : list A) (l l' : list nat) :
  take_rows df (l ++ l') = take_rows df l ++ take_rows df l'.
Proof.
  induction l as [|i l IH]; simpl; [reflexivity|].
  destruct (nth_error df i); simpl; rewrite IH; reflexivity.
Qed.

Lemma take_rows_perm (df : list A) (l l' : list nat) :
  Permutation l l' -> Permutation (take_rows df l) (take_rows df l').
Proof.
  induction 1 as [|i l l' _ IH|i j l|l l' l'' _ IH1 _ IH2]; simpl.
  - constructor.
  - destruct (nth_error df i); [constructor|]; assumption.
  - destruct (nth_error df i), (nth_error df j);
      try apply Permutation_refl. constructor.
  - eapply Permutation_trans; eassumption.
Qed.

Lemma take_rows_in (df : list A) (l : list nat) (r : A) :
  In r (take_rows df l) -> In r df.
Proof.
  induction l as [|i l IH]; simpl; [intros []|].
  destruct (nth_error df i) as [x|] eqn:E; [|exact IH].
  intros [H|H]; [subst; eapply nth_error_In; eassumption | auto].
Qed.

Lemma take_rows_length (df : list A) (l : list nat) :
  (forall i, In i l -> (i < List.length df)%nat) ->
  List.length (take_rows df l) = List.length l.
Proof.
  induction l as [|i l IH]; intros H; simpl; [reflexivity|].
  destruct (nth_error df i) as [x|] eqn:E.
  - simpl. rewrite IH; [reflexivity|]. intros j Hj. apply H. right. assumption.
  - apply nth_error_None in E. specialize (H i (or_introl eq_refl)). lia.
Qed.

(** Taking the rows at all positions, in order, gives the table back. *)
Lemma take_rows_seq (l : list A) : forall prefix,
  take_rows (prefix ++ l) (seq (List.length prefix) (List.length l)) = l.
Proof.
  induction l as [|x l IH]; intros prefix; simpl; [reflexivity|].
  rewrite nth_error_app2 by lia. rewrite Nat.sub_diag. simpl.
  f_equal. specialize (IH (prefix ++ [x])).
  rewrite <- app_assoc, length_app in IH. simpl in IH.
  rewrite Nat.add_1_r in IH. exact IH.
Qed.

(** Dropping positions is taking the positions that are left. *)
Lemma drop_rows_from (f : nat -> bool) (l : list A) : forall prefix,
  map snd (filter (fun ir => f (fst ir))
                  (combine (seq (List.length prefix) (List.length l)) l))
  = take_rows (prefix ++ l)
              (filter f (seq (List.length prefix) (List.length l))).
Proof.
  induction l as [|x l IH]; intros prefix; simpl; [reflexivity|].
  specialize (IH (prefix ++ [x])).
  rewrite <- app_assoc, length_app in IH. simpl in IH.
  rewrite Nat.add_1_r in IH.
  destruct (f (List.length prefix)); simpl.
  - rewrite nth_error_app2 by lia. rewrite Nat.sub_diag. simpl.
    f_equal. exact IH.
  - exact IH.
Qed.

Lemma drop_rows_take (df : list A) (drawn : list nat) :
  drop_rows df drawn
  = take_rows df (filter (fun i => negb (existsb (Nat.eqb i) drawn))
                         (seq 0 (List.length df))).
Proof.
  unfold drop_rows.
  exact (drop_rows_from (fun i => negb (existsb (Nat.eqb i) drawn)) df []).
Qed.

Lemma drop_rows_in (df : list A) (drawn : list nat) (r : A) :
  In r (drop_rows df drawn) -> In r df.
Proof. rewrite drop_rows_take. apply take_rows_in. Qed.
End Rows.

Lemma filter_perm {B : Type} (f : B -> bool) (l l' : list B) :
  Permutation l l' -> Permutation (filter f l) (filter f l').
Proof.
  induction 1 as [|x l l' _ IH|x y l|l l' l'' _ IH1 _ IH2]; simpl.
  - constructor.
  - destruct (f x); [constructor|]; assumption.
  - destruct (f x), (f y); try apply Permutation_refl. constructor.
  - eapply Permutation_trans; eassumption.
Qed.

Lemma existsb_eqb_in (i : nat) (l : list nat) :
  existsb (Nat.eqb i) l = true <-> In i l.
Proof.
  rewrite existsb_exists. split.
  - intros (j & Hj & E). apply Nat.eqb_eq in E. subst. assumption.
  - intros H. exists i. split; [assumption|apply Nat.eqb_refl].
Qed.

Lemma filter_drawn (drawn l : list nat) :
  incl l drawn -> filter (fun i => negb (existsb (Nat.eqb i) drawn)) l = [].
Proof.
  induction l as [|i l IH]; intros Hi; simpl; [reflexivity|].
  assert (Hin : existsb (Nat.eqb i) drawn = true)
    by (apply existsb_eqb_in, Hi; left; reflexivity).
  rewrite Hin. simpl. apply IH. intros j Hj. apply Hi. right. assumption.
Qed.

Lemma filter_not_drawn (drawn l : list nat) :
  (forall i, In i l -> ~ In i drawn) ->
  filter (fun i => negb (existsb (Nat.eqb i) drawn)) l = l.
Proof.
  induction l as [|i l IH]; intros Hl; simpl; [reflexivity|].
  destruct (existsb (Nat.eqb i) drawn) eqn:E.
  - apply existsb_eqb_in in E. exfalso.
    apply (Hl i); [left; reflexivity|assumption].
  - simpl. f_equal. apply IH. intros j Hj. apply Hl. right. assumption.
Qed.

Lemma NoDup_app_disjoint (a b : list nat) (i : nat) :
  NoDup (a ++ b) -> In i b -> ~ In i a.
Proof.
  induction a as [|d a IH]; simpl; intros Hnd Hb Ha; [contradiction|].
  inversion Hnd as [|? ? Hnotin Hrest]; subst.
  destruct Ha as [->|Ha].
  - apply Hnotin. apply in_or_app. right. assumption.
  - exact (IH Hrest Hb Ha).
Qed.

(** The drawn positions followed by the positions left are all positions. *)
Lemma drawn_and_left (order positions : list nat) (k : nat) :
  Permutation order positions ->
  NoDup positions ->
  Permutation
    (firstn k order
     ++ filter (fun i => negb (existsb (Nat.eqb i) (firstn k order))) positions)
    positions.
Proof.
  intros Hp Hnd.
  set (drawn := firstn k order). set (left := skipn k order).
  assert (Eo : order = drawn ++ left) by (symmetry; apply firstn_skipn).
  assert (Hnd' : NoDup (drawn ++ left)).
  { rewrite <- Eo. eapply Permutation_NoDup; [apply Permutation_sym|]; eassumption. }
  apply Permutation_trans with (drawn ++ left); [|rewrite <- Eo; exact Hp].
  apply Permutation_app_head.
  apply Permutation_trans
    with (filter (fun i => negb (existsb (Nat.eqb i) drawn)) (drawn ++ left)).
  { apply filter_perm. rewrite <- Eo. apply Permutation_sym. exact Hp. }
  rewrite filter_app, filter_drawn by apply incl_refl. simpl.
  rewrite filter_not_drawn; [apply Permutation_refl|].
  intros i Hi. exact (NoDup_app_disjoint drawn left i Hnd' Hi).
Qed.

Lemma train_size_le (n : nat) : (train_size n <= n)%nat.
Proof.
  unfold train_size.
  pose proof (Nat.div_mod_eq (8 * n + 5) 10).
  pose proof (Nat.mod_upper_bound (8 * n + 5) 10). lia.
Qed.

(** [train_size n] is [0.8 n] to within half a row. *)
Lemma train_size_bounds (n : nat) :
  (10 * train_size n <= 8 * n + 5 /\ 8 * n + 5 < 10 * train_size n + 10)%nat.
Proof.
  unfold train_size.
  pose proof (Nat.div_mod_eq (8 * n + 5) 10).
  pose proof (Nat.mod_upper_bound (8 * n + 5) 10). lia.
Qed.

Section Split.
Context {A : Type} (rng : generator) (seed : Z).
Hypothesis rng_draws : draws_permutations rng.

Lemma nn_split_perm (ambient : Z) (df : list A) :
  Permutation (fst (fst (nn_split rng seed ambient df))
               ++ snd (fst (nn_split rng seed ambient df))) df.
Proof.
  unfold nn_split. simpl. rewrite drop_rows_take, <- take_rows_app.
  apply Permutation_trans with (take_rows df (seq 0 (List.length df)));
    [|pose proof (take_rows_seq df []) as E; simpl in E; rewrite E;
      apply Permutation_refl].
  apply take_rows_perm, drawn_and_left; [apply rng_draws|apply seq_NoDup].
Qed.

Lemma nn_split_train_length (ambient : Z) (df : list A) :
  List.length (fst (fst (nn_split rng seed ambient df)))
  = train_size (List.length df).
Proof.
  unfold nn_split. simpl. rewrite take_rows_length.
  - rewrite length_firstn.
    rewrite (Permutation_length (rng_draws seed (List.length df))), length_seq.
    pose proof (train_size_le (List.length df)). lia.
  - intros i Hi.
    assert (Hi' : In i (rng seed (List.length df))).
    { rewrite <- (firstn_skipn (train_size (List.length df))).
      apply in_or_app. left. exact Hi. }
    clear Hi. rename Hi' into Hi.
    apply (Permutation_in _ (rng_draws seed (List.length df))) in Hi.
    apply in_seq in Hi. lia.
Qed.

Lemma nn_split_test_length (ambient : Z) (df : list A) :
  (List.length (snd (fst (nn_split rng seed ambient df)))
   + train_size (List.length df) = List.length df)%nat.
Proof.
  pose proof (Permutation_length (nn_split_perm ambient df)) as H.
  rewrite length_app, nn_split_train_length in H. lia.
Qed.
End Split.

Lemma nn_split_in {A : Type} (rng : generator) (seed ambient : Z)
      (df : list A) (r : A) :
  In r (fst (fst (nn_split rng seed ambient df)))
  \/ In r (snd (fst (nn_split rng seed ambient df))) -> In r df.
Proof.
  unfold nn_split. simpl.
  intros [H|H]; [eapply take_rows_in|eapply drop_rows_in]; eassumption.
Qed.

Lemma rotate_draws : draws_permutations rotate.
Proof.
  intros seed n. unfold rotate.
  eapply Permutation_trans; [apply Permutation_app_comm|].
  rewrite firstn_skipn. apply Permutation_refl.
Qed.

End SplitFacts.

(** The one complete row of the example input that passes the filter ends
    up in the train table. *)
Lemma train_test_rows_complete_witness :
  In (select (Season.stats_row 12 (Float64.of_int 4)))
     (fst (train_test Season.split_rows Season.builder_input))
  /\ complete (select (Season.stats_row 12 (Float64.of_int 4))).
Proof.
  assert (H : In (select (Season.stats_row 12 (Float64.of_int 4)))
                 (fst (train_test Season.split_rows Season.builder_input)))
    by (vm_compute; left; reflexivity).
  split; [exact H|].
  apply (train_test_rows_complete Season.split_rows
           (fun df r => SplitFacts.nn_split_in Helpers.rotate 1 0 df r)
           Season.builder_input).
  left. exact H.
Defined.

(* ================================================================== *)
(** * Rolling statistics per player and fixture *)

Module StatsFacts.

Import Helpers.

Lemma filter_filter_implied {A : Type} (p q : A -> bool) (l : list A) :
  (forall a, p a = true -> q a = true) ->
  filter p (filter q l) = filter p l.
Proof.
  intros H. induction l as [|a l IH]; simpl; [reflexivity|].
  destruct (q a) eqn:Eq; simpl.
  - rewrite IH. reflexivity.
  - destruct (p a) eqn:Ep; [|exact IH].
    rewrite (H a Ep) in Eq. discriminate.
Qed.

Lemma filter_comm {A : Type} (p q : A -> bool) (l : list A) :
  filter p (filter q l) = filter q (filter p l).
Proof.
  induction l as [|a l IH]; simpl; [reflexivity|].
  destruct (p a) eqn:Ep, (q a) eqn:Eq; simpl; rewrite ?Ep, ?Eq, IH; reflexivity.
Qed.

Lemma in_prior (df : list pfts_row) (r r' : pfts_row) :
  In r' (prior df r)
  <-> In r' df /\ player_id r' = player_id r /\ game_week r' < game_week r.
Proof.
  unfold prior, earlier.
  rewrite filter_In, andb_true_iff, Z.eqb_eq, Z.ltb_lt. tauto.
Qed.

(** The prior rows of a row are decided by its player and its gameweek. *)
Lemma prior_same_key (df : list pfts_row) (r r' : pfts_row) :
  player_id r' = player_id r -> game_week r' = game_week r ->
  prior df r' = prior df r.
Proof.
  intros Hp Hg. unfold prior. apply filter_ext. intros x.
  unfold earlier. rewrite Hp, Hg. reflexivity.
Qed.

(** The rows played among the earlier rows, and the earlier rows among the
    rows played. *)
Lemma prior_played (df : list pfts_row) (r : pfts_row) :
  prior (played df) r = played (filter (earlier r) df).
Proof. unfold prior, played. apply filter_comm. Qed.

(** The rolling statistics of a row are computed from its prior rows. *)
Lemma rolling_of_prior (window : Z) (adjusted : pfts_row -> value)
      (df df' : list pfts_row) (r r' : pfts_row) :
  prior df' r' = prior df r -> game_week r' = game_week r ->
  st_GWs_Played_To_GW (stats_of window adjusted df' r')
  = st_GWs_Played_To_GW (stats_of window adjusted df r)
  /\ st_Avg_Points_To_GW (stats_of window adjusted df' r')
     = st_Avg_Points_To_GW (stats_of window adjusted df r)
  /\ st_Avg_Points_Opp_Points_Adj_To_GW (stats_of window adjusted df' r')
     = st_Avg_Points_Opp_Points_Adj_To_GW (stats_of window adjusted df r)
  /\ st_Avg_Minutes_Played_Recently_To_GW (stats_of window adjusted df' r')
     = st_Avg_Minutes_Played_Recently_To_GW (stats_of window adjusted df r).
Proof.
  intros Hprior Hg. unfold stats_of, recent. simpl.
  rewrite Hprior, Hg. auto.
Qed.

Lemma gameweeks_incl (l l' : list pfts_row) :
  incl l l' -> gameweeks l <= gameweeks l'.
Proof.
  intros H. unfold gameweeks. apply inj_le.
  apply NoDup_incl_length; [apply NoDup_nodup|].
  intros g Hg. apply nodup_In in Hg. apply nodup_In.
  apply in_map_iff in Hg. destruct Hg as (r & E & Hr).
  apply in_map_iff. exists r. auto.
Qed.

Lemma prior_monotone (df : list pfts_row) (r1 r2 : pfts_row) :
  player_id r1 = player_id r2 -> game_week r1 <= game_week r2 ->
  gameweeks (prior df r1) <= gameweeks (prior df r2).
Proof.
  intros Hp Hg. apply gameweeks_incl. intros r Hr.
  apply in_prior in Hr. apply in_prior. intuition lia.
Qed.

Lemma filter_none {A : Type} (p : A -> bool) (l : list A) :
  (forall a, In a l -> p a = false) -> filter p l = [].
Proof.
  induction l as [|a l IH]; intros H; simpl; [reflexivity|].
  rewrite (H a) by (left; reflexivity). apply IH.
  intros b Hb. apply H. right. assumption.
Qed.

Lemma in_player_fixture_stats (window : Z) (adjusted : pfts_row -> value)
      (df : list pfts_row) (o : player_fixture_stats_row) :
  In o (player_fixture_stats window adjusted df)
  <-> In (st_row o) (played df)
      /\ o = stats_of window adjusted (played df) (st_row o).
Proof.
  unfold player_fixture_stats, calc_player_fixture_stats.
  rewrite in_map_iff. split.
  - intros (r & E & Hr). subst o. simpl. auto.
  - intros [Hr E]. exists (st_row o). auto.
Qed.

End StatsFacts.

(** C5 as stated fails.  The rows handed to [calc_player_fixture_stats] are
    built from the whole season: after gameweek 3 the row of player 1 in
    gameweek 2 counts one gameweek played, with the data up to gameweek 2
    alone it counts none, because the merges keep the player's row of
    gameweek 1 only once the opponent of that gameweek has a row of its
    own, which it gets in gameweek 3.  The opponent's points total that
    the row carries changes with gameweek 3 as well. *)
Lemma later_gameweek_changes_rolling_count :
  filter (fun r => phf_Game_Week r <=? 2) Season2.joined_three
  = Season2.joined_to_gw2
  /\ (exists t,
         Helpers.pipeline 2 Season.over_opponent_total Season2.joined_three
                          Season2.team_score_stats_three = Ok t
         /\ map Helpers.st_GWs_Played_To_GW (Helpers.rows_for 1 2 t) = [VInt 1]
         /\ map (fun o => pfts_Opp_Team_Total_Points (Helpers.st_row o))
                (Helpers.rows_for 1 2 t)
            = [VFloat (Float64.of_int 9)])
  /\ (exists t,
         Helpers.pipeline 2 Season.over_opponent_total Season2.joined_to_gw2
                          Season2.team_score_stats_three = Ok t
         /\ map Helpers.st_GWs_Played_To_GW (Helpers.rows_for 1 2 t) = [VInt 0]
         /\ map (fun o => pfts_Opp_Team_Total_Points (Helpers.st_row o))
                (Helpers.rows_for 1 2 t)
            = [VFloat Float64.nan]).
Proof.
  split; [vm_compute; reflexivity|]. split.
  - eexists. split; [vm_compute; reflexivity|].
    split; vm_compute; reflexivity.
  - eexists. split; [vm_compute; reflexivity|].
    split; vm_compute; reflexivity.
Qed.

(** C5.  In [player_fixture_stats], with [calc_player_fixture_stats] as the
    specification describes it.  The table has one row for each row of
    the table handed in with minutes played, and no other.  The four
    rolling statistics of a row are computed
    from the rows of the same player in earlier gameweeks of that table:
    they are the same in any table that has the same such rows.  'GWs
    Played To GW' does not decrease along a player's rows ordered by
    gameweek; on a player's first gameweek it is zero and the three
    averages are missing. *)
Theorem rolling_stats_use_past_gameweeks (window : Z)
        (adjusted : Features.pfts_row -> value) (df : list Features.pfts_row) :
  let table := Helpers.player_fixture_stats window adjusted df in
  (forall o, In o table <->
             In (Helpers.st_row o) df
             /\ 0 < Helpers.minutes (Helpers.st_row o)
             /\ o = Helpers.stats_of window adjusted (played df) (Helpers.st_row o))
  /\ (forall df' o o',
         In o table ->
         In o' (Helpers.player_fixture_stats window adjusted df') ->
         Helpers.player_id (Helpers.st_row o') = Helpers.player_id (Helpers.st_row o) ->
         Helpers.game_week (Helpers.st_row o') = Helpers.game_week (Helpers.st_row o) ->
         filter (Helpers.earlier (Helpers.st_row o)) df'
         = filter (Helpers.earlier (Helpers.st_row o)) df ->
         Helpers.st_GWs_Played_To_GW o' = Helpers.st_GWs_Played_To_GW o
         /\ Helpers.st_Avg_Points_To_GW o' = Helpers.st_Avg_Points_To_GW o
         /\ Helpers.st_Avg_Points_Opp_Points_Adj_To_GW o'
            = Helpers.st_Avg_Points_Opp_Points_Adj_To_GW o
         /\ Helpers.st_Avg_Minutes_Played_Recently_To_GW o'
            = Helpers.st_Avg_Minutes_Played_Recently_To_GW o)
  /\ (forall o1 o2,
         In o1 table -> In o2 table ->
         Helpers.player_id (Helpers.st_row o1) = Helpers.player_id (Helpers.st_row o2) ->
         Helpers.game_week (Helpers.st_row o1) <= Helpers.game_week (Helpers.st_row o2) ->
         exists n1 n2,
           Helpers.st_GWs_Played_To_GW o1 = VInt n1
           /\ Helpers.st_GWs_Played_To_GW o2 = VInt n2
           /\ n1 <= n2)
  /\ (forall o,
         In o table ->
         (forall o', In o' table ->
                     Helpers.player_id (Helpers.st_row o') = Helpers.player_id (Helpers.st_row o) ->
                     Helpers.game_week (Helpers.st_row o) <= Helpers.game_week (Helpers.st_row o')) ->
         Helpers.st_GWs_Played_To_GW o = VInt 0
         /\ Helpers.st_Avg_Points_To_GW o = VFloat Float64.nan
         /\ Helpers.st_Avg_Points_Opp_Points_Adj_To_GW o = VFloat Float64.nan
         /\ Helpers.st_Avg_Minutes_Played_Recently_To_GW o = VFloat Float64.nan).
Proof.
  intros table. split; [|split; [|split]].
  - intros o. unfold table.
    rewrite StatsFacts.in_player_fixture_stats. unfold played at 1.
    rewrite filter_In, Z.ltb_lt. unfold Helpers.minutes. tauto.
  - intros df' o o' Ho Ho' Hp Hg Hrows.
    apply StatsFacts.in_player_fixture_stats in Ho, Ho'.
    destruct Ho as [_ Eo], Ho' as [_ Eo'].
    remember (Helpers.st_row o) as r eqn:Er.
    remember (Helpers.st_row o') as r' eqn:Er'.
    rewrite Eo, Eo'.
    apply StatsFacts.rolling_of_prior; [|exact Hg].
    rewrite (StatsFacts.prior_same_key _ _ _ Hp Hg).
    rewrite !StatsFacts.prior_played, Hrows. reflexivity.
  - intros o1 o2 H1 H2 Hp Hg.
    apply StatsFacts.in_player_fixture_stats in H1, H2.
    destruct H1 as [_ E1], H2 as [_ E2].
    exists (Helpers.gameweeks (Helpers.prior (played df) (Helpers.st_row o1))),
           (Helpers.gameweeks (Helpers.prior (played df) (Helpers.st_row o2))).
    split; [rewrite E1 at 1; reflexivity|].
    split; [rewrite E2 at 1; reflexivity|].
    apply StatsFacts.prior_monotone; assumption.
  - intros o Ho Hfirst.
    assert (Hnone : Helpers.prior (played df) (Helpers.st_row o) = []).
    { apply StatsFacts.filter_none. intros r Hr.
      apply andb_false_iff.
      destruct (Z.eqb_spec (Helpers.player_id r) (Helpers.player_id (Helpers.st_row o)))
        as [Ep|Np]; [right|left; reflexivity].
      apply Z.ltb_ge.
      apply (Hfirst (Helpers.stats_of window adjusted (played df) r)); [|exact Ep].
      apply StatsFacts.in_player_fixture_stats. simpl. auto. }
    apply StatsFacts.in_player_fixture_stats in Ho. destruct Ho as [_ Eo].
    rewrite Eo. unfold Helpers.stats_of, Helpers.recent. simpl.
    rewrite Hnone. simpl. auto.
Qed.

(** The specification's scenario: points 2, 5, 3 in gameweeks 1, 2, 3 give
    the counts 0, 1, 2 and the averages missing, 2 and 3.5; the row of
    gameweek 2 has the same statistics when gameweek 3 is not in the
    table. *)
Lemma rolling_stats_use_past_gameweeks_witness :
  map Helpers.st_GWs_Played_To_GW
      (Helpers.player_fixture_stats 2 Season.over_opponent_total Season.scenario)
  = [VInt 0; VInt 1; VInt 2]
  /\ map Helpers.st_Avg_Points_To_GW
         (Helpers.player_fixture_stats 2 Season.over_opponent_total Season.scenario)
     = [VFloat Float64.nan;
        VFloat (Float64.of_int 2);
        VFloat (Float64.div (Float64.of_int 7) (Float64.of_int 2))]
  /\ Helpers.st_Avg_Points_Opp_Points_Adj_To_GW
       (Helpers.stats_of 2 Season.over_opponent_total
          (played Season.scenario_to_gw2) (Season.scenario_row 2 2 5 90))
     = Helpers.st_Avg_Points_Opp_Points_Adj_To_GW
         (Helpers.stats_of 2 Season.over_opponent_total
            (played Season.scenario) (Season.scenario_row 2 2 5 90)).
Proof.
  split; [vm_compute; reflexivity|].
  split; [vm_compute; reflexivity|].
  refine (proj1 (proj2 (proj2
            (proj1 (proj2 (rolling_stats_use_past_gameweeks
                             2 Season.over_opponent_total Season.scenario))
               Season.scenario_to_gw2
               (Helpers.stats_of 2 Season.over_opponent_total
                  (played Season.scenario) (Season.scenario_row 2 2 5 90))
               (Helpers.stats_of 2 Season.over_opponent_total
                  (played Season.scenario_to_gw2) (Season.scenario_row 2 2 5 90))
               _ _ _ _ _)))).
  - vm_compute. right. left. reflexivity.
  - vm_compute. right. left. reflexivity.
  - reflexivity.
  - reflexivity.
  - vm_compute. reflexivity.
Defined.

(* ================================================================== *)
(** * The player id inside a name *)

Module LoaderFacts.

Import Loader.

Lemma take_drop_while {A : Type} (p : A -> bool) (l : list A) :
  take_while p l ++ drop_while p l = l.
Proof.
  induction l as [|a l IH]; simpl; [reflexivity|].
  destruct (p a); simpl; [rewrite IH|]; reflexivity.
Qed.

Lemma take_while_all {A : Type} (p : A -> bool) (l : list A) :
  forallb p (take_while p l) = true.
Proof.
  induction l as [|a l IH]; simpl; [reflexivity|].
  destruct (p a) eqn:E; simpl; [rewrite E; exact IH|reflexivity].
Qed.

Lemma take_while_nil {A : Type} (p : A -> bool) (l : list A) :
  take_while p l = [] -> drop_while p l = l.
Proof.
  destruct l as [|a l]; simpl; [reflexivity|].
  destruct (p a); [discriminate|reflexivity].
Qed.

(** A run of [p] followed by a character outside [p]: the run is what
    [take_while] takes. *)
Lemma take_while_stop {A : Type} (p : A -> bool) (run : list A) (b : A)
      (l : list A) :
  forallb p run = true -> p b = false -> take_while p (run ++ b :: l) = run.
Proof.
  induction run as [|a run IH]; simpl; intros Hrun Hb.
  - rewrite Hb. reflexivity.
  - apply andb_true_iff in Hrun. destruct Hrun as [Ha Hrun].
    rewrite Ha, IH by assumption. reflexivity.
Qed.

Lemma take_while_whole {A : Type} (p : A -> bool) (run : list A) :
  forallb p run = true -> take_while p run = run /\ drop_while p run = [].
Proof.
  induction run as [|a run IH]; simpl; intros Hrun; [auto|].
  apply andb_true_iff in Hrun. destruct Hrun as [Ha Hrun].
  rewrite Ha. destruct (IH Hrun) as [E1 E2]. rewrite E1, E2. auto.
Qed.

Lemma match_plus_some {R : Type} (class : char -> bool) (s : name)
      (k : name -> option R) (r : R) :
  match_plus class s k = Some r ->
  exists run rest,
    s = run ++ rest /\ run <> [] /\ forallb class run = true /\ k rest = Some r.
Proof.
  induction s as [|c s IH]; simpl; [discriminate|].
  destruct (class c) eqn:Ec; [|discriminate].
  destruct (match_plus class s k) as [r'|] eqn:Em.
  - intros E. inversion E; subst r'. destruct (IH eq_refl) as (run & rest & -> & _ & Hrun & Hk).
    exists (c :: run), rest. simpl. rewrite Ec, Hrun. repeat split; auto. discriminate.
  - intros Hk. exists [c], s. simpl. rewrite Ec. repeat split; auto. discriminate.
Qed.

Lemma match_plus_cons {R : Type} (class : char -> bool) (c : char) (s : name)
      (k : name -> option R) :
  match_plus class (c :: s) k
  = if class c then
      match match_plus class s k with
      | Some r => Some r
      | None => k s
      end
    else None.
Proof. reflexivity. Qed.

Section Interpreter.

Variable decimal : char -> option Z.
Variable max_str_digits : option nat.

(** Two facts of every version of the Unicode database: the underscore and
    the newline are not decimal digits; and a digit value is not negative. *)
Hypothesis underscore_not_decimal : decimal underscore = None.
Hypothesis newline_not_decimal : decimal newline = None.
Hypothesis decimal_nonneg : forall c d, decimal c = Some d -> 0 <= d.

Local Abbreviation is_digit := (Loader.is_digit decimal).
Local Abbreviation non_digit := (Loader.non_digit decimal).
Local Abbreviation match_here := (Loader.match_here decimal).
Local Abbreviation search := (Loader.search decimal).
Local Abbreviation int_of_digits := (Loader.int_of_digits decimal).
Local Abbreviation extract_player_id := (Loader.extract_player_id decimal max_str_digits).
Local Abbreviation assign_player_ids := (Loader.assign_player_ids decimal max_str_digits).

Lemma underscore_not_digit : is_digit underscore = false.
Proof. unfold Loader.is_digit. rewrite underscore_not_decimal. reflexivity. Qed.

Lemma newline_not_digit : is_digit newline = false.
Proof. unfold Loader.is_digit. rewrite newline_not_decimal. reflexivity. Qed.

Lemma digit_not_newline (c : char) : is_digit c = true -> (c =? newline) = false.
Proof.
  intros H. destruct (Z.eqb_spec c newline) as [->|]; [|reflexivity].
  rewrite newline_not_digit in H. discriminate.
Qed.

Lemma digit_not_underscore (c : char) :
  is_digit c = true -> (c =? underscore) = false.
Proof.
  intros H. destruct (Z.eqb_spec c underscore) as [->|]; [|reflexivity].
  rewrite underscore_not_digit in H. discriminate.
Qed.

(** [(\d+)$]: the group is the whole run of digits, which must reach the
    end; giving digits back never helps. *)
Lemma capture_digits_to_end {R : Type} (s : name) : forall f : name -> R,
  capture_plus is_digit s (fun group rest => if at_end rest then Some (f group) else None)
  = match take_while is_digit s with
    | [] => None
    | group => if at_end (drop_while is_digit s) then Some (f group) else None
    end.
Proof.
  induction s as [|c s IH]; intros f; simpl; [reflexivity|].
  destruct (is_digit c) eqn:Ec; [|reflexivity].
  rewrite (IH (fun group => f (c :: group))).
  destruct (take_while is_digit s) as [|d g] eqn:Et.
  - rewrite (take_while_nil _ _ Et). reflexivity.
  - destruct (at_end (drop_while is_digit s)); [reflexivity|].
    assert (Hs : at_end s = false).
    { destruct s as [|d' s']; [discriminate Et|]. simpl in Et.
      destruct (is_digit d') eqn:Ed; [|discriminate Et].
      simpl. destruct s'; [apply digit_not_newline; assumption|reflexivity]. }
    rewrite Hs. reflexivity.
Qed.

(** A match at the start of [s] has the shape the pattern describes. *)
Lemma match_here_some (s group : name) :
  match_here s = Some group ->
  exists run tail,
    s = run ++ underscore :: group ++ tail
    /\ run <> [] /\ forallb non_digit run = true
    /\ group <> [] /\ forallb is_digit group = true
    /\ at_end tail = true.
Proof.
  unfold Loader.match_here. intros H.
  apply match_plus_some in H. destruct H as (run & rest & -> & Hne & Hrun & Hk).
  destruct rest as [|c s2]; [discriminate|].
  destruct (Z.eqb_spec c underscore) as [->|]; [|discriminate].
  rewrite (capture_digits_to_end s2 (fun g => g)) in Hk.
  destruct (take_while is_digit s2) as [|d g] eqn:Et; [discriminate|].
  destruct (at_end (drop_while is_digit s2)) eqn:Ee; [|discriminate].
  inversion Hk; subst group.
  exists run, (drop_while is_digit s2).
  rewrite <- Et, take_drop_while.
  repeat split; auto.
  - rewrite Et. discriminate.
  - apply take_while_all.
Qed.

Lemma search_some (s group : name) :
  search s = Some group ->
  exists before run tail,
    s = before ++ run ++ underscore :: group ++ tail
    /\ run <> [] /\ forallb non_digit run = true
    /\ group <> [] /\ forallb is_digit group = true
    /\ at_end tail = true.
Proof.
  induction s as [|c s IH]; simpl.
  - discriminate.
  - destruct (match_here (c :: s)) as [g|] eqn:E.
    + intros H. inversion H; subst.
      apply match_here_some in E. destruct E as (run & tail & E & H1).
      exists [], run, tail. auto.
    + intros H. destruct (IH H) as (before & run & tail & -> & H1).
      exists (c :: before), run, tail. auto.
Qed.

(** The digits between the last underscore and the end are determined by
    the string. *)
Lemma trailing_digits_unique (x y group ds tail : name) :
  x ++ underscore :: group ++ tail = y ++ underscore :: ds ->
  forallb is_digit group = true -> forallb is_digit ds = true ->
  ds <> [] -> at_end tail = true ->
  group = ds.
Proof.
  intros E Hg Hd Hne Ht.
  pose proof underscore_not_digit as Hu.
  assert (Hrev : forall l, forallb is_digit l = true -> forallb is_digit (rev l) = true).
  { intros l Hl. rewrite forallb_forall in *. intros c Hc.
    apply Hl. apply in_rev. assumption. }
  apply (f_equal (@rev char)) in E.
  rewrite !rev_app_distr in E. simpl in E. rewrite !rev_app_distr in E.
  rewrite <- !app_assoc in E. simpl in E.
  destruct tail as [|c tail].
  - simpl in E.
    apply (f_equal (take_while is_digit)) in E.
    rewrite !take_while_stop in E by auto.
    rewrite <- (rev_involutive group), <- (rev_involutive ds), E. reflexivity.
  - destruct tail; [|discriminate Ht]. simpl in Ht, E.
    apply Z.eqb_eq in Ht. subst c.
    destruct (rev ds) as [|d rd] eqn:Er.
    + apply (f_equal (@rev char)) in Er. rewrite rev_involutive in Er.
      simpl in Er. contradiction.
    + simpl in E. inversion E as [[Ed Erest]].
      assert (Hd' : forallb is_digit (d :: rd) = true) by (rewrite <- Er; auto).
      simpl in Hd'. rewrite <- Ed, newline_not_digit in Hd'. discriminate.
Qed.

(** The pattern finds the digits that follow a non-digit and an underscore
    at the end of the name, whatever comes before. *)
Lemma search_trailing (before : name) (c : char) (ds : name) :
  non_digit c = true -> ds <> [] -> forallb is_digit ds = true ->
  search (before ++ c :: underscore :: ds) = Some ds.
Proof.
  intros Hc Hne Hd.
  assert (Hbase : match_here (c :: underscore :: ds) = Some ds).
  { assert (Hu : non_digit underscore = true)
      by (unfold Loader.non_digit; rewrite underscore_not_digit; reflexivity).
    assert (Eu : (underscore =? underscore) = true) by apply Z.eqb_refl.
    destruct ds as [|d ds'] eqn:Eds; [contradiction|].
    assert (Hd1 : is_digit d = true)
      by (simpl in Hd; apply andb_true_iff in Hd; apply Hd).
    assert (Hnd : non_digit d = false)
      by (unfold Loader.non_digit; rewrite Hd1; reflexivity).
    unfold Loader.match_here.
    rewrite match_plus_cons, Hc, match_plus_cons, Hu, match_plus_cons, Hnd.
    cbv beta iota. rewrite (digit_not_underscore d Hd1), Eu.
    rewrite (capture_digits_to_end (d :: ds') (fun g => g)).
    destruct (take_while_whole is_digit (d :: ds') Hd) as [E1 E2].
    rewrite E1, E2. reflexivity. }
  induction before as [|a before IH].
  - simpl app. destruct ds as [|d ds']; [contradiction|].
    simpl Loader.search. rewrite Hbase. reflexivity.
  - simpl app. simpl Loader.search.
    destruct (match_here (a :: before ++ c :: underscore :: ds)) as [g|] eqn:E.
    + apply match_here_some in E.
      destruct E as (run & tail & E & _ & _ & _ & Hg & Ht).
      f_equal.
      apply (trailing_digits_unique run (a :: before ++ [c]) g ds tail); auto.
      rewrite <- E. simpl. rewrite <- app_assoc. reflexivity.
    + exact IH.
Qed.

Lemma int_of_digits_nonneg (ds : name) : 0 <= int_of_digits ds.
Proof.
  unfold Loader.int_of_digits.
  assert (Hv : forall c, 0 <= digit_value decimal c).
  { intros c. unfold digit_value.
    destruct (decimal c) as [d|] eqn:E; [exact (decimal_nonneg c d E)|lia]. }
  assert (H : forall acc, 0 <= acc ->
            0 <= fold_left (fun acc c => 10 * acc + digit_value decimal c) ds acc).
  { induction ds as [|c ds IH]; intros acc Hacc; cbn [fold_left]; [assumption|].
    apply IH. pose proof (Hv c). lia. }
  apply H. lia.
Qed.

Lemma assign_player_ids_loaded (names : list name) : forall ids,
  assign_player_ids names = Loaded ids <->
  Forall2 (fun n i => extract_player_id n = Loaded i) names ids.
Proof.
  induction names as [|n names IH]; intros ids; simpl.
  - split.
    + intros H. inversion H. constructor.
    + intros H. inversion H. reflexivity.
  - destruct (extract_player_id n) as [i|e] eqn:En.
    + destruct (assign_player_ids names) as [ids'|e'] eqn:Ea.
      * split.
        -- intros H. inversion H; subst. constructor; [assumption|].
           apply IH. reflexivity.
        -- intros H. inversion H as [|? j ? ids'' Hj Hrest]; subst.
           rewrite En in Hj. inversion Hj; subst.
           apply IH in Hrest. inversion Hrest; subst. reflexivity.
      * split; [discriminate|].
        intros H. inversion H as [|? j ? ids'' Hj Hrest]; subst.
        apply IH in Hrest. discriminate.
    + split; [discriminate|].
      intros H. inversion H as [|? j ? ids'' Hj Hrest]; subst.
      rewrite En in Hj. discriminate.
Qed.

End Interpreter.

(** The table of Unicode 14.0 has the two facts, and digit values from 0
    to 9. *)
Lemma unicode_decimal_range (c : char) (d : Z) :
  unicode_decimal c = Some d -> 0 <= d <= 9.
Proof.
  unfold unicode_decimal.
  destruct (find (fun zero => (zero <=? c) && (c <=? zero + 9)) decimal_zeros)
    as [zero|] eqn:E; [|discriminate].
  intros H. inversion H; subst d. apply find_some in E. destruct E as [_ E].
  apply andb_true_iff in E. destruct E as [E1 E2].
  apply Z.leb_le in E1, E2. lia.
Qed.

Lemma unicode_decimal_nonneg (c : char) (d : Z) :
  unicode_decimal c = Some d -> 0 <= d.
Proof. intros H. apply unicode_decimal_range in H. lia. Qed.

End LoaderFacts.

(** X1.  For the decimal digits of any version of the Unicode database and
    any limit on the digits of an integer string: a name that ends with a
    character that is not a digit, an underscore and a run of digits loads
    as the number those digits spell, whatever stands before (digits and
    underscores included), provided the run is within the limit and the
    number fits [int64]. *)
Theorem player_id_is_trailing_number (decimal : Loader.char -> option Z)
        (max_str_digits : option nat)
        (before : Loader.name) (c : Loader.char) (ds : Loader.name) :
  decimal Loader.underscore = None -> decimal Loader.newline = None ->
  Loader.non_digit decimal c = true ->
  ds <> [] -> forallb (Loader.is_digit decimal) ds = true ->
  Loader.too_long max_str_digits ds = false ->
  Loader.int_of_digits decimal ds < Int64.half_modulus ->
  Loader.extract_player_id decimal max_str_digits
    (before ++ c :: Loader.underscore :: ds)
  = Loader.Loaded (Loader.int_of_digits decimal ds).
Proof.
  intros Hu Hn Hc Hne Hd Hlen Hr. unfold Loader.extract_player_id.
  rewrite (LoaderFacts.search_trailing decimal Hu Hn) by assumption.
  apply Z.ltb_lt in Hr. rewrite Hlen, Hr. reflexivity.
Qed.

(** A name with a digit and an underscore inside: only the last number
    counts.  A name that ends with the Arabic-Indic digit three (code
    point 1635) loads as 3. *)
Lemma player_id_is_trailing_number_witness :
  Loader.extract_player_id Loader.unicode_decimal (Some 4300%nat)
    (Season2.name_of "Player_2_Name_17") = Loader.Loaded 17
  /\ Loader.extract_player_id Loader.unicode_decimal (Some 4300%nat)
       [97; 95; 1635] = Loader.Loaded 3.
Proof.
  split.
  - apply (player_id_is_trailing_number Loader.unicode_decimal (Some 4300%nat)
             (Season2.name_of "Player_2_Nam") 101 (Season2.name_of "17"));
      [reflexivity | reflexivity | reflexivity | discriminate
      | reflexivity | reflexivity | reflexivity].
  - apply (player_id_is_trailing_number Loader.unicode_decimal (Some 4300%nat)
             [] 97 [1635]);
      [reflexivity | reflexivity | reflexivity | discriminate
      | reflexivity | reflexivity | reflexivity].
Defined.

(** X2.  A name loads only if it has that shape: a character that is not a
    digit, an underscore and a nonempty run of digits, at the end of the
    name or just before a newline that ends it; the run is within the
    interpreter's limit, and the id is the number the digits spell and lies
    in [0, 2^63).  Any other name fails the conversion. *)
Theorem loaded_player_id_shape (decimal : Loader.char -> option Z)
        (max_str_digits : option nat) (n : Loader.name) (i : Z) :
  decimal Loader.newline = None ->
  (forall c d, decimal c = Some d -> 0 <= d) ->
  Loader.extract_player_id decimal max_str_digits n = Loader.Loaded i ->
  exists before c ds tail,
    n = before ++ c :: Loader.underscore :: ds ++ tail
    /\ Loader.non_digit decimal c = true
    /\ ds <> [] /\ forallb (Loader.is_digit decimal) ds = true
    /\ (tail = [] \/ tail = [Loader.newline])
    /\ Loader.too_long max_str_digits ds = false
    /\ i = Loader.int_of_digits decimal ds
    /\ 0 <= i < Int64.half_modulus.
Proof.
  intros Hn Hnonneg. unfold Loader.extract_player_id.
  destruct (Loader.search decimal n) as [group|] eqn:E; [|discriminate].
  destruct (Loader.too_long max_str_digits group) eqn:Hlen; [discriminate|].
  destruct (Z.ltb_spec (Loader.int_of_digits decimal group) Int64.half_modulus)
    as [Hlt|]; [|discriminate].
  intros H. inversion H; subst i; clear H.
  apply (LoaderFacts.search_some decimal Hn) in E.
  destruct E as (before & run & tail & -> & Hne & Hrun & Hg & Hd & Ht).
  destruct (exists_last Hne) as (run' & c & ->).
  exists (before ++ run'), c, group, tail.
  repeat split; auto.
  - rewrite <- !app_assoc. reflexivity.
  - rewrite forallb_app in Hrun. apply andb_true_iff in Hrun.
    destruct Hrun as [_ Hc]. simpl in Hc. rewrite andb_true_r in Hc. exact Hc.
  - destruct tail as [|t tail]; [left; reflexivity|].
    destruct tail; [|discriminate Ht]. right.
    simpl in Ht. apply Z.eqb_eq in Ht. subst. reflexivity.
  - apply (LoaderFacts.int_of_digits_nonneg decimal Hnonneg).
Qed.

Lemma loaded_player_id_shape_witness :
  Loader.extract_player_id Loader.unicode_decimal (Some 4300%nat)
    (Season2.name_of "Aaron_Cresswell_402")
  = Loader.Loaded 402
  /\ exists before c ds tail,
      Season2.name_of "Aaron_Cresswell_402"
      = before ++ c :: Loader.underscore :: ds ++ tail
      /\ Loader.non_digit Loader.unicode_decimal c = true
      /\ ds <> [] /\ forallb (Loader.is_digit Loader.unicode_decimal) ds = true
      /\ (tail = [] \/ tail = [Loader.newline])
      /\ Loader.too_long (Some 4300%nat) ds = false
      /\ 402 = Loader.int_of_digits Loader.unicode_decimal ds
      /\ 0 <= 402 < Int64.half_modulus.
Proof.
  split; [reflexivity|].
  apply (loaded_player_id_shape Loader.unicode_decimal (Some 4300%nat)
           (Season2.name_of "Aaron_Cresswell_402") 402);
    [reflexivity | exact LoaderFacts.unicode_decimal_nonneg | reflexivity].
Defined.

(** X3.  One name without a match anywhere in the column fails the whole
    load: no 'Player ID' column is produced. *)
Theorem unmatched_name_fails_load (decimal : Loader.char -> option Z)
        (max_str_digits : option nat)
        (names : list Loader.name) (n : Loader.name) :
  In n names -> Loader.search decimal n = None ->
  exists e, Loader.assign_player_ids decimal max_str_digits names = Loader.Failed e.
Proof.
  intros Hin Hn.
  destruct (Loader.assign_player_ids decimal max_str_digits names)
    as [ids|e] eqn:E; [|eauto].
  exfalso. apply LoaderFacts.assign_player_ids_loaded in E.
  induction E as [|n' i names' ids' Hn' _ IH]; [contradiction|].
  destruct Hin as [->|Hin]; [|exact (IH Hin)].
  unfold Loader.extract_player_id in Hn'. rewrite Hn in Hn'. discriminate.
Qed.

(** A name without a number, and a name whose number follows a digit
    instead of a character that is not one. *)
Lemma unmatched_name_fails_load_witness :
  (exists e,
      Loader.assign_player_ids Loader.unicode_decimal (Some 4300%nat)
        [Season2.name_of "Aaron_Cresswell_402"; Season2.name_of "Aaron_Cresswell"]
      = Loader.Failed e)
  /\ (exists e,
         Loader.assign_player_ids Loader.unicode_decimal (Some 4300%nat)
           [[1635; 95; 49; 50]]
         = Loader.Failed e).
Proof.
  split.
  - apply (unmatched_name_fails_load Loader.unicode_decimal (Some 4300%nat)
             [Season2.name_of "Aaron_Cresswell_402";
              Season2.name_of "Aaron_Cresswell"]
             (Season2.name_of "Aaron_Cresswell"));
      [right; left; reflexivity | reflexivity].
  - apply (unmatched_name_fails_load Loader.unicode_decimal (Some 4300%nat)
             [[1635; 95; 49; 50]] [1635; 95; 49; 50]);
      [left; reflexivity | reflexivity].
Defined.

(* ================================================================== *)
(** * The index of the pivot tables *)

Module IndexFacts.

Lemma key_compare_lt_fst (a b : key) : key_compare a b = Lt -> fst a <= fst b.
Proof.
  destruct a as [i c], b as [j d]. unfold key_compare. simpl.
  destruct (i ?= j) eqn:E; intros H.
  - apply Z.compare_eq in E. lia.
  - rewrite Z.compare_lt_iff in E. lia.
  - discriminate.
Qed.

Lemma increasing_ids_sorted (s : series) :
  increasing key_compare s ->
  StronglySorted Z.le (map (fun kv => fst (fst kv)) s).
Proof.
  induction s as [|[k v] s IH]; simpl; intros H; [constructor|].
  destruct H as [Hk Hs]. constructor; [apply IH; assumption|].
  rewrite Forall_forall. intros i Hi.
  apply in_map_iff in Hi. destruct Hi as ([k' v'] & <- & Hin).
  simpl. apply key_compare_lt_fst, Hk.
  apply in_map_iff. exists (k', v'). auto.
Qed.

(** Removing the repeats of a list in non-decreasing order leaves it in
    strictly increasing order. *)
Lemma nodup_sorted (l : list Z) :
  StronglySorted Z.le l -> StronglySorted Z.lt (nodup Z.eq_dec l).
Proof.
  induction 1 as [|x l Hl IH Hx]; simpl; [constructor|].
  destruct (in_dec Z.eq_dec x l) as [Hin|Hnot]; [exact IH|].
  constructor; [exact IH|].
  rewrite Forall_forall in *. intros y Hy. apply nodup_In in Hy.
  specialize (Hx y Hy).
  assert (x <> y) by (intros ->; contradiction). lia.
Qed.

Lemma pivot_index_sorted (id : phf_row -> Z) (phf : list phf_row) :
  StronglySorted Z.lt (index (home_away_pivot id phf)).
Proof.
  unfold home_away_pivot, unstack. simpl index.
  apply nodup_sorted, increasing_ids_sorted.
  apply (PandasFacts.groupby_sum_increasing key_compare
           PivotFacts.key_compare_antisym PivotFacts.key_compare_trans).
Qed.

Lemma pivot_index_nodup (id : phf_row -> Z) (phf : list phf_row) :
  NoDup (index (home_away_pivot id phf)).
Proof. unfold home_away_pivot, unstack. simpl index. apply NoDup_nodup. Qed.

Lemma point_stats_ids (away_name home_name : string) (id : phf_row -> Z)
      (phf : list phf_row) (t : list team_point_row) :
  point_stats away_name home_name id phf = Ok t ->
  map tp_Team_ID t = index (home_away_pivot id phf).
Proof.
  unfold point_stats.
  destruct (negb (has_column (home_away_pivot id phf) false)); [discriminate|].
  destruct (negb (has_column (home_away_pivot id phf) true)); [discriminate|].
  intros E. inversion E. rewrite map_map. simpl. apply map_id.
Qed.

Lemma team_stats_ids (phf : list phf_row) (t : list team_stats_row) :
  team_stats phf = Ok t ->
  map ts_Field_Position_ID t = index (home_away_pivot phf_Field_Position_ID phf).
Proof.
  unfold team_stats.
  destruct (negb (has_column (home_away_pivot phf_Field_Position_ID phf) false));
    [discriminate|].
  destruct (negb (has_column (home_away_pivot phf_Field_Position_ID phf) true));
    [discriminate|].
  intros E. inversion E. rewrite map_map. simpl. apply map_id.
Qed.

End IndexFacts.

(* ================================================================== *)
(** * Edge behaviour of the point statistics *)

Module EdgeFacts.

Lemma point_stats_outcome (away_name home_name : string) (id : phf_row -> Z)
      (phf : list phf_row) :
  let away := exists r, In r phf /\ phf_Is_Home r = false in
  let home := exists r, In r phf /\ phf_Is_Home r = true in
  (point_stats away_name home_name id phf = Raise (KeyError away_name) /\ ~ away)
  \/ (point_stats away_name home_name id phf = Raise (KeyError home_name)
      /\ away /\ ~ home)
  \/ ((exists t, point_stats away_name home_name id phf = Ok t) /\ away /\ home).
Proof.
  intros away home. unfold away, home.
  rewrite <- !(PivotFacts.has_column_iff id). unfold point_stats.
  destruct (has_column (home_away_pivot id phf) false);
    destruct (has_column (home_away_pivot id phf) true); simpl.
  - right. right. eauto.
  - right. left. split; [reflexivity|]. split; [reflexivity|discriminate].
  - left. split; [reflexivity|discriminate].
  - left. split; [reflexivity|discriminate].
Qed.

Lemma team_stats_outcome (phf : list phf_row) :
  let away := exists r, In r phf /\ phf_Is_Home r = false in
  let home := exists r, In r phf /\ phf_Is_Home r = true in
  (team_stats phf = Raise (KeyError "Total Points Away") /\ ~ away)
  \/ (team_stats phf = Raise (KeyError "Total Points Home") /\ away /\ ~ home)
  \/ ((exists t, team_stats phf = Ok t) /\ away /\ home).
Proof.
  intros away home. unfold away, home.
  rewrite <- !(PivotFacts.has_column_iff phf_Field_Position_ID). unfold team_stats.
  destruct (has_column (home_away_pivot phf_Field_Position_ID phf) false);
    destruct (has_column (home_away_pivot phf_Field_Position_ID phf) true); simpl.
  - right. right. eauto.
  - right. left. split; [reflexivity|]. split; [reflexivity|discriminate].
  - left. split; [reflexivity|discriminate].
  - left. split; [reflexivity|discriminate].
Qed.

(** A joined row makes the total of its own id and flag exist. *)
Lemma points_total_of_row (id : phf_row -> Z) (phf : list phf_row) (r : phf_row) :
  In r phf -> points_total id (id r) (phf_Is_Home r) phf <> None.
Proof.
  intros Hr. unfold points_total.
  assert (Hin : In r (rows_of id (id r) (phf_Is_Home r) phf)).
  { unfold rows_of. apply filter_In. split; [assumption|].
    rewrite Z.eqb_refl, eqb_reflx. reflexivity. }
  destruct (rows_of id (id r) (phf_Is_Home r) phf); [contradiction|discriminate].
Qed.

(** One missing (row, column) pair upcasts every cell of the pivot. *)
Lemma pivot_upcast (id : phf_row -> Z) (phf : list phf_row) (i : Z) (c : bool) :
  In i (index (home_away_pivot id phf)) ->
  has_column (home_away_pivot id phf) c = true ->
  points_total id i c phf = None ->
  forall j d z,
    points_total id j d phf = Some z ->
    at_ (home_away_pivot id phf) j d = VFloat (Float64.of_int z).
Proof.
  unfold home_away_pivot, unstack, has_column. simpl index. simpl columns. simpl at_.
  fold (cells_of id phf).
  set (s := groupby_sum key_compare (cells_of id phf)).
  intros Hi Hc Hnone j d z Hz.
  assert (Hs : forall a b, lookup key_compare (a, b) s = points_total id a b phf)
    by (intros a b; apply PivotFacts.lookup_pivot_series).
  rewrite Hs, Hz.
  match goal with
  | |- (if ?b then _ else _) = _ => assert (Hup : b = true)
  end.
  { apply existsb_exists. exists i. split; [assumption|].
    apply existsb_exists. exists c. split.
    - apply existsb_exists in Hc. destruct Hc as (c' & Hin & E).
      apply eqb_prop in E. subst c'. exact Hin.
    - rewrite Hs, Hnone. reflexivity. }
  rewrite Hup. reflexivity.
Qed.

Lemma add_nan_r (x : spec_float) : Float64.add x S754_nan = S754_nan.
Proof. destruct x; reflexivity. Qed.

(** [1 - (1 - x) / 2] at an infinity is that infinity. *)
Lemma dampen_of_inf (s : bool) :
  Float64.sub (Float64.of_int 1)
    (Float64.div (Float64.sub (Float64.of_int 1) (S754_infinity s))
                 (Float64.of_int 2))
  = S754_infinity s.
Proof. destruct s; reflexivity. Qed.

End EdgeFacts.

(** X4.  [team_point_stats], [team_point_opp_stats] and [team_stats] are
    produced exactly when the joined table has at least one away row and at
    least one home row.  Otherwise reading the pivot raises [KeyError]: for
    [team_point_stats], on 'Team Total Points Away' when there is no away
    row (an empty table included), and on 'Team Total Points Home' when
    there are away rows but no home row. *)
Theorem point_tables_need_both_sides (phf : list phf_row) :
  let away := exists r, In r phf /\ phf_Is_Home r = false in
  let home := exists r, In r phf /\ phf_Is_Home r = true in
  ((exists t, team_point_stats phf = Ok t) <-> away /\ home)
  /\ ((exists t, team_point_opp_stats phf = Ok t) <-> away /\ home)
  /\ ((exists t, team_stats phf = Ok t) <-> away /\ home)
  /\ (team_point_stats phf = Raise (KeyError "Team Total Points Away") <-> ~ away)
  /\ (team_point_stats phf = Raise (KeyError "Team Total Points Home")
      <-> away /\ ~ home).
Proof.
  intros away home.
  pose proof (EdgeFacts.point_stats_outcome
                "Team Total Points Away" "Team Total Points Home"
                phf_Player_Team_ID phf) as H1.
  pose proof (EdgeFacts.point_stats_outcome
                "Team Total Points Opps Away" "Team Total Points Opps Home"
                phf_Opp_Team_ID phf) as H2.
  pose proof (EdgeFacts.team_stats_outcome phf) as H3.
  fold (team_point_stats phf) in H1. fold (team_point_opp_stats phf) in H2.
  simpl in H1, H2, H3. fold away home in H1, H2, H3.
  assert (Hok : forall (A : Type) (x : result A) (e : error),
             (exists t, x = Ok t) -> x = Raise e -> False).
  { intros A x e [t E] E'. congruence. }
  split; [|split; [|split; [|split]]].
  - split.
    + intros Ht. destruct H1 as [[E1 _]|[[E1 _]|[_ H]]];
        [exfalso; eapply Hok; eassumption
        |exfalso; eapply Hok; eassumption|exact H].
    + intros [Ha Hh]. destruct H1 as [[_ N]|[[_ [_ N]]|[E _]]]; tauto.
  - split.
    + intros Ht. destruct H2 as [[E1 _]|[[E1 _]|[_ H]]];
        [exfalso; eapply Hok; eassumption
        |exfalso; eapply Hok; eassumption|exact H].
    + intros [Ha Hh]. destruct H2 as [[_ N]|[[_ [_ N]]|[E _]]]; tauto.
  - split.
    + intros Ht. destruct H3 as [[E1 _]|[[E1 _]|[_ H]]];
        [exfalso; eapply Hok; eassumption
        |exfalso; eapply Hok; eassumption|exact H].
    + intros [Ha Hh]. destruct H3 as [[_ N]|[[_ [_ N]]|[E _]]]; tauto.
  - split.
    + intros E. destruct H1 as [[_ N]|[[E1 _]|[Ht _]]];
        [exact N|congruence|exfalso; eapply Hok; eassumption].
    + intros N. destruct H1 as [[E _]|[[_ [Ha _]]|[_ [Ha _]]]]; tauto.
  - split.
    + intros E. destruct H1 as [[E1 _]|[[_ H]|[Ht _]]];
        [congruence|exact H|exfalso; eapply Hok; eassumption].
    + intros [Ha N]. destruct H1 as [[_ N']|[[E _]|[_ [_ Hh]]]]; tauto.
Qed.

(** X5.  [team_point_stats] and [team_point_opp_stats] have one row per
    team, and [team_stats] one row per field position, in strictly
    increasing order of the id: the ids are exactly the 'Player Team ID's,
    the 'Opp Team ID's and the 'Field Position ID's that occur in the
    joined table. *)
Theorem pivot_tables_one_row_per_id (phf : list phf_row) :
  (forall t, team_point_stats phf = Ok t ->
             StronglySorted Z.lt (map tp_Team_ID t)
             /\ forall i, In i (map tp_Team_ID t)
                          <-> exists r, In r phf /\ phf_Player_Team_ID r = i)
  /\ (forall t, team_point_opp_stats phf = Ok t ->
                StronglySorted Z.lt (map tp_Team_ID t)
                /\ forall i, In i (map tp_Team_ID t)
                             <-> exists r, In r phf /\ phf_Opp_Team_ID r = i)
  /\ (forall t, team_stats phf = Ok t ->
                StronglySorted Z.lt (map ts_Field_Position_ID t)
                /\ forall i, In i (map ts_Field_Position_ID t)
                             <-> exists r, In r phf /\ phf_Field_Position_ID r = i).
Proof.
  split; [|split]; intros t E.
  - rewrite (IndexFacts.point_stats_ids _ _ _ _ _ E).
    split; [apply IndexFacts.pivot_index_sorted|].
    intros i. apply PivotFacts.in_index_iff.
  - rewrite (IndexFacts.point_stats_ids _ _ _ _ _ E).
    split; [apply IndexFacts.pivot_index_sorted|].
    intros i. apply PivotFacts.in_index_iff.
  - rewrite (IndexFacts.team_stats_ids _ _ E).
    split; [apply IndexFacts.pivot_index_sorted|].
    intros i. apply PivotFacts.in_index_iff.
Qed.

(** The teams of the example season are 1 and 2, in that order. *)
Lemma pivot_tables_one_row_per_id_witness :
  team_point_stats Season.joined = Ok Season.team_point_table
  /\ map tp_Team_ID Season.team_point_table = [1; 2]
  /\ StronglySorted Z.lt (map tp_Team_ID Season.team_point_table).
Proof.
  assert (E : team_point_stats Season.joined = Ok Season.team_point_table)
    by (vm_compute; reflexivity).
  split; [exact E|]. split; [reflexivity|].
  exact (proj1 (proj1 (pivot_tables_one_row_per_id Season.joined)
                      Season.team_point_table E)).
Defined.

(** Team 2 of the example season: 6 points at home and 2 away in [int64]
    cells, and 8 over its three rows. *)
Lemma team_total_is_sum_over_rows_witness :
  tp_Total_Points Season.team_2
  = VInt (Int64.wrap
            (Zsum (map phf_Game_Total_Points
                       (filter (fun x => phf_Player_Team_ID x =? 2) Season.joined))))
  /\ Zsum (map phf_Game_Total_Points
               (filter (fun x => phf_Player_Team_ID x =? 2) Season.joined)) = 8.
Proof.
  split; [|reflexivity].
  apply (team_total_is_sum_over_rows Season.joined Season.team_point_table
           Season.team_2 6 2);
    [vm_compute; reflexivity | right; left; reflexivity | reflexivity | reflexivity].
Defined.

(** X7.  In a [team_point_stats] that is produced, a team without a home
    row has a missing home total, and with it a missing 'Team Total Points'
    and a missing ratio, although it has away points; its away total is then
    a [float64] cell.  The same holds, with the sides exchanged, for a team
    without an away row. *)
Theorem one_sided_team_has_missing_total (phf : list phf_row)
        (t : list team_point_row) (r : team_point_row) :
  team_point_stats phf = Ok t -> In r t ->
  (points_total phf_Player_Team_ID (tp_Team_ID r) true phf = None ->
   tp_Total_Points_Home r = VFloat Float64.nan
   /\ tp_Total_Points r = VFloat Float64.nan
   /\ tp_Home_Away_Ratio r = VFloat Float64.nan
   /\ exists a, points_total phf_Player_Team_ID (tp_Team_ID r) false phf = Some a
                /\ tp_Total_Points_Away r = VFloat (Float64.of_int a))
  /\ (points_total phf_Player_Team_ID (tp_Team_ID r) false phf = None ->
      tp_Total_Points_Away r = VFloat Float64.nan
      /\ tp_Total_Points r = VFloat Float64.nan
      /\ tp_Home_Away_Ratio r = VFloat Float64.nan
      /\ exists h, points_total phf_Player_Team_ID (tp_Team_ID r) true phf = Some h
                   /\ tp_Total_Points_Home r = VFloat (Float64.of_int h)).
Proof.
  intros E Hr.
  destruct (point_stats_row_cells _ _ _ _ _ _ E Hr) as (Hi & Ha & Hh & Ht & Hq).
  assert (Hcols : has_column (home_away_pivot phf_Player_Team_ID phf) false = true
                  /\ has_column (home_away_pivot phf_Player_Team_ID phf) true = true).
  { unfold team_point_stats, point_stats in E.
    destruct (has_column (home_away_pivot phf_Player_Team_ID phf) false);
      [|discriminate E].
    destruct (has_column (home_away_pivot phf_Player_Team_ID phf) true);
      [auto|discriminate E]. }
  destruct Hcols as [Hcf Hct].
  assert (Hother : forall c,
             points_total phf_Player_Team_ID (tp_Team_ID r) c phf = None ->
             exists z, points_total phf_Player_Team_ID (tp_Team_ID r) (negb c) phf
                       = Some z).
  { intros c Hnone.
    apply PivotFacts.in_index_iff in Hi. destruct Hi as (row & Hrow & Eid).
    pose proof (EdgeFacts.points_total_of_row phf_Player_Team_ID phf row Hrow) as Hsome.
    rewrite Eid in Hsome.
    destruct (Bool.eqb_spec (phf_Is_Home row) c) as [Ec|Nc].
    - rewrite Ec in Hsome. contradiction.
    - assert (Eflag : phf_Is_Home row = negb c)
        by (destruct (phf_Is_Home row), c; simpl; congruence).
      rewrite Eflag in Hsome.
      destruct (points_total phf_Player_Team_ID (tp_Team_ID r) (negb c) phf);
        [eauto|contradiction]. }
  split; intros Hnone.
  - destruct (Hother true Hnone) as [a Hsome]. simpl in Hsome.
    pose proof (EdgeFacts.pivot_upcast _ _ _ _ Hi Hct Hnone _ _ _ Hsome) as Hcell.
    pose proof (PivotFacts.pivot_cell_missing _ _ _ _ Hnone) as Hmiss.
    rewrite Ht, Hq, Ha, Hh, Hcell, Hmiss.
    split; [reflexivity|]. unfold value_add, value_truediv. simpl astype_float.
    rewrite EdgeFacts.add_nan_r, Float64Facts.div_nan_r.
    split; [reflexivity|]. split; [reflexivity|]. eauto.
  - destruct (Hother false Hnone) as [h Hsome]. simpl in Hsome.
    pose proof (EdgeFacts.pivot_upcast _ _ _ _ Hi Hcf Hnone _ _ _ Hsome) as Hcell.
    pose proof (PivotFacts.pivot_cell_missing _ _ _ _ Hnone) as Hmiss.
    rewrite Ht, Hq, Ha, Hh, Hcell, Hmiss.
    split; [reflexivity|]. split; [reflexivity|]. split; [reflexivity|]. eauto.
Qed.

(** Team 1 of the one-sided season: 5 points away, no home row. *)
Lemma one_sided_team_has_missing_total_witness :
  team_point_stats Season2.joined_one_sided = Ok Season2.team_point_table_one_sided
  /\ In Season2.team_1_one_sided Season2.team_point_table_one_sided
  /\ points_total phf_Player_Team_ID 1 true Season2.joined_one_sided = None
  /\ tp_Total_Points_Away Season2.team_1_one_sided = VFloat (Float64.of_int 5)
  /\ tp_Total_Points Season2.team_1_one_sided = VFloat Float64.nan
  /\ tp_Home_Away_Ratio Season2.team_1_one_sided = VFloat Float64.nan.
Proof.
  assert (E : team_point_stats Season2.joined_one_sided
              = Ok Season2.team_point_table_one_sided) by (vm_compute; reflexivity).
  assert (Hin : In Season2.team_1_one_sided Season2.team_point_table_one_sided)
    by (left; reflexivity).
  split; [exact E|]. split; [exact Hin|]. split; [reflexivity|].
  split; [reflexivity|].
  destruct (proj1 (one_sided_team_has_missing_total Season2.joined_one_sided
                     Season2.team_point_table_one_sided
                     Season2.team_1_one_sided E Hin)
                  eq_refl) as (_ & Htotal & Hratio & _).
  split; [exact Htotal|exact Hratio].
Defined.

(** X8.  In [team_stats], a field position whose home points total is zero
    has the ratio plus infinity when its away total is positive, minus
    infinity when it is negative, and the missing value when it is zero
    too: the dampening of an infinite quotient is infinite. *)
Theorem zero_home_position_ratio (phf : list phf_row) (t : list team_stats_row)
        (r : team_stats_row) (a : Z) :
  team_stats phf = Ok t -> In r t ->
  points_total phf_Field_Position_ID (ts_Field_Position_ID r) true phf = Some 0 ->
  points_total phf_Field_Position_ID (ts_Field_Position_ID r) false phf = Some a ->
  ts_Total_Points_Home_Away_Ratio r
  = VFloat (if a =? 0 then Float64.nan
            else if a <? 0 then Float64.neg_inf else Float64.pos_inf).
Proof.
  intros E Hr Hh Ha.
  destruct (team_stats_row_cells _ _ _ E Hr) as (Ea & Eh & Eq).
  rewrite Eq, Ea, Eh, dampened_ratio_float, !PivotFacts.pivot_cell_float.
  unfold dampen. rewrite ratio_of_totals, Hh, Ha. simpl expected_ratio.
  f_equal. destruct (a =? 0); [reflexivity|].
  destruct (a <? 0); apply EdgeFacts.dampen_of_inf.
Qed.

(** The midfielders of the example season: no points at home, 5 away. *)
Lemma zero_home_position_ratio_witness :
  team_stats Season.joined = Ok Season2.team_stats_table_zero_home
  /\ In Season2.midfielders_zero_home Season2.team_stats_table_zero_home
  /\ points_total phf_Field_Position_ID 3 true Season.joined = Some 0
  /\ points_total phf_Field_Position_ID 3 false Season.joined = Some 5
  /\ ts_Total_Points_Home_Away_Ratio Season2.midfielders_zero_home
     = VFloat Float64.pos_inf.
Proof.
  assert (E : team_stats Season.joined = Ok Season2.team_stats_table_zero_home)
    by (vm_compute; reflexivity).
  assert (Hin : In Season2.midfielders_zero_home Season2.team_stats_table_zero_home)
    by (right; left; reflexivity).
  split; [exact E|]. split; [exact Hin|].
  split; [reflexivity|]. split; [reflexivity|].
  exact (zero_home_position_ratio Season.joined Season2.team_stats_table_zero_home
           Season2.midfielders_zero_home 5 E Hin eq_refl eq_refl).
Defined.

(* ================================================================== *)
(** * Merges against a table with unique index labels *)

Module MergeFacts.

Lemma has_label_in {R : Type} (i : Z) (table : list (Z * R)) :
  has_label i table = true <-> In i (map fst table).
Proof.
  unfold has_label. rewrite existsb_exists. split.
  - intros (j & Hj & E). apply Z.eqb_eq in E. subst. assumption.
  - intros H. exists i. split; [assumption|apply Z.eqb_refl].
Qed.

Lemma has_label_false {R : Type} (i : Z) (table : list (Z * R)) :
  ~ In i (map fst table) -> has_label i table = false.
Proof.
  intros H. destruct (has_label i table) eqn:E; [|reflexivity].
  apply has_label_in in E. contradiction.
Qed.

(** Under unique labels a key has at most one partner. *)
Lemma partners_unique {R : Type} (k : Z) (right : list (Z * R)) :
  NoDup (map fst right) ->
  (has_label k right = false -> filter (fun ir => fst ir =? k) right = [])
  /\ (has_label k right = true ->
      exists r, filter (fun ir => fst ir =? k) right = [(k, r)]).
Proof.
  induction right as [|[i r] right IH]; simpl; intros Hnd.
  - unfold has_label. simpl. split; auto. discriminate.
  - inversion Hnd as [|? ? Hnot Hrest]; subst.
    destruct (IH Hrest) as (Hnone & Hsome).
    unfold has_label in *. simpl.
    destruct (Z.eqb_spec i k) as [->|Ne].
    + rewrite Z.eqb_refl. simpl.
      assert (Hf : has_label k right = false) by (apply has_label_false; assumption).
      unfold has_label in Hf. rewrite (Hnone Hf).
      split; [discriminate|]. eauto.
    + assert (Ek : (k =? i) = false) by (apply Z.eqb_neq; congruence).
      rewrite Ek. simpl. split; assumption.
Qed.

(** An inner merge against unique labels keeps each left row at most once,
    in order: the left rows of the result are the left rows with a
    partner. *)
Lemma merge_unique {L R : Type} (key : L -> Z) (left : list L)
      (right : list (Z * R)) :
  NoDup (map fst right) ->
  map fst (merge key left right) = filter (fun l => has_label (key l) right) left.
Proof.
  intros Hnd. unfold merge.
  induction left as [|l left IH]; simpl; [reflexivity|].
  rewrite map_app, IH.
  destruct (partners_unique (key l) right Hnd) as (Hnone & Hsome).
  destruct (has_label (key l) right) eqn:E.
  - destruct (Hsome eq_refl) as [r Er]. rewrite Er. reflexivity.
  - rewrite (Hnone eq_refl). reflexivity.
Qed.

Lemma map_filter_through {A B : Type} (f : A -> B) (p : B -> bool) (l : list A) :
  map f (filter (fun a => p (f a)) l) = filter p (map f l).
Proof.
  induction l as [|a l IH]; simpl; [reflexivity|].
  destruct (p (f a)); simpl; rewrite IH; reflexivity.
Qed.

Lemma filter_filter_and {A : Type} (p q : A -> bool) (l : list A) :
  filter p (filter q l) = filter (fun a => q a && p a) l.
Proof.
  induction l as [|a l IH]; simpl; [reflexivity|].
  destruct (q a); simpl; [destruct (p a)|]; rewrite IH; reflexivity.
Qed.

(** Filtering the rows of a frame keeps its index labels unique. *)
Lemma filtered_labels_unique {Row Label : Type} (keep : Row -> bool)
      (label : Row -> Label) (frame : list Row)
      (U : NoDup (map label frame)) :
  NoDup (map label (filter keep frame)).
Proof.
  induction frame as [|row frame IH]; simpl in *; [constructor|].
  apply NoDup_cons_iff in U. destruct U as [Hfresh U].
  destruct (keep row); simpl; [|exact (IH U)].
  apply NoDup_cons; [|exact (IH U)].
  rewrite in_map_iff. intros (x & E & Hx).
  apply filter_In in Hx. apply Hfresh.
  rewrite in_map_iff. exists x. tauto.
Qed.

(** The rows of [player_team_stats], one per row of the merged frame. *)
Lemma player_team_stats_rows (player_teams : list (Z * player_team_row))
      (team_score_stats : list (Z * team_score_row)) :
  exists cell : Z -> value,
    player_team_stats player_teams team_score_stats
    = map (fun d => (fst (fst d), pts_assign (snd (fst d)) (snd d) (cell (fst (fst d)))))
          (player_teams_merged player_teams team_score_stats).
Proof.
  unfold player_team_stats, reindex.
  set (df := player_teams_merged player_teams team_score_stats).
  eexists. rewrite map_map, combine_map_r, map_map. reflexivity.
Qed.

End MergeFacts.

(** X9.  A player has a row in [player_team_stats] exactly when the player
    is in [player_teams] and the player's team is an index label of
    [team_score_stats]; a player of an unknown team is dropped.  The row
    carries the player's columns and the goal totals of the player's own
    team. *)
Theorem player_team_stats_keeps_known_teams
        (player_teams : list (Z * player_team_row))
        (team_score_stats : list (Z * team_score_row)) :
  let stats := player_team_stats player_teams team_score_stats in
  (forall player_id row,
      In (player_id, row) stats ->
      exists p t,
        In (player_id, p) player_teams
        /\ In (pt_Player_Team_ID p, t) team_score_stats
        /\ row = pts_assign p t (pts_Team_Total_Points row))
  /\ (forall player_id p t,
         In (player_id, p) player_teams ->
         In (pt_Player_Team_ID p, t) team_score_stats ->
         exists c, In (player_id, pts_assign p t c) stats).
Proof.
  intros stats. unfold stats.
  destruct (MergeFacts.player_team_stats_rows player_teams team_score_stats)
    as [cell E].
  rewrite E. unfold player_teams_merged. split.
  - intros player_id row Hin. apply in_map_iff in Hin.
    destruct Hin as ([[i p] t] & Erow & Hd). simpl in Erow.
    inversion Erow; subst; clear Erow.
    apply PandasFacts.in_merge in Hd. simpl in Hd.
    exists p, t. tauto.
  - intros player_id p t Hp Ht. exists (cell player_id).
    apply in_map_iff. exists ((player_id, p), t). split; [reflexivity|].
    apply PandasFacts.in_merge. simpl. auto.
Qed.

(** In the example season every player's team is known; a player of a
    team 9 would be dropped. *)
Lemma player_team_stats_keeps_known_teams_witness :
  (exists c, In (3, pts_assign (Season.player 2 4 "FWD" "Cyd" 7)
                          {| tss_Team_Short_Name := "BBB";
                             tss_Total_Team_Goals_Scored := 1;
                             tss_Total_Team_Goals_Conceded := 3 |} c)
                Season.stats)
  /\ player_team_stats [(4, Season.player 9 1 "GK" "Dee" 3)] Season.team_score_stats
     = [].
Proof.
  split; [|reflexivity].
  apply (proj2 (player_team_stats_keeps_known_teams Season.player_teams
                  Season.team_score_stats) 3 (Season.player 2 4 "FWD" "Cyd" 7));
    [right; right; left; reflexivity | right; left; reflexivity].
Defined.

(** Player 2 of the example season plays for team 1 (15 points in all) and
    has the cell of team 2 (7 points). *)
Lemma team_total_points_aligned_on_player_id_witness :
  exists row,
    In (2, row) Season.stats
    /\ pts_Player_Team_ID row = 1
    /\ team_points 1 Season.stats = 15
    /\ team_points 2 Season.stats = 7
    /\ astype_float (pts_Team_Total_Points row) = Float64.of_int 7.
Proof.
  exists (pts_assign (Season.player 1 2 "DEF" "Bob" 5)
            {| tss_Team_Short_Name := "AAA"; tss_Total_Team_Goals_Scored := 3;
               tss_Total_Team_Goals_Conceded := 1 |}
            (VFloat (Float64.of_int 7))).
  assert (Hin : In (2, pts_assign (Season.player 1 2 "DEF" "Bob" 5)
                        {| tss_Team_Short_Name := "AAA";
                           tss_Total_Team_Goals_Scored := 3;
                           tss_Total_Team_Goals_Conceded := 1 |}
                        (VFloat (Float64.of_int 7)))
                 Season.stats)
    by (vm_compute; right; left; reflexivity).
  split; [exact Hin|]. split; [reflexivity|].
  split; [reflexivity|]. split; [reflexivity|].
  pose proof (team_total_points_aligned_on_player_id Season.player_teams
                Season.team_score_stats 2 _ Hin) as H.
  rewrite H. reflexivity.
Defined.

(** The index of [player_team_stats] in the row order of [merge] as it is
    modelled here (left order). *)
Lemma player_team_stats_labels
      (player_teams : list (Z * player_team_row))
      (team_score_stats : list (Z * team_score_row)) :
  NoDup (map fst team_score_stats) ->
  map fst (player_team_stats player_teams team_score_stats)
  = map fst (filter (fun ir => has_label (pt_Player_Team_ID (snd ir)) team_score_stats)
                    player_teams).
Proof.
  intros Ht.
  destruct (MergeFacts.player_team_stats_rows player_teams team_score_stats)
    as [cell E].
  rewrite E, map_map. simpl.
  rewrite <- (map_map fst fst). unfold player_teams_merged.
  rewrite MergeFacts.merge_unique by assumption. reflexivity.
Qed.

(** X11.  With unique index labels in [player_teams] and in
    [team_score_stats], [player_team_stats] has unique index labels too:
    they are, each once, the ids of the players whose team is known.  The
    order of the rows is not part of the statement: it differs between
    versions of pandas. *)
Theorem player_team_stats_index_unique
        (player_teams : list (Z * player_team_row))
        (team_score_stats : list (Z * team_score_row)) :
  NoDup (map fst player_teams) -> NoDup (map fst team_score_stats) ->
  Permutation
    (map fst (player_team_stats player_teams team_score_stats))
    (map fst (filter (fun ir => has_label (pt_Player_Team_ID (snd ir)) team_score_stats)
                     player_teams))
  /\ NoDup (map fst (player_team_stats player_teams team_score_stats)).
Proof.
  intros Hp Ht.
  rewrite (player_team_stats_labels player_teams team_score_stats Ht).
  split; [apply Permutation_refl|].
  apply MergeFacts.filtered_labels_unique. assumption.
Qed.

(** The example season: the players 1, 2 and 3, each once. *)
Lemma player_team_stats_index_unique_witness :
  Permutation (map fst Season.stats) [3; 1; 2] /\ NoDup (map fst Season.stats).
Proof.
  assert (Hp : NoDup (map fst Season.player_teams))
    by (simpl; repeat constructor; simpl; intuition discriminate).
  assert (Ht : NoDup (map fst Season.team_score_stats))
    by (simpl; repeat constructor; simpl; intuition discriminate).
  destruct (player_team_stats_index_unique Season.player_teams
              Season.team_score_stats Hp Ht) as [P N].
  split; [|exact N].
  eapply Permutation_trans; [exact P|].
  change (Permutation [1; 2; 3] [3; 1; 2]).
  apply Permutation_sym, (Permutation_cons_app [1; 2] [] 3), Permutation_refl.
Defined.

(** The history rows of the joined table in the row order of [merge] as it
    is modelled here (left order). *)
Lemma joined_history_parts (players_history : list history_row)
      (fixtures : list (Z * fixture_row))
      (stats : list (Z * player_team_stats_row)) :
  NoDup (map fst fixtures) -> NoDup (map fst stats) ->
  map history_part (players_history_fixtures players_history fixtures stats)
  = filter (matched fixtures stats) players_history.
Proof.
  intros Hf Hs. unfold players_history_fixtures, matched.
  rewrite map_map.
  rewrite (map_ext _ (fun hfp => fst (fst hfp)))
    by (intros [[h f] p]; apply history_part_assign).
  rewrite <- (map_map fst fst).
  rewrite MergeFacts.merge_unique by assumption.
  rewrite (MergeFacts.map_filter_through fst
             (fun h => has_label (ph_Player_ID h) stats)).
  rewrite MergeFacts.merge_unique by assumption.
  apply MergeFacts.filter_filter_and.
Qed.

(** X12.  With unique index labels in [fixtures] and in
    [player_team_stats], the joined table has exactly one row for each
    history row both of whose keys are known, and no other row: a matched
    history row occurs in it as often as in [players_history], an unmatched
    one not at all.  The order of the rows is not part of the statement: it
    differs between versions of pandas. *)
Theorem joined_rows_are_matched_history (players_history : list history_row)
        (fixtures : list (Z * fixture_row))
        (stats : list (Z * player_team_stats_row)) :
  NoDup (map fst fixtures) -> NoDup (map fst stats) ->
  Permutation
    (map history_part (players_history_fixtures players_history fixtures stats))
    (filter (matched fixtures stats) players_history).
Proof.
  intros Hf Hs.
  rewrite (joined_history_parts players_history fixtures stats Hf Hs).
  apply Permutation_refl.
Qed.

(** The example season: five of the seven history rows are matched. *)
Lemma joined_rows_are_matched_history_witness :
  Permutation
    (map history_part Season.joined)
    [Season.appearance 1 1 0 90; Season.appearance 1 2 5 90;
     Season.appearance 2 1 0 0;
     Season.appearance 3 1 2 90; Season.appearance 3 2 6 45]
  /\ List.length Season.players_history = 7%nat.
Proof.
  split; [|reflexivity].
  unfold Season.joined.
  apply (joined_rows_are_matched_history Season.players_history Season.fixtures
           Season.stats).
  - simpl. repeat constructor; simpl; intuition discriminate.
  - change (NoDup [1; 2; 3]). repeat constructor; simpl; intuition discriminate.
Defined.

(** X13.  In every joined row of a fixture between two different teams the
    opponent differs from the player's own team.  A player whose team is the
    away side, and also a player whose team is neither side of the fixture,
    is flagged as away with the home team as opponent. *)
Theorem opponent_is_the_other_side (players_history : list history_row)
        (fixtures : list (Z * fixture_row))
        (stats : list (Z * player_team_stats_row)) (r : phf_row) :
  In r (players_history_fixtures players_history fixtures stats) ->
  (phf_Home_Team_ID r <> phf_Away_Team_ID r ->
   phf_Opp_Team_ID r <> phf_Player_Team_ID r)
  /\ (phf_Player_Team_ID r <> phf_Home_Team_ID r ->
      phf_Is_Home r = false /\ phf_Opp_Team_ID r = phf_Home_Team_ID r).
Proof.
  rewrite in_players_history_fixtures.
  intros (h & f & p & _ & _ & _ & ->). simpl.
  destruct (Z.eqb_spec (fx_Home_Team_ID f) (pts_Player_Team_ID p)) as [E|N].
  - split; [congruence|]. intros H. congruence.
  - split; [congruence|]. auto.
Qed.

Lemma opponent_is_the_other_side_witness :
  In Season.away_row Season.joined
  /\ phf_Opp_Team_ID Season.away_row <> phf_Player_Team_ID Season.away_row
  /\ phf_Is_Home Season.away_row = false.
Proof.
  assert (H : In Season.away_row Season.joined)
    by (vm_compute; right; left; reflexivity).
  split; [exact H|].
  destruct (opponent_is_the_other_side Season.players_history Season.fixtures
              Season.stats Season.away_row H) as [H1 H2].
  split.
  - apply H1. vm_compute. discriminate.
  - apply H2. vm_compute. discriminate.
Defined.

(* ================================================================== *)
(** * [player_fixtures_team_stats] *)

Module FeatureFacts.

Lemma existsb_iff {A : Type} (p : A -> bool) (l : list A) (b : bool) :
  (b = true <-> exists a, In a l /\ p a = true) -> b = existsb p l.
Proof.
  intros H. apply eq_true_iff_eq. rewrite H, existsb_exists. reflexivity.
Qed.

(** The tables behind the five merges, when all three are produced. *)
Lemma player_fixtures_team_stats_ok (phf : list phf_row)
      (team_score_stats : list (Z * team_score_row)) (t : list pfts_row) :
  player_fixtures_team_stats phf team_score_stats = Ok t ->
  exists tps tpos ts,
    team_point_stats phf = Ok tps
    /\ team_point_opp_stats phf = Ok tpos
    /\ team_stats phf = Ok ts
    /\ forall r,
        In r t <->
        exists own opp opps score ratio,
          In (pfts_base r) phf
          /\ In (phf_Player_Team_ID (pfts_base r), own)
                (map (fun x => (tp_Team_ID x, tp_Total_Points x)) tps)
          /\ In (phf_Opp_Team_ID (pfts_base r), opp)
                (map (fun x => (tp_Team_ID x, tp_Total_Points x)) tps)
          /\ In (phf_Player_Team_ID (pfts_base r), opps)
                (map (fun x => (tp_Team_ID x, tp_Total_Points x)) tpos)
          /\ In (phf_Opp_Team_ID (pfts_base r), score) team_score_stats
          /\ In (phf_Field_Position_ID (pfts_base r), ratio)
                (map (fun x => (ts_Field_Position_ID x,
                                ts_Total_Points_Home_Away_Ratio x)) ts)
          /\ r = {| pfts_base := pfts_base r;
                    pfts_Team_Total_Points := own;
                    pfts_Opp_Team_Total_Points := opp;
                    pfts_Team_Total_Points_Opps := opps;
                    pfts_Opp_Team_Short_Name := tss_Team_Short_Name score;
                    pfts_Total_Opp_Team_Goals_Scored :=
                      tss_Total_Team_Goals_Scored score;
                    pfts_Total_Opp_Team_Goals_Conceded :=
                      tss_Total_Team_Goals_Conceded score;
                    pfts_Total_Points_Home_Away_Ratio := ratio |}.
Proof.
  unfold player_fixtures_team_stats, Features.bind.
  destruct (team_point_stats phf) as [tps|]; [|discriminate].
  destruct (team_point_opp_stats phf) as [tpos|]; [|discriminate].
  destruct (team_stats phf) as [ts|]; [|discriminate].
  intros E. inversion E; subst t; clear E.
  exists tps, tpos, ts. repeat split; try reflexivity.
  - intros Hr. apply in_map_iff in Hr.
    destruct Hr as ([[[[[b own] opp] opps] score] ratio] & <- & H).
    simpl.
    apply PandasFacts.in_merge in H. destruct H as [H H5].
    apply PandasFacts.in_merge in H. destruct H as [H H4].
    apply PandasFacts.in_merge in H. destruct H as [H H3].
    apply PandasFacts.in_merge in H. destruct H as [H H2].
    apply PandasFacts.in_merge in H. destruct H as [H H1].
    simpl in *. exists own, opp, opps, score, ratio. tauto.
  - intros (own & opp & opps & score & ratio & H & H1 & H2 & H3 & H4 & H5 & Er).
    apply in_map_iff.
    exists (((((pfts_base r, own), opp), opps), score), ratio).
    split; [symmetry; exact Er|].
    repeat (apply PandasFacts.in_merge; split); simpl; assumption.
Qed.

End FeatureFacts.

(** X14.  [player_fixtures_team_stats] is produced exactly when the joined
    table has an away row and a home row; otherwise it raises the
    [KeyError] of [team_point_stats], the first of the three tables it
    reads. *)
Theorem player_fixtures_team_stats_needs_both_sides (phf : list phf_row)
        (team_score_stats : list (Z * team_score_row)) :
  ((exists t, player_fixtures_team_stats phf team_score_stats = Ok t)
   <-> (exists r, In r phf /\ phf_Is_Home r = false)
       /\ (exists r, In r phf /\ phf_Is_Home r = true))
  /\ (forall e,
         player_fixtures_team_stats phf team_score_stats = Raise e ->
         team_point_stats phf = Raise e).
Proof.
  pose proof (EdgeFacts.point_stats_outcome
                "Team Total Points Away" "Team Total Points Home"
                phf_Player_Team_ID phf) as H1.
  pose proof (EdgeFacts.point_stats_outcome
                "Team Total Points Opps Away" "Team Total Points Opps Home"
                phf_Opp_Team_ID phf) as H2.
  pose proof (EdgeFacts.team_stats_outcome phf) as H3.
  fold (team_point_stats phf) in H1. fold (team_point_opp_stats phf) in H2.
  simpl in H1, H2, H3.
  unfold player_fixtures_team_stats, Features.bind.
  destruct (team_point_stats phf) as [tps|e1] eqn:E1.
  - destruct H1 as [[E _]|[[E _]|[_ [Ha Hh]]]]; try discriminate.
    destruct (team_point_opp_stats phf) as [tpos|e2] eqn:E2;
      [|destruct H2 as [[_ N]|[[_ [_ N]]|[[t E] _]]]; try tauto; discriminate].
    destruct (team_stats phf) as [ts|e3] eqn:E3;
      [|destruct H3 as [[_ N]|[[_ [_ N]]|[[t E] _]]]; try tauto; discriminate].
    split; [split; eauto|]. intros e E. discriminate.
  - split; [|intros e E; inversion E; reflexivity].
    split; [intros [t E]; discriminate|].
    intros [Ha Hh].
    destruct H1 as [[_ N]|[[_ [_ N]]|[[t E] _]]]; try tauto. discriminate.
Qed.

(** X15.  Every row of [player_fixtures_team_stats] extends a row of the
    joined table with the 'Team Total Points' of the player's own team, the
    'Team Total Points' of the opponent, the 'Team Total Points Opps' of the
    player's own team, the short name and goal totals of the opponent, and
    the dampened home/away ratio of the player's own field position. *)
Theorem joined_in_columns_follow_their_keys (phf : list phf_row)
        (team_score_stats : list (Z * team_score_row))
        (t : list pfts_row) (r : pfts_row) :
  player_fixtures_team_stats phf team_score_stats = Ok t -> In r t ->
  let b := pfts_base r in
  In b phf
  /\ (exists tps own opp,
         team_point_stats phf = Ok tps /\ In own tps /\ In opp tps
         /\ tp_Team_ID own = phf_Player_Team_ID b
         /\ tp_Team_ID opp = phf_Opp_Team_ID b
         /\ pfts_Team_Total_Points r = tp_Total_Points own
         /\ pfts_Opp_Team_Total_Points r = tp_Total_Points opp)
  /\ (exists tpos opps,
         team_point_opp_stats phf = Ok tpos /\ In opps tpos
         /\ tp_Team_ID opps = phf_Player_Team_ID b
         /\ pfts_Team_Total_Points_Opps r = tp_Total_Points opps)
  /\ (exists score,
         In (phf_Opp_Team_ID b, score) team_score_stats
         /\ pfts_Opp_Team_Short_Name r = tss_Team_Short_Name score
         /\ pfts_Total_Opp_Team_Goals_Scored r = tss_Total_Team_Goals_Scored score
         /\ pfts_Total_Opp_Team_Goals_Conceded r = tss_Total_Team_Goals_Conceded score)
  /\ pfts_Total_Points_Home_Away_Ratio r
     = VFloat (dampen
                 (total_float (points_total phf_Field_Position_ID
                                 (phf_Field_Position_ID b) false phf))
                 (total_float (points_total phf_Field_Position_ID
                                 (phf_Field_Position_ID b) true phf))).
Proof.
  intros E Hr b. unfold b. clear b.
  destruct (FeatureFacts.player_fixtures_team_stats_ok _ _ _ E)
    as (tps & tpos & ts & E1 & E2 & E3 & Hrows).
  apply Hrows in Hr.
  destruct Hr as (own & opp & opps & score & ratio
                  & Hb & H1 & H2 & H3 & H4 & H5 & Er).
  apply in_map_iff in H1. destruct H1 as (x1 & X1 & I1).
  apply in_map_iff in H2. destruct H2 as (x2 & X2 & I2).
  apply in_map_iff in H3. destruct H3 as (x3 & X3 & I3).
  apply in_map_iff in H5. destruct H5 as (x5 & X5 & I5).
  inversion X1 as [[K1 V1]]. inversion X2 as [[K2 V2]].
  inversion X3 as [[K3 V3]]. inversion X5 as [[K5 V5]].
  assert (F1 : pfts_Team_Total_Points r = own) by (rewrite Er; reflexivity).
  assert (F2 : pfts_Opp_Team_Total_Points r = opp) by (rewrite Er; reflexivity).
  assert (F3 : pfts_Team_Total_Points_Opps r = opps) by (rewrite Er; reflexivity).
  assert (F4 : pfts_Opp_Team_Short_Name r = tss_Team_Short_Name score)
    by (rewrite Er; reflexivity).
  assert (F5 : pfts_Total_Opp_Team_Goals_Scored r = tss_Total_Team_Goals_Scored score)
    by (rewrite Er; reflexivity).
  assert (F6 : pfts_Total_Opp_Team_Goals_Conceded r
               = tss_Total_Team_Goals_Conceded score)
    by (rewrite Er; reflexivity).
  assert (F7 : pfts_Total_Points_Home_Away_Ratio r = ratio)
    by (rewrite Er; reflexivity).
  clear Er.
  split; [exact Hb|].
  split.
  { exists tps, x1, x2. rewrite F1, F2, V1, V2.
    repeat split; assumption || congruence. }
  split.
  { exists tpos, x3. rewrite F3, V3. repeat split; assumption || congruence. }
  split.
  { exists score. repeat split; assumption || congruence. }
  rewrite F7, <- V5.
  destruct (team_stats_row_cells _ _ _ E3 I5) as (Ea & Eh & Eq).
  rewrite Eq, Ea, Eh, dampened_ratio_float, !PivotFacts.pivot_cell_float.
  congruence.
Qed.

(** Player 1 at home in fixture 1 of the example season: own total 5,
    opponent's total 8, the opponent's name and goals, and the infinite
    ratio of the midfielders. *)
Lemma joined_in_columns_follow_their_keys_witness :
  player_fixtures_team_stats Season.joined Season.team_score_stats
  = Ok Season2.feature_table
  /\ In Season2.first_feature_row Season2.feature_table
  /\ pfts_Total_Points_Home_Away_Ratio Season2.first_feature_row
     = VFloat (dampen
                 (total_float (points_total phf_Field_Position_ID 3 false Season.joined))
                 (total_float (points_total phf_Field_Position_ID 3 true Season.joined))).
Proof.
  assert (E : player_fixtures_team_stats Season.joined Season.team_score_stats
              = Ok Season2.feature_table) by (vm_compute; reflexivity).
  assert (Hin : In Season2.first_feature_row Season2.feature_table)
    by (vm_compute; left; reflexivity).
  split; [exact E|]. split; [exact Hin|].
  exact (proj2 (proj2 (proj2 (proj2
           (joined_in_columns_follow_their_keys Season.joined Season.team_score_stats
              Season2.feature_table Season2.first_feature_row E Hin))))).
Defined.

Module CardinalityFacts.

(** The left rows of a merge, seen through a projection [g] of the left
    rows on which the key depends. *)
Lemma merge_through {L R X : Type} (g : L -> X) (k : X -> Z) (left : list L)
      (right : list (Z * R)) :
  NoDup (map fst right) ->
  map (fun lr => g (fst lr)) (merge (fun l => k (g l)) left right)
  = filter (fun x => has_label (k x) right) (map g left).
Proof.
  intros Hnd. rewrite <- (map_map fst g).
  rewrite MergeFacts.merge_unique by assumption.
  apply (MergeFacts.map_filter_through g (fun x => has_label (k x) right)).
Qed.

Lemma has_label_totals (k : Z) (t : list team_point_row) :
  has_label k (map (fun x => (tp_Team_ID x, tp_Total_Points x)) t) = true
  <-> In k (map tp_Team_ID t).
Proof. rewrite MergeFacts.has_label_in, map_map. simpl. reflexivity. Qed.

Lemma has_label_ratios (k : Z) (t : list team_stats_row) :
  has_label k (map (fun x => (ts_Field_Position_ID x,
                              ts_Total_Points_Home_Away_Ratio x)) t) = true
  <-> In k (map ts_Field_Position_ID t).
Proof. rewrite MergeFacts.has_label_in, map_map. simpl. reflexivity. Qed.

End CardinalityFacts.

(** The joined rows under the rows of [player_fixtures_team_stats], in the
    row order of [merge] as it is modelled here (left order). *)
Lemma feature_row_bases (phf : list phf_row)
      (team_score_stats : list (Z * team_score_row)) (t : list pfts_row) :
  NoDup (map fst team_score_stats) ->
  player_fixtures_team_stats phf team_score_stats = Ok t ->
  map pfts_base t = filter (kept phf team_score_stats) phf.
Proof.
  intros Hnd E.
  unfold player_fixtures_team_stats, Features.bind in E.
  destruct (team_point_stats phf) as [tps|] eqn:E1; [|discriminate].
  destruct (team_point_opp_stats phf) as [tpos|] eqn:E2; [|discriminate].
  destruct (team_stats phf) as [ts|] eqn:E3; [|discriminate].
  inversion E; subst t; clear E.
  set (R1 := map (fun x => (tp_Team_ID x, tp_Total_Points x)) tps).
  set (R3 := map (fun x => (tp_Team_ID x, tp_Total_Points x)) tpos).
  set (R5 := map (fun x => (ts_Field_Position_ID x,
                            ts_Total_Points_Home_Away_Ratio x)) ts).
  assert (N1 : NoDup (map fst R1)).
  { unfold R1. rewrite map_map. change (NoDup (map tp_Team_ID tps)).
    rewrite (IndexFacts.point_stats_ids _ _ _ _ _ E1).
    apply IndexFacts.pivot_index_nodup. }
  assert (N3 : NoDup (map fst R3)).
  { unfold R3. rewrite map_map. change (NoDup (map tp_Team_ID tpos)).
    rewrite (IndexFacts.point_stats_ids _ _ _ _ _ E2).
    apply IndexFacts.pivot_index_nodup. }
  assert (N5 : NoDup (map fst R5)).
  { unfold R5. rewrite map_map. change (NoDup (map ts_Field_Position_ID ts)).
    rewrite (IndexFacts.team_stats_ids _ _ E3).
    apply IndexFacts.pivot_index_nodup. }
  set (m1 := merge phf_Player_Team_ID phf R1).
  set (m2 := merge (fun r => phf_Opp_Team_ID (fst r)) m1 R1).
  set (m3 := merge (fun r => phf_Player_Team_ID (fst (fst r))) m2 R3).
  set (m4 := merge (fun r => phf_Opp_Team_ID (fst (fst (fst r)))) m3 team_score_stats).
  set (m5 := merge (fun r => phf_Field_Position_ID (fst (fst (fst (fst r))))) m4 R5).
  rewrite map_map.
  rewrite (map_ext _ (fun lr => fst (fst (fst (fst (fst lr))))))
    by (intros [[[[[b own] opp] opps] score] ratio]; reflexivity).
  assert (S5 : map (fun lr => fst (fst (fst (fst (fst lr))))) m5
               = filter (fun x => has_label (phf_Field_Position_ID x) R5)
                        (map (fun r => fst (fst (fst (fst r)))) m4))
    by exact (CardinalityFacts.merge_through
                (fun r : ((((phf_row * value) * value) * value) * team_score_row) =>
                   fst (fst (fst (fst r))))
                phf_Field_Position_ID m4 R5 N5).
  assert (S4 : map (fun lr => fst (fst (fst (fst lr)))) m4
               = filter (fun x => has_label (phf_Opp_Team_ID x) team_score_stats)
                        (map (fun r => fst (fst (fst r))) m3))
    by exact (CardinalityFacts.merge_through
                (fun r : (((phf_row * value) * value) * value) => fst (fst (fst r)))
                phf_Opp_Team_ID m3 team_score_stats Hnd).
  assert (S3 : map (fun lr => fst (fst (fst lr))) m3
               = filter (fun x => has_label (phf_Player_Team_ID x) R3)
                        (map (fun r => fst (fst r)) m2))
    by exact (CardinalityFacts.merge_through
                (fun r : ((phf_row * value) * value) => fst (fst r))
                phf_Player_Team_ID m2 R3 N3).
  assert (S2 : map (fun lr => fst (fst lr)) m2
               = filter (fun x => has_label (phf_Opp_Team_ID x) R1)
                        (map (fun r => fst r) m1))
    by exact (CardinalityFacts.merge_through
                (fun r : (phf_row * value) => fst r)
                phf_Opp_Team_ID m1 R1 N1).
  assert (S1 : map (fun lr => fst lr) m1
               = filter (fun x => has_label (phf_Player_Team_ID x) R1) phf).
  { pose proof (CardinalityFacts.merge_through
                  (fun r : phf_row => r) phf_Player_Team_ID phf R1 N1) as S.
    rewrite map_id in S. exact S. }
  rewrite S5, S4, S3, S2, S1.
  rewrite !MergeFacts.filter_filter_and.
  apply filter_ext_in. intros b Hb. unfold kept.
  assert (Q1 : has_label (phf_Player_Team_ID b) R1 = true).
  { apply CardinalityFacts.has_label_totals.
    rewrite (IndexFacts.point_stats_ids _ _ _ _ _ E1).
    apply PivotFacts.in_index_iff. eauto. }
  assert (Q5 : has_label (phf_Field_Position_ID b) R5 = true).
  { apply CardinalityFacts.has_label_ratios.
    rewrite (IndexFacts.team_stats_ids _ _ E3).
    apply PivotFacts.in_index_iff. eauto. }
  assert (Q2 : has_label (phf_Opp_Team_ID b) R1
               = existsb (fun r => phf_Player_Team_ID r =? phf_Opp_Team_ID b) phf).
  { apply FeatureFacts.existsb_iff. unfold R1.
    rewrite CardinalityFacts.has_label_totals,
      (IndexFacts.point_stats_ids _ _ _ _ _ E1), PivotFacts.in_index_iff.
    split; intros (r & Hr & Er); exists r; (split; [assumption|]);
      [apply Z.eqb_eq|apply Z.eqb_eq in Er]; assumption. }
  assert (Q3 : has_label (phf_Player_Team_ID b) R3
               = existsb (fun r => phf_Opp_Team_ID r =? phf_Player_Team_ID b) phf).
  { apply FeatureFacts.existsb_iff. unfold R3.
    rewrite CardinalityFacts.has_label_totals,
      (IndexFacts.point_stats_ids _ _ _ _ _ E2), PivotFacts.in_index_iff.
    split; intros (r & Hr & Er); exists r; (split; [assumption|]);
      [apply Z.eqb_eq|apply Z.eqb_eq in Er]; assumption. }
  rewrite Q1, Q2, Q3, Q5. simpl. rewrite andb_true_r, andb_assoc. reflexivity.
Qed.

(** X16.  With unique index labels in [team_score_stats],
    [player_fixtures_team_stats] has exactly one row for each joined row
    that the merges keep and no other row: a kept joined row lies under as
    many of its rows as it occurs in the joined table, a dropped one under
    none.  A joined row is kept when its opponent is the team of some
    joined row, its team is the opponent of some joined row, and its
    opponent has a row in [team_score_stats]; any other row is dropped
    without notice.  The order of the rows is not part of the statement: it
    differs between versions of pandas. *)
Theorem feature_rows_are_kept_joined_rows (phf : list phf_row)
        (team_score_stats : list (Z * team_score_row)) (t : list pfts_row) :
  NoDup (map fst team_score_stats) ->
  player_fixtures_team_stats phf team_score_stats = Ok t ->
  Permutation (map pfts_base t) (filter (kept phf team_score_stats) phf).
Proof.
  intros Hnd E.
  rewrite (feature_row_bases phf team_score_stats t Hnd E).
  apply Permutation_refl.
Qed.

(** In the season with the stranger, team 3 is an opponent but the team of
    no joined row: the row of the fixture against it is dropped, four of
    five joined rows remain. *)
Lemma feature_rows_are_kept_joined_rows_witness :
  player_fixtures_team_stats Season2.joined_with_stranger
                             Season2.team_score_stats_with_stranger
  = Ok Season2.feature_table_with_stranger
  /\ List.length Season2.joined_with_stranger = 5%nat
  /\ Permutation
       (map phf_Fixture_ID (map pfts_base Season2.feature_table_with_stranger))
       [1; 1; 2; 2].
Proof.
  assert (E : player_fixtures_team_stats Season2.joined_with_stranger
                Season2.team_score_stats_with_stranger
              = Ok Season2.feature_table_with_stranger) by (vm_compute; reflexivity).
  split; [exact E|]. split; [reflexivity|].
  assert (Hnd : NoDup (map fst Season2.team_score_stats_with_stranger))
    by (change (NoDup [1; 2; 3]); repeat constructor; simpl; intuition discriminate).
  eapply Permutation_trans.
  - apply Permutation_map.
    exact (feature_rows_are_kept_joined_rows Season2.joined_with_stranger
             Season2.team_score_stats_with_stranger
             Season2.feature_table_with_stranger Hnd E).
  - change (Permutation [1; 2; 1; 2] [1; 1; 2; 2]).
    apply perm_skip, perm_swap.
Defined.

(* ================================================================== *)
(** * The rows the dataset builder hands to the split *)



